(** * Deployment orchestration of [ProvDeployK8sCortxLib]

  A shallow embedding of [libs/prov/prov_k8s_cortx_deploy.py]: the disk
  partitioning of [update_sol_yaml], the manifest edits
  ([update_cvg_sol_file], [update_image_section_sol_file], ...), the
  prerequisite check [prereq_vm], the status query [get_hctl_status], the
  teardown [destroy_setup] and the phase sequencing of [test_deployment].

  Python values are modelled as the source has them: integers are [Z],
  lists are [list], dictionaries are insertion-ordered association lists,
  exceptions are an error result, and remote command execution is an
  explicit world with a trace of the commands that were run. *)

From Stdlib Require Import ZArith Lia Ascii String DecimalString DecimalZ DecimalPos.
From stdpp Require Import base list gmap strings.

Open Scope string_scope.
Open Scope Z_scope.

(** ** Python primitives *)

Module Py.

(** Exceptions the modelled code can raise. [ExecFailure] is what the remote
    executor raises for a failed command, [Hang] stands for a loop of the
    source that never ends. *)
Inductive exn : Type :=
  | KeyError (key : string)
  | IndexError
  | TypeError
  | ValueError
  | ZeroDivisionError
  | FileNotFoundError (path : string)
  | AssertionError (msg : string)
  | ExecFailure (msg : string)
  | Hang.

Inductive result (A : Type) : Type :=
  | Ok (a : A)
  | Raise (e : exn).
Arguments Ok {A} a.
Arguments Raise {A} e.

Definition rbind {A B} (r : result A) (k : A -> result B) : result B :=
  match r with
  | Ok a => k a
  | Raise e => Raise e
  end.

(** The text of an exception, as an assertion message shows it. *)
Definition exn_str (e : exn) : string :=
  match e with
  | KeyError k => "'" ++ k ++ "'"
  | FileNotFoundError p => p
  | AssertionError m => m
  | ExecFailure m => m
  | IndexError => "list index out of range"
  | TypeError => "TypeError"
  | ValueError => "ValueError"
  | ZeroDivisionError => "division by zero"
  | Hang => EmptyString
  end.

Definition is_ok {A} (r : result A) : bool :=
  match r with Ok _ => true | Raise _ => false end.

(** [len(l)] as a Python integer. *)
Definition len {A} (l : list A) : Z := Z.of_nat (length l).

(** Normalisation of a slice bound: a negative bound counts from the end,
    and every bound is clamped to [0, len]. *)
Definition clamp (n i : Z) : Z :=
  if i <? 0 then Z.max 0 (i + n) else Z.min i n.

(** [l[lo:hi]] *)
Definition slice {A} (l : list A) (lo hi : Z) : list A :=
  let a := clamp (len l) lo in
  let b := clamp (len l) hi in
  take (Z.to_nat (b - a)) (drop (Z.to_nat a) l).

(** [l[lo:]] *)
Definition slice_from {A} (l : list A) (lo : Z) : list A :=
  drop (Z.to_nat (clamp (len l) lo)) l.

(** [l[i]], with Python's negative indices and [IndexError]. *)
Definition index {A} (l : list A) (i : Z) : result A :=
  let j := if i <? 0 then i + len l else i in
  if j <? 0 then Raise IndexError
  else match l !! Z.to_nat j with
       | Some x => Ok x
       | None => Raise IndexError
       end.

(** [list(range(0, stop, step))]; a zero step raises [ValueError]. *)
Definition range0 (stop step : Z) : result (list Z) :=
  if step =? 0 then Raise ValueError
  else if (step <? 0) || (stop <=? 0) then Ok []
  else Ok (map (fun k => Z.of_nat k * step)
               (seq 0 (Z.to_nat ((stop + step - 1) / step)))).

(** [list(range(0, n))] *)
Definition range (n : Z) : list Z :=
  map Z.of_nat (seq 0 (Z.to_nat n)).

(** [int(a / b)] on integers: true division followed by truncation toward
    zero (exact for the list lengths that occur here). *)
Definition int_truediv (a b : Z) : result Z :=
  if b =? 0 then Raise ZeroDivisionError else Ok (Z.quot a b).

(** [str(n)], as [str.format] prints an integer. *)
Definition str_of_int (n : Z) : string :=
  NilZero.string_of_int (Z.to_int n).

(** The integer that a decimal string denotes, if any. *)
Definition int_of_decimal (s : string) : option Z :=
  option_map Z.of_int (NilZero.int_of_string s).

(** *** Dictionaries: association lists in insertion order *)

Section Dict.
Context {V : Type}.

Fixpoint dict_get (k : string) (d : list (string * V)) : option V :=
  match d with
  | [] => None
  | (k', v) :: d' => if String.eqb k k' then Some v else dict_get k d'
  end.

(** [d[k] = v]: an existing key keeps its position. *)
Fixpoint dict_set (k : string) (v : V) (d : list (string * V)) : list (string * V) :=
  match d with
  | [] => [(k, v)]
  | (k', v') :: d' =>
      if String.eqb k k' then (k, v) :: d' else (k', v') :: dict_set k v d'
  end.

(** [d.update(u)] *)
Definition dict_update (d u : list (string * V)) : list (string * V) :=
  fold_left (fun acc kv => dict_set (fst kv) (snd kv) acc) u d.

(** The dictionary left by [d.pop(k)]. *)
Fixpoint dict_remove (k : string) (d : list (string * V)) : list (string * V) :=
  match d with
  | [] => []
  | (k', v') :: d' =>
      if String.eqb k k' then d' else (k', v') :: dict_remove k d'
  end.

(** [d.pop(k)] raises [KeyError] on a missing key. *)
Definition dict_pop (k : string) (d : list (string * V)) : result (list (string * V)) :=
  match dict_get k d with
  | Some _ => Ok (dict_remove k d)
  | None => Raise (KeyError k)
  end.

Definition dict_keys (d : list (string * V)) : list string := map fst d.

(** [k in d] *)
Definition dict_mem (k : string) (d : list (string * V)) : bool :=
  match dict_get k d with Some _ => true | None => false end.
End Dict.

(** [x in l] for a list of strings. *)
Definition str_in (x : string) (l : list string) : bool :=
  existsb (String.eqb x) l.

(** *** Strings *)

(** [s.split(",")]: never empty, an empty string gives one empty field. *)
Fixpoint split_comma (s : string) : list string :=
  match s with
  | EmptyString => [EmptyString]
  | String c s' =>
      if Ascii.eqb c "," then EmptyString :: split_comma s'
      else match split_comma s' with
           | h :: t => String c h :: t
           | [] => [String c EmptyString]
           end
  end.

(** [s.replace(newline, empty)]: every newline character is removed. *)
Fixpoint drop_newlines (s : string) : string :=
  match s with
  | EmptyString => EmptyString
  | String c s' =>
      if Ascii.eqb c "010" then drop_newlines s' else String c (drop_newlines s')
  end.

(** ASCII whitespace, as [str.strip()] and [int()] skip it. *)
Definition is_space (c : ascii) : bool :=
  let n := nat_of_ascii c in
  ((9 <=? n)%nat && (n <=? 13)%nat) || ((28 <=? n)%nat && (n <=? 32)%nat).

Fixpoint lstrip (s : string) : string :=
  match s with
  | EmptyString => EmptyString
  | String c s' => if is_space c then lstrip s' else s
  end.

(** [s.rstrip()]: a character stays when something after it stays. *)
Fixpoint rstrip (s : string) : string :=
  match s with
  | EmptyString => EmptyString
  | String c s' =>
      match rstrip s' with
      | EmptyString => if is_space c then EmptyString else String c EmptyString
      | r => String c r
      end
  end.

(** [s.strip()] *)
Definition strip (s : string) : string := rstrip (lstrip s).

Definition digit_of (c : ascii) : option Z :=
  let n := nat_of_ascii c in
  if ((48 <=? n)%nat && (n <=? 57)%nat) then Some (Z.of_nat n - 48) else None.

(** Decimal digits with single underscores between them. *)
Fixpoint digits (acc : Z) (after_digit : bool) (s : string) : option Z :=
  match s with
  | EmptyString => if after_digit then Some acc else None
  | String c s' =>
      match digit_of c with
      | Some v => digits (acc * 10 + v) true s'
      | None =>
          if Ascii.eqb c "_" && after_digit
          then match s' with
               | EmptyString => None
               | _ => digits acc false s'
               end
          else None
      end
  end.

(** [int(s)] on an ASCII string: surrounding whitespace, an optional sign,
    decimal digits; anything else raises [ValueError]. *)
Definition int_of_str (s : string) : result Z :=
  let body := strip s in
  let '(neg, ds) :=
    match body with
    | String c s' =>
        if Ascii.eqb c "-" then (true, s')
        else if Ascii.eqb c "+" then (false, s')
        else (false, body)
    | EmptyString => (false, body)
    end in
  match digits 0 false ds with
  | Some v => Ok (if neg then - v else v)
  | None => Raise ValueError
  end.

(** [sub in s] on strings. *)
Fixpoint str_contains (sub s : string) : bool :=
  String.prefix sub s ||
  match s with
  | EmptyString => false
  | String _ s' => str_contains sub s'
  end.

(** [l[-1] = f(l[-1])], with [IndexError] on an empty list. *)
Fixpoint map_last {A} (f : A -> A) (l : list A) : result (list A) :=
  match l with
  | [] => Raise IndexError
  | [x] => Ok [f x]
  | x :: l' => rbind (map_last f l') (fun r => Ok (x :: r))
  end.

End Py.

Import Py.

Declare Scope result_scope.
Delimit Scope result_scope with res.
Notation "x <- c1 ;; c2" := (rbind c1 (fun x => c2))
  (at level 100, c1 at next level, right associativity) : result_scope.

(** ** DiskPartitioner: the per-node body of the loop of [update_sol_yaml] *)

Module Partition.

(** The variables of [update_sol_yaml] that live across loop iterations. *)
Record vars : Type := {
  data_disk_per_cvg : Z;
  data_devices : list (list string);
  metadata_devices : list string;
  sys_disk_pernode : list (string * string)
}.

(** [data_devices = list()], [sys_disk_pernode = {}], [metadata_devices = []]
    before the loop. *)
Definition init_vars (d : Z) : vars :=
  {| data_disk_per_cvg := d; data_devices := []; metadata_devices := [];
     sys_disk_pernode := [] |}.

(** One iteration either returns from [update_sol_yaml] with a failure
    message or goes on with the updated variables. *)
Inductive outcome : Type :=
  | Return_False (msg : string)
  | Continue (v : vars).

Definition msg_nks : string :=
  "The sum of data disks per cvg is less than N+K+S count".
Definition msg_more : string :=
  "The requested data disk is more than the data disk available on the system".

(** The [while count:] loop of the branch
    [data_disk_per_cvg * cvg_count < new_device_lst_len]. With a negative
    [count] the source loop only ends through [break]; [fuel] bounds the
    rounds and running out of it is [Hang]. *)
Fixpoint split_while (f : list string) (d new_len : Z) (fuel : nat)
    (count count_end : Z) (acc : list (list string)) : result (list (list string)) :=
  if count =? 0 then Ok acc
  else match fuel with
       | O => Raise Hang
       | S fuel' =>
           let count := count - 1 in
           let new_end := count_end + d in
           if new_end >? new_len then Ok acc
           else
             let data_devices_ad := slice f count_end new_end in
             split_while f d new_len fuel' count new_end (acc ++ [data_devices_ad])
       end.

(** The condition guarding the first [return False]. *)
Definition nks_check (skip_disk_count_check : bool) (valid_disk_count d cvg_count node_list : Z) : bool :=
  negb skip_disk_count_check && (valid_disk_count >? d * cvg_count * node_list).

(** [data_disk_per_cvg] after the [if data_disk_per_cvg == 0:] statement. *)
Definition effective_d (cvg_count : Z) (device_list : list string) (d0 : Z) : result Z :=
  if d0 =? 0
  then int_truediv (len (slice_from device_list (cvg_count + 1))) cvg_count
  else Ok d0.

(** Loop body, from [metadata_devices = device_list[1:cvg_count + 1]] to
    [sys_disk_pernode.update(schema)]. *)
Definition node_step (cvg_count : Z) (skip_disk_count_check : bool)
    (valid_disk_count node_list : Z) (hostname : string)
    (device_list : list string) (v : vars) : result outcome :=
  (let metadata_devices := slice device_list 1 (cvg_count + 1) in
   let device_list_len := len device_list in
   let new_device_lst_len := device_list_len - cvg_count - 1 in
   let count := cvg_count in
   d <- effective_d cvg_count device_list (data_disk_per_cvg v) ;;
   if nks_check skip_disk_count_check valid_disk_count d cvg_count node_list
   then Ok (Return_False msg_nks)
   else if new_device_lst_len <? d * cvg_count
   then Ok (Return_False msg_more)
   else
     let data_devices_f := slice_from device_list (cvg_count + 1) in
     dd <- (if d * cvg_count <? new_device_lst_len
            then
              let count_end := d in
              split_while data_devices_f d new_device_lst_len
                (Z.to_nat (Z.max count (new_device_lst_len + 2)))
                count count_end
                (data_devices v ++ [slice data_devices_f 0 count_end])
            else
              r <- range0 (len data_devices_f) d ;;
              Ok (map (fun i => slice data_devices_f i (i + d)) r)) ;;
     system_disk <- index device_list 0 ;;
     Ok (Continue {| data_disk_per_cvg := d;
                     data_devices := dd;
                     metadata_devices := metadata_devices;
                     sys_disk_pernode :=
                       dict_update (sys_disk_pernode v) [(hostname, system_disk)] |}))%res.

End Partition.

(** ** Documents, nodes, configuration *)

(** A loaded YAML or JSON document. The loaded document is a tree: no two
    places of it share one object. *)
#[local] Unset Elimination Schemes.
Inductive pyval : Type :=
  | PNone
  | PBool (b : bool)
  | PInt (z : Z)
  | PStr (s : string)
  | PList (l : list pyval)
  | PDict (d : list (string * pyval)).
#[local] Set Elimination Schemes.

(** [v[k]] on a document. *)
Definition getitem (v : pyval) (k : string) : result pyval :=
  match v with
  | PDict d => match dict_get k d with
               | Some x => Ok x
               | None => Raise (KeyError k)
               end
  | _ => Raise TypeError
  end.

(** The dictionary [v] after [v[k] = x]. *)
Definition setitem (v : pyval) (k : string) (x : pyval) : result pyval :=
  match v with
  | PDict d => Ok (PDict (dict_set k x d))
  | _ => Raise TypeError
  end.

(** [v.update(u)] and [v.keys()] need a dictionary. *)
Definition as_dict (v : pyval) : result (list (string * pyval)) :=
  match v with
  | PDict d => Ok d
  | _ => Raise TypeError
  end.

(** Iterating over [v] needs a list. *)
Definition as_list (v : pyval) : result (list pyval) :=
  match v with
  | PList l => Ok l
  | _ => Raise TypeError
  end.

Fixpoint mapM {A B} (f : A -> result B) (l : list A) : result (list B) :=
  match l with
  | [] => Ok []
  | x :: l' => (y <- f x ;; ys <- mapM f l' ;; Ok (y :: ys))%res
  end.

Fixpoint foldM {A S} (f : S -> A -> result S) (l : list A) (s : S) : result S :=
  match l with
  | [] => Ok s
  | x :: l' => (s' <- f s x ;; foldM f l' s')%res
  end.

(** [LogicalNode]: the fields of a host that the library reads. *)
Record LogicalNode : Type := {
  hostname : string;
  username : string;
  password : string
}.

(** [PROV_CFG["k8s_cortx_deploy"]]: the static configuration, which is not
    part of the library source and is taken as given. *)
Record prereq_cfg : Type := {
  cpu_cores : Z;
  min_disks : Z;
  os_release : list string;
  kernel : list string
}.

Record deploy_cfg : Type := {
  prereq : prereq_cfg;
  third_party_images : list (string * string);
  cortx_images_key : list string;
  cfg_password : list (string * string);
  local_path_prov : string;
  s3_max_start_timeout : Z;
  git_remote_dir : string;
  destroy_cluster : string;
  deploy_cluster_script : string;
  new_file_path : string;
  flag_setup_k8s_cluster : bool;
  flag_cortx_cluster_deploy : bool;
  flag_setup_client_config : bool;
  flag_run_basic_s3_io : bool;
  flag_run_s3bench_workload : bool;
  flag_destroy_setup : bool
}.

(** [commons.commands]: the command strings, given from outside; the
    templates that the source fills with [format] are functions. *)
Record commands : Type := {
  CMD_PING : string -> string;
  CMD_NUM_CPU : string;
  CMD_LSBLK : string;
  CMD_OS_REL : string;
  CMD_KRNL_VER : string;
  CMD_LIST_DEVICES : string;
  K8S_HCTL_STATUS : string -> string;
  K8S_CHK_TAINT : string -> string;
  K8S_TAINT_NODE : string -> string;
  CMD_POD_STATUS : string;
  CLSTR_STATUS_CMD : string;
  POD_NAME_PREFIX : string
}.

(** ** The world: remote hosts, the clock, the files *)

Module World.

Inductive event : Type :=
  | Exec (host cmd : string)      (* [node_obj.execute_cmd(cmd)] on a host *)
  | Sleep (secs : Z)              (* [time.sleep(secs)] *)
  | Call (fn : string)            (* entry into a named step *)
  | Dump (path : string).         (* [yaml.dump] to a file *)

(** State of a run. [trace] has the newest event first; [clock] is
    [int(time.time())], in whole seconds. *)
Record world : Type := {
  trace : list event;
  clock : Z;
  files : gmap string pyval
}.

(** What lies outside the library: the answer of a host to a command (as
    lines with [read_lines=True], as decoded bytes otherwise), the seconds
    the command takes, the outcome of an external step, and the library
    functions [json.loads] and [pswdmanager.decrypt]. Answers may depend on
    everything that happened before. *)
Record env : Type := {
  host_lines : list event -> string -> string -> result (list string);
  host_bytes : list event -> string -> string -> result string;
  host_secs : list event -> string -> string -> N;
  outside : list event -> string -> result pyval;
  json_loads : string -> result pyval;
  decrypt : string -> string
}.

Definition M (A : Type) : Type := world -> result A * world.

Definition ret {A} (a : A) : M A := fun w => (Ok a, w).

Definition raise {A} (e : exn) : M A := fun w => (Raise e, w).

Definition bind {A B} (m : M A) (k : A -> M B) : M B :=
  fun w => match m w with
           | (Ok a, w') => k a w'
           | (Raise e, w') => (Raise e, w')
           end.

(** A pure computation that may raise. *)
Definition lift {A} (r : result A) : M A := fun w => (r, w).

(** [try: m  except BaseException as error: h error] *)
Definition try_except {A} (m : M A) (h : exn -> M A) : M A :=
  fun w => match m w with
           | (Ok a, w') => (Ok a, w')
           | (Raise e, w') => h e w'
           end.

Definition log (ev : event) : M unit :=
  fun w => (Ok tt, {| trace := ev :: trace w; clock := clock w; files := files w |}).

Definition tick (secs : Z) : M unit :=
  fun w => (Ok tt, {| trace := trace w; clock := clock w + secs; files := files w |}).

(** [node_obj.execute_cmd(cmd, read_lines=True)] *)
Definition execute_cmd_lines (E : env) (host cmd : string) : M (list string) :=
  fun w =>
    (host_lines E (trace w) host cmd,
     {| trace := Exec host cmd :: trace w;
        clock := clock w + Z.of_N (host_secs E (trace w) host cmd);
        files := files w |}).

(** [node_obj.execute_cmd(cmd)] *)
Definition execute_cmd (E : env) (host cmd : string) : M string :=
  fun w =>
    (host_bytes E (trace w) host cmd,
     {| trace := Exec host cmd :: trace w;
        clock := clock w + Z.of_N (host_secs E (trace w) host cmd);
        files := files w |}).

(** A step whose code lies outside the library. *)
Definition call_outside (E : env) (fn : string) : M pyval :=
  fun w =>
    (outside E (trace w) fn,
     {| trace := Call fn :: trace w; clock := clock w; files := files w |}).

(** [int(time.time())] *)
Definition time_now : M Z := fun w => (Ok (clock w), w).

(** [time.sleep(secs)] *)
Definition sleep (secs : Z) : M unit :=
  fun w => (Ok tt, {| trace := Sleep secs :: trace w;
                      clock := clock w + secs; files := files w |}).

(** [with open(path) as soln: conf = yaml.safe_load(soln)] *)
Definition load_yaml (path : string) : M pyval :=
  fun w => match files w !! path with
           | Some doc => (Ok doc, w)
           | None => (Raise (FileNotFoundError path), w)
           end.

(** [with open(path, 'w') as soln: yaml.dump(conf, soln, ...)] *)
Definition dump_yaml (path : string) (conf : pyval) : M unit :=
  fun w => (Ok tt, {| trace := Dump path :: trace w; clock := clock w;
                      files := <[path := conf]> (files w) |}).

(** A file fetched from outside lands at [path]. *)
Definition store_file (path : string) (doc : pyval) : M unit :=
  fun w => (Ok tt, {| trace := trace w; clock := clock w;
                      files := <[path := doc]> (files w) |}).

(** [assert_utils.assert_true(cond, msg)] *)
Definition assert_true (cond : bool) (msg : string) : M unit :=
  if cond then ret tt else raise (AssertionError msg).

(** [m] never writes a file. *)
Definition keeps_files {A} (m : M A) : Prop :=
  forall w r w', m w = (r, w') -> files w' = files w.

(** Every event that [m] adds to the trace satisfies [P]. *)
Definition emits_only (P : event -> Prop) {A} (m : M A) : Prop :=
  forall w r w', m w = (r, w') ->
    exists added, trace w' = (added ++ trace w)%list /\ Forall P added.

End World.

Import World.

Declare Scope world_scope.
Delimit Scope world_scope with M.
Notation "x <- c1 ;; c2" := (bind c1 (fun x => c2))
  (at level 100, c1 at next level, right associativity) : world_scope.
Notation "c1 ;;; c2" := (bind c1 (fun _ => c2))
  (at level 100, right associativity) : world_scope.

(** [str(v)] as [format] and the assertion messages print a value: exact on
    [None], booleans, integers and strings; inside a container a string is
    shown in single quotes (Python's [repr] when it has no quote, backslash
    or control character). *)
Fixpoint py_str_in (top : bool) (v : pyval) : string :=
  match v with
  | PNone => "None"
  | PBool true => "True"
  | PBool false => "False"
  | PInt z => str_of_int z
  | PStr s => if top then s else "'" ++ s ++ "'"
  | PList l => "[" ++ String.concat ", " (map (py_str_in false) l) ++ "]"
  | PDict d =>
      "{" ++ String.concat ", "
               (map (fun kv => "'" ++ fst kv ++ "': " ++ py_str_in false (snd kv)) d)
          ++ "}"
  end.

Definition py_str (v : pyval) : string := py_str_in true v.

(** Truth value of a document value. *)
Definition truthy (v : pyval) : bool :=
  match v with
  | PNone => false
  | PBool b => b
  | PInt z => negb (z =? 0)
  | PStr s => negb (String.eqb s EmptyString)
  | PList l => match l with [] => false | _ => true end
  | PDict d => match d with [] => false | _ => true end
  end.

(** [for x in v]: a list gives its items, a dictionary its keys, a string
    its characters; nothing else can be iterated. *)
Definition iterate (v : pyval) : result (list pyval) :=
  match v with
  | PList l => Ok l
  | PDict d => Ok (map PStr (dict_keys d))
  | PStr s => Ok (map (fun c => PStr (String c EmptyString)) (list_ascii_of_string s))
  | _ => Raise TypeError
  end.

(** [v[i]] on a list or tuple. *)
Definition getindex (v : pyval) (i : Z) : result pyval :=
  match v with
  | PList l => index l i
  | _ => Raise TypeError
  end.

(** ** The manifest editors *)

Module Manifest.

(** [for key in list(d.keys()): d.pop(key)] *)
Definition pop_all (d : list (string * pyval)) : result (list (string * pyval)) :=
  foldM (fun acc k => dict_pop k acc) (dict_keys d) d.

(** ["{}+{}+{}".format(n, k, s)] *)
Definition nks_format (n k s : Z) : string :=
  str_of_int n ++ "+" ++ str_of_int k ++ "+" ++ str_of_int s.

(** The [data] dictionary of one volume group: key [d1], [d2], ... for
    [data_devices[cvg][disk]]. *)
Definition data_schema_of (data_devices : list (list string)) (cvg : Z)
    (data_disk_per_cvg : Z) (size_data_disk : string) : result (list (string * pyval)) :=
  foldM (fun data_schema disk =>
           (row <- index data_devices cvg ;;
            dev <- index row disk ;;
            let disk_schema_upd := PDict [("device", PStr dev); ("size", PStr size_data_disk)] in
            Ok (dict_update data_schema [("d" ++ str_of_int (disk + 1), disk_schema_upd)]))%res)
        (range data_disk_per_cvg) [].

(** The body of [for cvg in range(0, cvg_count)]: the storage dictionary
    with the entry of volume group [cvg] added. *)
Definition add_cvg (metadata_devices : list string) (data_devices : list (list string))
    (cvg_type : string) (data_disk_per_cvg : Z) (size_metadata size_data_disk : string)
    (storage : list (string * pyval)) (cvg : Z) : result (list (string * pyval)) :=
  (md <- index metadata_devices cvg ;;
   let metadata_schema_upd := PDict [("device", PStr md); ("size", PStr size_metadata)] in
   data_schema <- data_schema_of data_devices cvg data_disk_per_cvg size_data_disk ;;
   let c_device_schema := PDict [("metadata", metadata_schema_upd); ("data", PDict data_schema)] in
   let cvg_dict :=
     dict_update
       (dict_update
          (dict_update [] [("name", PStr ("cvg-0" ++ str_of_int (cvg + 1)))])
          [("type", PStr cvg_type)])
       [("devices", c_device_schema)] in
   Ok (dict_update storage [("cvg" ++ str_of_int (cvg + 1), PDict cvg_dict)]))%res.

(** The document that [update_cvg_sol_file] writes back, from the one it
    loaded. Assignments through [common], [storage] and [cmn_storage_sets]
    reach [conf], whose parts they are. *)
Definition cvg_edit (metadata_devices : list string) (data_devices : list (list string))
    (cvg_count : Z) (cvg_type : string) (data_disk_per_cvg : Z)
    (sns_data sns_parity sns_spare dix_data dix_parity dix_spare : Z)
    (size_metadata size_data_disk glusterfs_size : string)
    (conf : pyval) : result pyval :=
  (let nks := nks_format sns_data sns_parity sns_spare in
   let dix := nks_format dix_data dix_parity dix_spare in
   parent_key <- getitem conf "solution" ;;
   common <- getitem parent_key "common" ;;
   storage <- getitem parent_key "storage" ;;
   cmn_storage_sets <- getitem common "storage_sets" ;;
   glusterfs <- getitem common "glusterfs" ;;
   glusterfs <- setitem glusterfs "size" (PStr glusterfs_size) ;;
   total_cvg <- as_dict storage ;;
   durability <- getitem cmn_storage_sets "durability" ;;
   durability <- setitem durability "sns" (PStr nks) ;;
   durability <- setitem durability "dix" (PStr dix) ;;
   emptied <- pop_all total_cvg ;;
   storage <- foldM (add_cvg metadata_devices data_devices cvg_type data_disk_per_cvg
                             size_metadata size_data_disk)
                    (range cvg_count) emptied ;;
   cmn_storage_sets <- setitem cmn_storage_sets "durability" durability ;;
   common <- setitem common "glusterfs" glusterfs ;;
   common <- setitem common "storage_sets" cmn_storage_sets ;;
   parent_key <- setitem parent_key "common" common ;;
   parent_key <- setitem parent_key "storage" (PDict storage) ;;
   setitem conf "solution" parent_key)%res.

(** Loop of [update_image_section_sol_file] over the injected mapping: a key
    of the default third-party images is written to [image] and removed from
    the pending defaults; any other key is skipped. *)
Definition image_override (defaults : list (string * string))
    (st : list (string * pyval) * list (string * string)) (kv : string * string)
    : result (list (string * pyval) * list (string * string)) :=
  let '(image, image_default_dict) := st in
  if str_in (fst kv) (dict_keys defaults)
  then (rest <- dict_pop (fst kv) image_default_dict ;;
        Ok (dict_update image [(fst kv, PStr (snd kv))], rest))%res
  else Ok st.

Definition str_items (d : list (string * string)) : list (string * pyval) :=
  map (fun kv => (fst kv, PStr (snd kv))) d.

(** The image section that [update_image_section_sol_file] leaves. *)
Definition image_section (defaults : list (string * string)) (cortx_images_key : list string)
    (cortx_image : string) (third_party_images_dict : list (string * string))
    (image : list (string * pyval)) : result (list (string * pyval)) :=
  (let image_default_dict := dict_update [] defaults in
   let cortx_im :=
     fold_left (fun acc image_key => dict_set image_key cortx_image acc)
               cortx_images_key [] in
   let image := dict_update image (str_items cortx_im) in
   st <- foldM (image_override defaults) third_party_images_dict
               (image, image_default_dict) ;;
   Ok (dict_update (fst st) (str_items (snd st))))%res.

Definition image_edit (defaults : list (string * string)) (cortx_images_key : list string)
    (cortx_image : string) (third_party_images_dict : list (string * string))
    (conf : pyval) : result pyval :=
  (parent_key <- getitem conf "solution" ;;
   image <- getitem parent_key "images" ;;
   image_d <- as_dict image ;;
   image_d <- image_section defaults cortx_images_key cortx_image
                            third_party_images_dict image_d ;;
   parent_key <- setitem parent_key "images" (PDict image_d) ;;
   setitem conf "solution" parent_key)%res.

Definition password_edit (cfg : deploy_cfg) (decrypt : string -> string)
    (conf : pyval) : result pyval :=
  (parent_key <- getitem conf "solution" ;;
   secrets <- getitem parent_key "secrets" ;;
   content <- getitem secrets "content" ;;
   common <- getitem parent_key "common" ;;
   common <- setitem common "storage_provisioner_path" (PStr (local_path_prov cfg)) ;;
   s3 <- getitem common "s3" ;;
   s3 <- setitem s3 "max_start_timeout" (PInt (s3_max_start_timeout cfg)) ;;
   common <- setitem common "s3" s3 ;;
   let passwd_dict :=
     fold_left (fun acc kv => dict_set (fst kv) (PStr (decrypt (snd kv))) acc)
               (cfg_password cfg) [] in
   content_d <- as_dict content ;;
   secrets <- setitem secrets "content" (PDict (dict_update content_d passwd_dict)) ;;
   parent_key <- setitem parent_key "secrets" secrets ;;
   parent_key <- setitem parent_key "common" common ;;
   setitem conf "solution" parent_key)%res.

(** [zip(list(range(node_list)), worker_obj)] with the [node.update] of the
    loop body. *)
Definition nodes_edit (worker_obj : list LogicalNode) (conf : pyval) : result pyval :=
  (parent_key <- getitem conf "solution" ;;
   node <- getitem parent_key "nodes" ;;
   total_nodes <- as_dict node ;;
   emptied <- pop_all total_nodes ;;
   let node_d :=
     fold_left (fun acc ih =>
                  dict_update acc [("node" ++ str_of_int (fst ih + 1),
                                    PDict (dict_update [] [("name", PStr (hostname (snd ih)))]))])
               (zip (range (len worker_obj)) worker_obj) emptied in
   parent_key <- setitem parent_key "nodes" (PDict node_d) ;;
   setitem conf "solution" parent_key)%res.

(** Reading a document along a path of keys: [conf[k1][k2]...]. *)
Definition section (conf : pyval) (path : list string) : result pyval :=
  foldM getitem path conf.

End Manifest.

(** ** The library [ProvDeployK8sCortxLib] *)

Module Lib.

Import Partition Manifest.

(** Keyword arguments of [update_sol_yaml]. *)
Record sol_kwargs : Type := {
  cvg_count : Z;
  kw_data_disk_per_cvg : Z;
  cvg_type : string;
  sns_data : Z;
  sns_parity : Z;
  sns_spare : Z;
  dix_data : Z;
  dix_parity : Z;
  dix_spare : Z;
  size_metadata : string;
  size_data_disk : string;
  glusterfs_size : string;
  skip_disk_count_check : bool;
  third_party_images_kw : option (list (string * string))
}.

(** The defaults of the [kwargs.get] calls. *)
Definition default_kwargs : sol_kwargs :=
  {| cvg_count := 2; kw_data_disk_per_cvg := 0; cvg_type := "ios";
     sns_data := 1; sns_parity := 0; sns_spare := 0;
     dix_data := 1; dix_parity := 0; dix_spare := 0;
     size_metadata := "20Gi"; size_data_disk := "20Gi"; glusterfs_size := "20Gi";
     skip_disk_count_check := false; third_party_images_kw := None |}.

(** What [update_sol_yaml] returns: [(False, msg)] or
    [(True, filepath, sys_disk_pernode)]. *)
Inductive sol_resp : Type :=
  | Sol_False (msg : string)
  | Sol_True (filepath : string) (sys_disk_pernode : list (string * string)).

Definition sol_ok (r : sol_resp) : bool :=
  match r with Sol_True _ _ => true | Sol_False _ => false end.

(** What a remote command gave back: bytes, or lines with [read_lines]. *)
Inductive cmd_out : Type :=
  | Out_bytes (s : string)
  | Out_lines (l : list string).

Section WithContext.

Context (E : env) (cfg : deploy_cfg) (cmd : commands).

(** One load-edit-dump pass over the manifest file; every editor returns
    [(True, filepath)]. *)
Definition edit_pass (filepath : string) (edit : pyval -> result pyval) : M (bool * string) :=
  (conf <- load_yaml filepath ;;
   conf <- lift (edit conf) ;;
   dump_yaml filepath conf ;;;
   ret (true, filepath))%M.

Definition update_password_sol_file (filepath : string) : M (bool * string) :=
  edit_pass filepath (password_edit cfg (decrypt E)).

Definition update_image_section_sol_file (filepath cortx_image : string)
    (third_party_images_dict : list (string * string)) : M (bool * string) :=
  edit_pass filepath
    (image_edit (third_party_images cfg) (cortx_images_key cfg) cortx_image
                third_party_images_dict).

Definition update_cvg_sol_file (filepath : string) (metadata_devices : list string)
    (data_devices : list (list string)) (cvg_count : Z) (cvg_type : string)
    (data_disk_per_cvg : Z)
    (sns_data sns_parity sns_spare dix_data dix_parity dix_spare : Z)
    (size_metadata size_data_disk glusterfs_size : string) : M (bool * string) :=
  edit_pass filepath
    (cvg_edit metadata_devices data_devices cvg_count cvg_type data_disk_per_cvg
              sns_data sns_parity sns_spare dix_data dix_parity dix_spare
              size_metadata size_data_disk glusterfs_size).

Definition update_nodes_sol_file (filepath : string) (worker_obj : list LogicalNode)
    : M (bool * string) :=
  edit_pass filepath (nodes_edit worker_obj).

(** The device list of a node:
    [execute_cmd(CMD_LIST_DEVICES, read_lines=True)[0].split(",")] with the
    newline removed from the last entry. *)
Definition list_devices (node_obj : LogicalNode) : M (list string) :=
  (out <- execute_cmd_lines E (hostname node_obj) (CMD_LIST_DEVICES cmd) ;;
   line <- lift (index out 0) ;;
   lift (map_last drop_newlines (split_comma line)))%M.

(** [for node_count, node_obj in enumerate(worker_obj, start=1)] *)
Fixpoint sol_loop (kw : sol_kwargs) (node_list : Z) (worker_obj : list LogicalNode)
    (v : vars) : M outcome :=
  match worker_obj with
  | [] => ret (Continue v)
  | node_obj :: rest =>
      (device_list <- list_devices node_obj ;;
       o <- lift (node_step (cvg_count kw) (skip_disk_count_check kw)
                            (sns_spare kw + sns_data kw + sns_parity kw) node_list
                            (hostname node_obj) device_list v) ;;
       match o with
       | Return_False msg => ret (Return_False msg)
       | Continue v' => sol_loop kw node_list rest v'
       end)%M
  end.

Definition update_sol_yaml (worker_obj : list LogicalNode) (filepath cortx_image : string)
    (kw : sol_kwargs) : M sol_resp :=
  (let third_party_images_dict :=
     match third_party_images_kw kw with
     | Some d => d
     | None => third_party_images cfg
     end in
   let node_list := len worker_obj in
   o <- sol_loop kw node_list worker_obj (init_vars (kw_data_disk_per_cvg kw)) ;;
   match o with
   | Return_False msg => ret (Sol_False msg)
   | Continue v =>
       resp_passwd <- update_password_sol_file filepath ;;
       if negb (fst resp_passwd)
       then ret (Sol_False "Failed to update passwords in solution file")
       else
         resp_image <- update_image_section_sol_file filepath cortx_image
                                                     third_party_images_dict ;;
         if negb (fst resp_image)
         then ret (Sol_False "Failed to update images in solution file")
         else
           resp_cvg <- update_cvg_sol_file filepath (metadata_devices v) (data_devices v)
                         (cvg_count kw) (cvg_type kw) (data_disk_per_cvg v)
                         (sns_data kw) (sns_parity kw) (sns_spare kw)
                         (dix_data kw) (dix_parity kw) (dix_spare kw)
                         (size_metadata kw) (size_data_disk kw) (glusterfs_size kw) ;;
           if negb (fst resp_cvg)
           then ret (Sol_False "Fail to update the cvg details in solution file")
           else
             resp_node <- update_nodes_sol_file filepath worker_obj ;;
             if negb (fst resp_node)
             then ret (Sol_False "Failed to update nodes details in solution file")
             else ret (Sol_True filepath (sys_disk_pernode v))
   end)%M.

(** [execute_cmd(cmd, read_lines=True)[0]] *)
Definition first_line (node_obj : LogicalNode) (c : string) : M string :=
  (out <- execute_cmd_lines E (hostname node_obj) c ;;
   lift (index out 0))%M.

Definition msg_cpu : string := "No of CPU are not as expected.".
Definition msg_disks (min_disks : Z) : string :=
  "Need at least " ++ str_of_int min_disks ++ " disks for deployment".
Definition msg_os : string := "OS version is different than expected.".
Definition msg_kernel : string := "Kernel Version is different than expected.".
Definition msg_prereq_ok : string := "Prerequisite VM check successful".

Definition prereq_vm (node_obj : LogicalNode) : M (bool * string) :=
  (execute_cmd_lines E (hostname node_obj) (CMD_PING cmd (hostname node_obj)) ;;;
   resp <- first_line node_obj (CMD_NUM_CPU cmd) ;;
   cpus <- lift (int_of_str (strip resp)) ;;
   if cpus <? cpu_cores (prereq cfg)
   then ret (false, msg_cpu)
   else
     count0 <- first_line node_obj (CMD_LSBLK cmd) ;;
     disks <- lift (int_of_str count0) ;;
     if disks <? min_disks (prereq cfg)
     then ret (false, msg_disks (min_disks (prereq cfg)))
     else
       resp <- first_line node_obj (CMD_OS_REL cmd) ;;
       if negb (str_in (strip resp) (os_release (prereq cfg)))
       then ret (false, msg_os)
       else
         resp <- first_line node_obj (CMD_KRNL_VER cmd) ;;
         if negb (str_in (strip resp) (kernel (prereq cfg)))
         then ret (false, msg_kernel)
         else ret (true, msg_prereq_ok))%M.

(** [svc["status"] != "started"] *)
Definition not_started (status : pyval) : bool :=
  match status with
  | PStr s => negb (String.eqb s "started")
  | _ => true
  end.

(** The two nested loops of [get_hctl_status]: the name of the first
    service that is not started, if there is one. *)
Definition first_not_started (services : list pyval) : result (option pyval) :=
  foldM (fun found svc =>
           match found with
           | Some _ => Ok found
           | None =>
               (status <- getitem svc "status" ;;
                if not_started status
                then (name <- getitem svc "name" ;; Ok (Some name))
                else Ok None)%res
           end) services None.

Definition scan_nodes (nodes_data : list pyval) : result (option pyval) :=
  foldM (fun found node_data =>
           match found with
           | Some _ => Ok found
           | None =>
               (services <- getitem node_data "svcs" ;;
                services <- iterate services ;;
                first_not_started services)%res
           end) nodes_data None.

Definition msg_not_started (name : pyval) : string :=
  "Service " ++ py_str name ++ " not started.".
Definition msg_running : string := "Cluster is up and running.".
Definition msg_not_retrieved : string := "Cluster status is not retrieved.".

(** The decision of [get_hctl_status] on the decoded status document. *)
Definition hctl_verdict (cluster_status : pyval) : result (bool * string) :=
  match cluster_status with
  | PNone => Ok (false, msg_not_retrieved)
  | _ =>
      (nodes_data <- getitem cluster_status "nodes" ;;
       nodes_data <- iterate nodes_data ;;
       found <- scan_nodes nodes_data ;;
       match found with
       | Some name => Ok (false, msg_not_started name)
       | None => Ok (true, msg_running)
       end)%res
  end.

Definition get_hctl_status (node_obj : LogicalNode) (pod_name : string) : M (bool * string) :=
  (cluster_status <- execute_cmd E (hostname node_obj) (K8S_HCTL_STATUS cmd pod_name) ;;
   cluster_status <- lift (json_loads E cluster_status) ;;
   lift (hctl_verdict cluster_status))%M.

(** The commands of [destroy_setup]. *)
Definition destroy_cmd1 : string :=
  "cd " ++ git_remote_dir cfg ++ " && " ++ destroy_cluster cfg ++ " --force".
Definition destroy_cmd2 : string := "umount " ++ local_path_prov cfg.
Definition destroy_cmd3 : string := "rm -rf /etc/3rd-party/openldap /var/data/3rd-party/".

(** [for worker in worker_node_obj] inside the [try] of [destroy_setup]. *)
Fixpoint destroy_workers (worker_node_obj : list LogicalNode) (resp : cmd_out) : M cmd_out :=
  match worker_node_obj with
  | [] => ret resp
  | worker :: rest =>
      (resp <- execute_cmd_lines E (hostname worker) destroy_cmd2 ;;
       resp <- execute_cmd_lines E (hostname worker) destroy_cmd3 ;;
       destroy_workers rest (Out_lines resp))%M
  end.

(** [destroy_setup] returns [(True, resp)] or [(False, error)]. *)
Definition destroy_setup (master_node_obj : LogicalNode) (worker_node_obj : list LogicalNode)
    : M (bool * (cmd_out + exn)) :=
  try_except
    (resp <- execute_cmd E (hostname master_node_obj) destroy_cmd1 ;;
     resp <- destroy_workers worker_node_obj (Out_bytes resp) ;;
     ret (true, inl resp))%M
    (fun error => ret (false, inr error)).

(** An event of the trace that is a cleanup command of one of the
    workers. *)
Definition worker_cleanup (worker_node_obj : list LogicalNode) (ev : event) : Prop :=
  exists wk, wk ∈ worker_node_obj
             /\ (ev = Exec (hostname wk) destroy_cmd2
                 \/ ev = Exec (hostname wk) destroy_cmd3).

(** [LogicalNode.get_pod_name] *)
Definition get_pod_name (node_obj : LogicalNode) (pod_prefix : string) : M (bool * string) :=
  (output <- execute_cmd_lines E (hostname node_obj)
               (CMD_POD_STATUS cmd ++ " -o=custom-columns=NAME:.metadata.name") ;;
   match filter (fun lines => Is_true (str_contains pod_prefix lines)) output with
   | lines :: _ => ret (true, strip lines)
   | [] => ret (false, "pod with prefix " ++ String "034" pod_prefix
                         ++ String "034" " not found")
   end)%M.

(** [setup_k8s_cluster]: the job itself runs outside. *)
Definition setup_k8s_cluster (master_node_list worker_node_list : list LogicalNode)
    : M (bool * pyval) :=
  match master_node_list, worker_node_list with
  | [], _ => ret (false, PStr "Master Node List is empty")
  | _ :: _, [] => ret (false, PStr "Worker Node List is empty")
  | _ :: _, _ :: _ =>
      (output <- call_outside E "Provisioner.build_job" ;;
       _ <- lift (getitem output "url") ;;
       res <- lift (getitem output "result") ;;
       match res with
       | PStr "SUCCESS" => ret (true, res)
       | _ => ret (false, res)
       end)%M
  end.

Definition validate_master_tainted (node_obj : LogicalNode) : M bool :=
  (resp <- execute_cmd E (hostname node_obj) (K8S_CHK_TAINT cmd (hostname node_obj)) ;;
   ret (str_contains "NoSchedule" resp))%M.

Definition taint_master (node_obj : LogicalNode) : M unit :=
  (execute_cmd E (hostname node_obj) (K8S_TAINT_NODE cmd (hostname node_obj)) ;;;
   ret tt)%M.

Fixpoint taint_masters (master_node_list : list LogicalNode) : M unit :=
  match master_node_list with
  | [] => ret tt
  | node :: rest =>
      (resp <- validate_master_tainted node ;;
       (if negb resp then taint_master node else ret tt) ;;;
       taint_masters rest)%M
  end.

(** [checkout_solution_file]: the template is fetched from outside to
    [new_file_path]. *)
Definition checkout_solution_file : M string :=
  (doc <- call_outside E "checkout_solution_file" ;;
   store_file (new_file_path cfg) doc ;;;
   ret (new_file_path cfg))%M.

(** A helper of the library that is one remote action and returns nothing
    the caller reads: [docker_login], [prereq_git], [copy_sol_file],
    [execute_prereq_cortx], [pull_third_party_images]. *)
Definition helper_step (fn : string) : M unit :=
  (call_outside E fn ;;; ret tt)%M.

Definition deploy_cluster (node_obj : LogicalNode) (remote_code_path : string)
    : M (bool * pyval) :=
  (resp <- execute_cmd_lines E (hostname node_obj)
             ("cd " ++ remote_code_path ++ "; " ++ deploy_cluster_script cfg
                ++ " | tee deployment.log") ;;
   ret (true, PList (map PStr resp)))%M.

Definition validate_cluster_status (node_obj : LogicalNode) (remote_code_path : string)
    : M (bool * pyval) :=
  (resp <- execute_cmd_lines E (hostname node_obj)
             ("cd " ++ remote_code_path ++ "; " ++ CLSTR_STATUS_CMD cmd
                ++ " | tee cluster_status.log") ;;
   if str_in "FAILED" resp
   then ret (false, PList (map PStr resp))
   else ret (true, PList (map PStr resp)))%M.

(** The worker loop of [deploy_cortx_cluster]. *)
Fixpoint prepare_workers (worker_node_list : list LogicalNode)
    (system_disk_dict : list (string * string)) : M unit :=
  match worker_node_list with
  | [] => ret tt
  | node :: rest =>
      (resp <- prereq_vm node ;;
       assert_true (fst resp) (snd resp) ;;;
       match dict_get (hostname node) system_disk_dict with
       | None => raise (KeyError (hostname node))
       | Some system_disk =>
           helper_step "docker_login" ;;;
           helper_step "prereq_git" ;;;
           helper_step "copy_sol_file" ;;;
           helper_step "execute_prereq_cortx" ;;;
           prepare_workers rest system_disk_dict
       end)%M
  end.

(** [deploy_cortx_cluster]; a [None] result has no [resp[0]]. *)
Definition deploy_cortx_cluster (master_node_list worker_node_list : list LogicalNode)
    (system_disk_dict : list (string * string)) : M (option (bool * pyval)) :=
  match master_node_list, worker_node_list with
  | [], _ => ret (Some (false, PStr "Minimum one master node needed for deployment"))
  | _ :: _, [] => ret (Some (false, PStr "Minimum one worker node needed for deployment"))
  | master :: _, _ :: _ =>
      (prepare_workers worker_node_list system_disk_dict ;;;
       helper_step "pull_third_party_images" ;;;
       helper_step "docker_login" ;;;
       helper_step "prereq_git" ;;;
       helper_step "copy_sol_file" ;;;
       resp <- deploy_cluster master (git_remote_dir cfg) ;;
       if fst resp
       then (resp <- validate_cluster_status master (git_remote_dir cfg) ;;
             ret (Some resp))
       else ret None)%M
  end.

(** What a status query made after the events [h] observes: the verdict
    of [get_hctl_status] on the answer of the host. *)
Definition polled (node_obj : LogicalNode) (pod_name : string) (h : list event)
    (verdict : bool * string) : Prop :=
  exists s doc,
    host_bytes E h (hostname node_obj) (K8S_HCTL_STATUS cmd pod_name) = Ok s
    /\ json_loads E s = Ok doc
    /\ hctl_verdict doc = Ok verdict.

(** The [while int(time.time()) < end_time] loop of [test_deployment].
    Every round that does not leave the loop sleeps 60 seconds, so 30
    rounds reach the deadline; [fuel] counts the rounds left. *)
Fixpoint poll_hctl (fuel : nat) (end_time : Z) (node_obj : LogicalNode) (pod_name : string)
    (resp : bool * string) : M (bool * string) :=
  (now <- time_now ;;
   if now <? end_time
   then match fuel with
        | O => raise Hang
        | S fuel' =>
            resp <- get_hctl_status node_obj pod_name ;;
            if fst resp then ret resp
            else sleep 60 ;;; poll_hctl fuel' end_time node_obj pod_name resp
        end
   else ret resp)%M.

(** Convergence polling of [test_deployment], from
    [start_time = int(time.time())] to the assertion after the loop:
    [end_time] is 1800 seconds (30 minutes) after the start, and [resp] is
    what the last statement before the loop left in it. *)
Definition wait_for_cluster (node_obj : LogicalNode) (pod_name : string)
    (resp : bool * string) : M unit :=
  (start_time <- time_now ;;
   let end_time := start_time + 1800 in
   resp <- poll_hctl 30 end_time node_obj pod_name resp ;;
   assert_true (fst resp) (snd resp))%M.

(** Phase toggles of [test_deployment]: [kwargs.get(flag, PROV_CFG[...])]. *)
Record phase_kwargs : Type := {
  setup_k8s_cluster_flag : option bool;
  cortx_cluster_deploy : option bool;
  setup_client_config_flag : option bool;
  run_basic_s3_io_flag : option bool;
  run_s3bench_workload_flag : option bool;
  destroy_setup_flag : option bool
}.

Definition kwargs_get (o : option bool) (default : bool) : bool :=
  match o with Some b => b | None => default end.

(** The condition of [assert_true(resp[0], resp[1])] on the value that an
    outside step gave back. *)
Definition assert_resp (resp : pyval) : M unit :=
  (ok <- lift (getindex resp 0) ;;
   msg <- lift (getindex resp 1) ;;
   assert_true (truthy ok) (py_str msg))%M.

(** The client-configuration phase with the two IO steps nested in it.
    [basic_io_write_read_validate] and [io_workload] drive the S3 client
    and the benchmark tool: each is an entry event followed by what the
    outside makes of it. *)
Definition client_phase (master_node_list : list LogicalNode)
    (run_basic_s3_io_flag run_s3bench_workload_flag : bool) : M unit :=
  (call_outside E "CMD_GET_IP_IFACE" ;;;
   _ <- lift (index master_node_list 0) ;;
   call_outside E "configure_haproxy_lb" ;;;
   resp <- call_outside E "post_deployment_steps_lc" ;;
   assert_resp resp ;;;
   call_outside E "S3H_OBJ.get_local_keys" ;;;
   call_outside E "S3TestLib" ;;;
   (if run_basic_s3_io_flag
    then call_outside E "basic_io_write_read_validate" ;;; ret tt
    else ret tt) ;;;
   (if run_s3bench_workload_flag
    then call_outside E "io_workload" ;;; ret tt
    else ret tt))%M.

(** The deployment phase: manifest, cluster apply, convergence polling. *)
Definition deploy_phase (git_cortx_image : string) (kw : sol_kwargs)
    (master_node_list worker_node_list : list LogicalNode) : M unit :=
  (path <- checkout_solution_file ;;
   resp <- update_sol_yaml worker_node_list path git_cortx_image kw ;;
   match resp with
   | Sol_False _ => raise (AssertionError "Failure updating solution.yaml")
   | Sol_True sol_file_path system_disk_dict =>
       load_yaml sol_file_path ;;;
       resp <- deploy_cortx_cluster master_node_list worker_node_list system_disk_dict ;;
       match resp with
       | None => raise TypeError
       | Some resp =>
           assert_true (fst resp) (py_str (snd resp)) ;;;
           master <- lift (index master_node_list 0) ;;
           resp <- get_pod_name master (POD_NAME_PREFIX cmd) ;;
           let pod_name := snd resp in
           wait_for_cluster master pod_name resp
       end
   end)%M.

(** [test_deployment]; the volume-group and durability arguments travel in
    [kw], with the three sizes fixed to ["20Gi"] by the call. *)
Definition test_deployment (cortx_image : string) (kw : sol_kwargs)
    (master_node_list worker_node_list : list LogicalNode) (flags : phase_kwargs) : M unit :=
  (let setup_k8s_cluster_flag :=
     kwargs_get (setup_k8s_cluster_flag flags) (flag_setup_k8s_cluster cfg) in
   let cortx_cluster_deploy_flag :=
     kwargs_get (cortx_cluster_deploy flags) (flag_cortx_cluster_deploy cfg) in
   let setup_client_config_flag :=
     kwargs_get (setup_client_config_flag flags) (flag_setup_client_config cfg) in
   let run_basic_s3_io_flag :=
     kwargs_get (run_basic_s3_io_flag flags) (flag_run_basic_s3_io cfg) in
   let run_s3bench_workload_flag :=
     kwargs_get (run_s3bench_workload_flag flags) (flag_run_s3bench_workload cfg) in
   let destroy_setup_flag :=
     kwargs_get (destroy_setup_flag flags) (flag_destroy_setup cfg) in
   (if setup_k8s_cluster_flag
    then resp <- setup_k8s_cluster master_node_list worker_node_list ;;
         assert_true (fst resp) (py_str (snd resp)) ;;;
         taint_masters master_node_list
    else ret tt) ;;;
   (if cortx_cluster_deploy_flag
    then deploy_phase cortx_image
           {| cvg_count := cvg_count kw;
              kw_data_disk_per_cvg := kw_data_disk_per_cvg kw;
              cvg_type := "ios";
              sns_data := sns_data kw; sns_parity := sns_parity kw;
              sns_spare := sns_spare kw;
              dix_data := dix_data kw; dix_parity := dix_parity kw;
              dix_spare := dix_spare kw;
              size_metadata := "20Gi"; size_data_disk := "20Gi";
              glusterfs_size := "20Gi";
              skip_disk_count_check := false;
              third_party_images_kw := None |}
           master_node_list worker_node_list
    else ret tt) ;;;
   (if setup_client_config_flag
    then client_phase master_node_list run_basic_s3_io_flag run_s3bench_workload_flag
    else ret tt) ;;;
   (if destroy_setup_flag
    then master <- lift (index master_node_list 0) ;;
         resp <- destroy_setup master worker_node_list ;;
         assert_true (fst resp)
           (match snd resp with
            | inl (Out_bytes s) => s
            | inl (Out_lines l) => py_str (PList (map PStr l))
            | inr error => exn_str error
            end)
    else ret tt))%M.

End WithContext.

(** The services that a status document reports: the pairs of [name] and
    [status] along [nodes[].svcs[]], in order. *)
Definition read_svc (svc : pyval) : result (pyval * pyval) :=
  (name <- getitem svc "name" ;;
   status <- getitem svc "status" ;;
   Ok (name, status))%res.

Definition read_node (node_data : pyval) : result (list (pyval * pyval)) :=
  (services <- getitem node_data "svcs" ;;
   services <- as_list services ;;
   mapM read_svc services)%res.

Definition doc_services (cluster_status : pyval) : result (list (pyval * pyval)) :=
  (nodes_data <- getitem cluster_status "nodes" ;;
   nodes_data <- as_list nodes_data ;;
   per_node <- mapM read_node nodes_data ;;
   Ok (concat per_node))%res.

(** The entry events of the two IO steps of [test_deployment]. *)
Definition io_step (ev : event) : Prop :=
  ev = Call "basic_io_write_read_validate" \/ ev = Call "io_workload".

End Lib.

(** ** A small laboratory: concrete nodes, configuration and manifest *)

Module Lab.

Import Lib.

(** ["/dev/sda"], ["/dev/sdb"], ... *)
Definition dev (k : nat) : string :=
  "/dev/sd" ++ String (ascii_of_nat (97 + k)) EmptyString.

Definition devs (n : nat) : list string := map dev (seq 0 n).

(** The line a node prints for its [n] devices. *)
Definition dev_line (n : nat) : string :=
  String.concat "," (devs n) ++ String "010" EmptyString.

Definition cmds : commands :=
  {| CMD_PING := fun h => "ping -c 1 " ++ h;
     CMD_NUM_CPU := "nproc";
     CMD_LSBLK := "lsblk -nd -o NAME -e 11|grep -v sda|wc -l";
     CMD_OS_REL := "cat /etc/redhat-release";
     CMD_KRNL_VER := "uname -r";
     CMD_LIST_DEVICES := "lsblk -nd -o NAME -e 11|paste -s -d, -";
     K8S_HCTL_STATUS := fun pod => "kubectl exec -it " ++ pod ++ " -- hctl status --json";
     K8S_CHK_TAINT := fun h => "kubectl describe node " ++ h ++ " | grep Taints";
     K8S_TAINT_NODE := fun h => "kubectl taint node " ++ h ++ " node-role.kubernetes.io/master=:NoSchedule";
     CMD_POD_STATUS := "kubectl get pods";
     CLSTR_STATUS_CMD := "./status-cortx-cloud.sh";
     POD_NAME_PREFIX := "cortx-data-pod" |}.

Definition config : deploy_cfg :=
  {| prereq := {| cpu_cores := 4; min_disks := 6;
                  os_release := ["CentOS Linux release 7.9.2009 (Core)"];
                  kernel := ["3.10.0-1160.el7.x86_64"] |};
     third_party_images := [("consul", "hashicorp/consul:1.10.0");
                            ("kafka", "3.0.0-debian-10-r7")];
     cortx_images_key := ["cortxcontrol"; "cortxdata"];
     cfg_password := [("openldap_admin_secret", "enc-ldap")];
     local_path_prov := "/mnt/fs-local-volume";
     s3_max_start_timeout := 240;
     git_remote_dir := "/root/cortx-k8s/k8_cortx_cloud/";
     destroy_cluster := "./destroy-cortx-cloud.sh";
     deploy_cluster_script := "./deploy-cortx-cloud.sh";
     new_file_path := "solution.yaml";
     flag_setup_k8s_cluster := false;
     flag_cortx_cluster_deploy := true;
     flag_setup_client_config := true;
     flag_run_basic_s3_io := true;
     flag_run_s3bench_workload := true;
     flag_destroy_setup := false |}.

Definition node (name : string) : LogicalNode :=
  {| hostname := name; username := "root"; password := "secret" |}.

(** A manifest template with every section the editors read. *)
Definition template : pyval :=
  PDict [("solution", PDict [
    ("namespace", PStr "default");
    ("secrets", PDict [("name", PStr "cortx-secret"); ("content", PDict [])]);
    ("images", PDict [("cortxcontrol", PStr "cortx-all:old");
                      ("openldap", PStr "ghcr.io/seagate/symas-openldap:2.4.58")]);
    ("common", PDict [
       ("storage_provisioner_path", PStr "/mnt/fs-local-volume");
       ("s3", PDict [("max_start_timeout", PInt 240)]);
       ("glusterfs", PDict [("size", PStr "5Gi")]);
       ("storage_sets", PDict [
          ("name", PStr "storage-set-1");
          ("durability", PDict [("sns", PStr "4+2+0"); ("dix", PStr "1+2+0")])])]);
    ("storage", PDict [("cvg1", PDict [("name", PStr "cvg-01")])]);
    ("nodes", PDict [("node1", PDict [("name", PStr "old-host")])])])].

(** Status documents of the cluster: every service started, or one
    service of the second node not started. *)
Definition svc (name status : string) : pyval :=
  PDict [("name", PStr name); ("status", PStr status)].

Definition status_started : pyval :=
  PDict [("nodes", PList [
    PDict [("name", PStr "node-1");
           ("svcs", PList [svc "hax" "started"; svc "ioservice" "started"])];
    PDict [("name", PStr "node-2");
           ("svcs", PList [svc "hax" "started"; svc "s3server" "started"])]])].

Definition status_offline : pyval :=
  PDict [("nodes", PList [
    PDict [("name", PStr "node-1");
           ("svcs", PList [svc "hax" "started"; svc "ioservice" "started"])];
    PDict [("name", PStr "node-2");
           ("svcs", PList [svc "hax" "started"; svc "s3server" "offline"])]])].

(** Hosts that answer the device listing with [line_of host], the status
    query with the text [status] (decoded by [json_loads] below), and the
    prerequisite queries with the given facts, except that the commands in
    [failing] fail on the host [bad]; every command takes [secs] seconds. *)
Definition lab_env (line_of : string -> string) (status : string)
    (cpu disks os krnl : string) (bad : string) (failing : list string) (secs : N) : env :=
  {| host_lines := fun _ host c =>
       if String.eqb host bad && str_in c failing then Raise (ExecFailure c)
       else if String.eqb c (CMD_LIST_DEVICES cmds) then Ok [line_of host]
       else if String.eqb c (CMD_NUM_CPU cmds) then Ok [cpu]
       else if String.eqb c (CMD_LSBLK cmds) then Ok [disks]
       else if String.eqb c (CMD_OS_REL cmds) then Ok [os]
       else if String.eqb c (CMD_KRNL_VER cmds) then Ok [krnl]
       else if String.prefix (CMD_POD_STATUS cmds) c then Ok ["NAME"; "cortx-data-pod-w1 "]
       else Ok [];
     host_bytes := fun _ host c =>
       if String.eqb host bad && str_in c failing then Raise (ExecFailure c)
       else Ok status;
     host_secs := fun _ _ _ => secs;
     outside := fun _ fn =>
       if String.eqb fn "checkout_solution_file" then Ok template
       else if String.eqb fn "Provisioner.build_job"
       then Ok (PDict [("url", PStr "http://jenkins/job/1"); ("result", PStr "SUCCESS")])
       else Ok (PList [PBool true; PStr "ok"]);
     json_loads := fun s =>
       if String.eqb s "started" then Ok status_started
       else if String.eqb s "offline" then Ok status_offline
       else if String.eqb s "null" then Ok PNone
       else Raise ValueError;
     decrypt := fun s => "plain-" ++ s |}.

Definition world0 : world :=
  {| trace := []; clock := 1000; files := {[ "solution.yaml" := template ]} |}.

(** Keyword arguments with the sizes of [test_deployment]. *)
Definition kwargs (g d : Z) (sns dix : Z * Z * Z) (skip : bool) : sol_kwargs :=
  {| cvg_count := g; kw_data_disk_per_cvg := d; cvg_type := "ios";
     sns_data := sns.1.1; sns_parity := sns.1.2; sns_spare := sns.2;
     dix_data := dix.1.1; dix_parity := dix.1.2; dix_spare := dix.2;
     size_metadata := "20Gi"; size_data_disk := "20Gi"; glusterfs_size := "20Gi";
     skip_disk_count_check := skip; third_party_images_kw := None |}.

Definition plain_env (n : nat) : env :=
  lab_env (fun _ => dev_line n) "started" "8" "8"
          "CentOS Linux release 7.9.2009 (Core)" "3.10.0-1160.el7.x86_64" EmptyString [] 0.

(** The hosts of [plain_env 9] with a cluster whose service [s3server]
    stays offline. *)
Definition offline_env : env :=
  lab_env (fun _ => dev_line 9) "offline" "8" "8"
          "CentOS Linux release 7.9.2009 (Core)" "3.10.0-1160.el7.x86_64" EmptyString [] 0.

(** The hosts of [plain_env 9], where [umount] fails on worker [w1]. *)
Definition umount_fails_on_w1 : env :=
  lab_env (fun _ => dev_line 9) "started" "8" "8"
          "CentOS Linux release 7.9.2009 (Core)" "3.10.0-1160.el7.x86_64"
          "w1" ["umount /mnt/fs-local-volume"] 0.



End Lab.

(** * Pod status *)

(** The static helper [check_pods_status] of the deployment library, which
    reads the pod listing of the master. *)
Module Pods.
Section WithContext.
Context (E : env) (cmd : commands).

(** [list(range(a, b))] *)
Definition range_from (a b : Z) : list Z :=
  map (fun k => a + Z.of_nat k) (seq 0 (Z.to_nat (b - a))).

(** [for line in range(1, len(resp))]: the first line without ["Running"]
    ends the loop with [False]. *)
Fixpoint status_loop (resp : list string) (lines : list Z) : result bool :=
  match lines with
  | [] => Ok true
  | line :: rest =>
      (l <- index resp line ;;
       if negb (str_contains "Running" l) then Ok false
       else status_loop resp rest)%res
  end.

Definition check_pods_status (node_obj : LogicalNode) : M bool :=
  (resp <- execute_cmd_lines E (hostname node_obj) (CMD_POD_STATUS cmd) ;;
   lift (status_loop resp (range_from 1 (len resp))))%M.

End WithContext.
End Pods.

(** * More hosts of the laboratory *)

Module Cases.
Import Lib Lab.

(** The hosts of [plain_env 9] with a cluster-setup job that fails. *)
Definition failed_job : env :=
  {| host_lines := host_lines (plain_env 9);
     host_bytes := host_bytes (plain_env 9);
     host_secs := host_secs (plain_env 9);
     outside := fun h fn =>
       if String.eqb fn "Provisioner.build_job"
       then Ok (PDict [("url", PStr "http://jenkins/job/2"); ("result", PStr "FAILURE")])
       else outside (plain_env 9) h fn;
     json_loads := json_loads (plain_env 9);
     decrypt := decrypt (plain_env 9) |}.

(** Hosts with [n] devices and [cpu] CPUs each. *)
Definition sized_env (n : nat) (cpu : string) : env :=
  lab_env (fun _ => dev_line n) "started" cpu "8"
          "CentOS Linux release 7.9.2009 (Core)" "3.10.0-1160.el7.x86_64" EmptyString [] 0.

(** The hosts of [plain_env 9] whose every answer in bytes, the taint
    check among them, is a taint line. *)
Definition tainted_env : env :=
  lab_env (fun _ => dev_line 9) "Taints: node-role.kubernetes.io/master:NoSchedule"
          "8" "8" "CentOS Linux release 7.9.2009 (Core)" "3.10.0-1160.el7.x86_64"
          EmptyString [] 0.

(** The hosts of [plain_env 9], where the ping of worker [w1] fails. *)
Definition ping_fails_on_w1 : env :=
  lab_env (fun _ => dev_line 9) "started" "8" "8"
          "CentOS Linux release 7.9.2009 (Core)" "3.10.0-1160.el7.x86_64"
          "w1" ["ping -c 1 w1"] 0.

(** A pod listing with its header line and two pods, one of them pending. *)
Definition pods_env (second : string) : env :=
  {| host_lines := fun _ _ c =>
       if String.eqb c (CMD_POD_STATUS cmds)
       then Ok ["NAME  READY  STATUS";
                "cortx-data-pod-w1  1/1  Running";
                "cortx-data-pod-w2  0/1  " ++ second]
       else Ok [];
     host_bytes := host_bytes (plain_env 9);
     host_secs := host_secs (plain_env 9);
     outside := outside (plain_env 9);
     json_loads := json_loads (plain_env 9);
     decrypt := decrypt (plain_env 9) |}.

Definition all_flags (setup deploy destroy : bool) : phase_kwargs :=
  {| setup_k8s_cluster_flag := Some setup;
     cortx_cluster_deploy := Some deploy;
     setup_client_config_flag := Some false;
     run_basic_s3_io_flag := Some false;
     run_s3bench_workload_flag := Some false;
     destroy_setup_flag := Some destroy |}.

End Cases.

(** * Properties *)

(** ** Slices and ranges *)

Section SliceFacts.
Context {A : Type}.
Implicit Types l : list A.

Lemma len_nonneg l : 0 <= len l.
Proof. unfold len. lia. Qed.

Lemma slice_take_drop l lo hi :
  0 <= lo -> lo <= hi -> hi <= len l ->
  slice l lo hi = take (Z.to_nat (hi - lo)) (drop (Z.to_nat lo) l).
Proof.
  intros Hlo Hlh Hhi. unfold slice, clamp.
  destruct (Z.ltb_spec lo 0), (Z.ltb_spec hi 0); try lia.
  rewrite !Z.min_l by lia. reflexivity.
Qed.

Lemma slice_from_drop l lo :
  0 <= lo -> lo <= len l -> slice_from l lo = drop (Z.to_nat lo) l.
Proof.
  intros Hlo Hhi. unfold slice_from, clamp.
  destruct (Z.ltb_spec lo 0); try lia.
  rewrite Z.min_l by lia. reflexivity.
Qed.

Lemma len_slice_from l lo :
  0 <= lo -> lo <= len l -> len (slice_from l lo) = len l - lo.
Proof.
  intros Hlo Hhi. rewrite slice_from_drop by lia.
  unfold len in *. rewrite length_drop. lia.
Qed.

Lemma len_slice l lo hi :
  0 <= lo -> lo <= hi -> hi <= len l -> len (slice l lo hi) = hi - lo.
Proof.
  intros Hlo Hlh Hhi. rewrite slice_take_drop by lia.
  unfold len in *. rewrite length_take, length_drop. lia.
Qed.

(** A slice of a suffix is a slice of the list. *)
Lemma slice_of_slice_from l k lo hi :
  0 <= k -> k <= len l -> 0 <= lo -> lo <= hi -> hi <= len l - k ->
  slice (slice_from l k) lo hi = slice l (k + lo) (k + hi).
Proof.
  intros Hk Hkl Hlo Hlh Hhi.
  rewrite (slice_take_drop (slice_from l k)) by (rewrite ?len_slice_from; lia).
  rewrite slice_take_drop by lia.
  rewrite slice_from_drop by lia. rewrite drop_drop.
  f_equal; [f_equal; lia | f_equal; lia].
Qed.

(** Cutting a list of length [k * d] into [k] pieces of length [d] and
    gluing the pieces gives the list back. *)
Lemma concat_chunks (d k : nat) l :
  length l = (k * d)%nat ->
  concat (map (fun i => take d (drop (i * d) l)) (seq 0 k)) = l.
Proof.
  revert l. induction k as [|k IH]; intros l Hl.
  - destruct l; [reflexivity | discriminate].
  - rewrite <- cons_seq, <- fmap_S_seq. cbn [map concat].
    change (0 * d)%nat with 0%nat. rewrite drop_0.
    transitivity ((take d l ++ drop d l)%list); [| apply take_drop].
    f_equal.
    transitivity (concat (map (fun i => take d (drop (i * d) (drop d l))) (seq 0 k))).
    + f_equal. change (S <$> seq 0 k) with (map S (seq 0 k)).
      rewrite map_map. apply map_ext.
      intros i. rewrite drop_drop. do 2 f_equal; lia.
    + apply IH. rewrite length_drop. lia.
Qed.
End SliceFacts.

(** ** The partition of one node's devices *)

Section PartitionFacts.
Import Partition.

Lemma range0_multiple (k d : Z) :
  0 < d -> 0 <= k ->
  range0 (k * d) d = Ok (map (fun i => Z.of_nat i * d) (seq 0 (Z.to_nat k))).
Proof.
  intros Hd Hk. unfold range0.
  destruct (Z.eqb_spec d 0); [lia |].
  destruct (Z.ltb_spec d 0); [lia |]. cbn [orb].
  destruct (Z.leb_spec (k * d) 0) as [Hz | Hz].
  - assert (k = 0) by nia. subst k. reflexivity.
  - do 3 f_equal.
    replace (k * d + d - 1) with (d - 1 + k * d) by lia.
    rewrite Z.div_add by lia. rewrite Z.div_small by lia. lia.
Qed.

(** The comprehension of the [else] branch, on a list of [k * d] items. *)
Lemma exact_chunks (f : list string) (k d : Z) :
  0 < d -> 0 <= k -> len f = k * d ->
  map (fun i => slice f i (i + d)) (map (fun i => Z.of_nat i * d) (seq 0 (Z.to_nat k)))
  = map (fun i => take (Z.to_nat d) (drop (i * Z.to_nat d) f)) (seq 0 (Z.to_nat k)).
Proof.
  intros Hd Hk Hf. rewrite map_map. apply map_ext_in.
  intros i Hi. apply in_seq in Hi.
  rewrite slice_take_drop by nia.
  f_equal; [lia |]. f_equal. nia.
Qed.

Lemma effective_d_given g dl d0 : d0 <> 0 -> effective_d g dl d0 = Ok d0.
Proof.
  intros H. unfold effective_d. destruct (Z.eqb_spec d0 0); [contradiction | reflexivity].
Qed.

(** With [data_disk_per_cvg] given as 0 and at least [g + 1] devices, the
    derived value is [floor((n - g - 1) / g)]. *)
Lemma effective_d_derived g dl :
  0 < g -> g + 1 <= len dl ->
  effective_d g dl 0 = Ok ((len dl - g - 1) / g).
Proof.
  intros Hg Hn. unfold effective_d, int_truediv. cbn [Z.eqb].
  destruct (Z.eqb_spec g 0); [lia |].
  rewrite len_slice_from by lia.
  rewrite Z.quot_div_nonneg by lia. do 2 f_equal. lia.
Qed.

Lemma split_while_ok f d new_len fuel count count_end acc :
  0 <= count -> count <= Z.of_nat fuel ->
  exists dd, split_while f d new_len fuel count count_end acc = Ok dd
             /\ exists extra, dd = (acc ++ extra)%list.
Proof.
  revert count count_end acc.
  induction fuel as [|fuel IH]; intros count count_end acc H0 Hf; cbn [split_while].
  - destruct (Z.eqb_spec count 0); [| lia].
    exists acc. split; [reflexivity |]. exists []. by rewrite app_nil_r.
  - destruct (Z.eqb_spec count 0).
    + exists acc. split; [reflexivity |]. exists []. by rewrite app_nil_r.
    + destruct (count_end + d >? new_len).
      * exists acc. split; [reflexivity |]. exists []. by rewrite app_nil_r.
      * destruct (IH (count - 1) (count_end + d)
                     (acc ++ [slice f count_end (count_end + d)])%list)
          as (dd & Hdd & extra & Hex); [lia | lia |].
        exists dd. split; [exact Hdd |].
        eexists. rewrite Hex, <- app_assoc. reflexivity.
Qed.
End PartitionFacts.

Section ExactDivision.
Import Partition.

Lemma node_step_exact (g : Z) (skip : bool) (valid N : Z) (host : string)
    (dl : list string) (v : vars) (d : Z) :
  0 < g -> 0 < d ->
  effective_d g dl (data_disk_per_cvg v) = Ok d ->
  d * g = len dl - g - 1 ->
  nks_check skip valid d g N = false ->
  exists sys,
    index dl 0 = Ok sys /\
    node_step g skip valid N host dl v =
      Ok (Continue
            {| data_disk_per_cvg := d;
               data_devices :=
                 map (fun i => take (Z.to_nat d) (drop (i * Z.to_nat d) (drop (Z.to_nat (g + 1)) dl)))
                     (seq 0 (Z.to_nat g));
               metadata_devices := take (Z.to_nat g) (drop 1 dl);
               sys_disk_pernode := dict_update (sys_disk_pernode v) [(host, sys)] |}).
Proof.
  intros Hg Hd Heff Hdg Hchk.
  assert (Hn : g + 1 <= len dl) by nia.
  destruct dl as [|sys dl'] eqn:Hdl; [unfold len in Hn; cbn in Hn; lia |].
  rewrite <- Hdl in *. exists sys. split; [subst dl; reflexivity |].
  unfold node_step. rewrite Heff. cbn [rbind]. rewrite Hchk.
  destruct (Z.ltb_spec (len dl - g - 1) (d * g)); [lia |].
  destruct (Z.ltb_spec (d * g) (len dl - g - 1)); [lia |].
  rewrite slice_from_drop by lia.
  assert (Hlen : len (drop (Z.to_nat (g + 1)) dl) = g * d).
  { unfold len in *. rewrite length_drop. lia. }
  rewrite Hlen, range0_multiple by lia. cbn [rbind].
  rewrite exact_chunks by lia.
  replace (index dl 0) with (Ok sys) by (subst dl; reflexivity). cbn [rbind].
  do 3 f_equal.
  rewrite slice_take_drop by lia. f_equal. lia.
Qed.
End ExactDivision.

Section ExactDivisionClaim.
Import Partition.

(** C1 (amended). For a node with [n] devices, [g > 0] volume groups and
    [d > 0] data disks per group (given, or derived when given as 0) with
    [d * g = n - g - 1], one round of the loop of [update_sol_yaml] goes on
    with exactly [g] data slices: slice [i] is the contiguous run
    [dl[g+1+i*d : g+1+(i+1)*d]] of [d] devices, the [g] metadata devices are
    [dl[1:g+1]], and the device list is the system disk, then the metadata
    devices, then the slices in order, so the slices are disjoint and cover
    exactly the [g * d] devices after device 0 and devices 1..g. *)
Theorem exact_division_slices (g : Z) (skip : bool) (valid N : Z) (host : string)
    (dl : list string) (v : vars) (d : Z) :
  0 < g -> 0 < d ->
  effective_d g dl (data_disk_per_cvg v) = Ok d ->
  d * g = len dl - g - 1 ->
  nks_check skip valid d g N = false ->
  exists v' sys,
    node_step g skip valid N host dl v = Ok (Continue v') /\
    index dl 0 = Ok sys /\
    len (data_devices v') = g /\
    (forall i, 0 <= i < g ->
       data_devices v' !! Z.to_nat i
       = Some (slice dl (g + 1 + i * d) (g + 1 + (i + 1) * d))) /\
    Forall (fun s => len s = d) (data_devices v') /\
    metadata_devices v' = slice dl 1 (g + 1) /\
    len (metadata_devices v') = g /\
    concat (data_devices v') = slice_from dl (g + 1) /\
    len (concat (data_devices v')) = g * d /\
    dl = (sys :: metadata_devices v' ++ concat (data_devices v'))%list /\
    (NoDup dl -> NoDup (concat (data_devices v'))).
Proof.
  intros Hg Hd Heff Hdg Hchk.
  destruct (node_step_exact g skip valid N host dl v d Hg Hd Heff Hdg Hchk)
    as (sys & Hsys & Hstep).
  assert (Hn : len dl = 1 + g + g * d) by lia.
  set (f := drop (Z.to_nat (g + 1)) dl).
  assert (Hf : length f = (Z.to_nat g * Z.to_nat d)%nat).
  { unfold f. rewrite length_drop. unfold len in Hn. nia. }
  assert (Hcat : concat (map (fun i => take (Z.to_nat d) (drop (i * Z.to_nat d) f))
                             (seq 0 (Z.to_nat g))) = f)
    by (apply concat_chunks; exact Hf).
  assert (Hdec : dl = (sys :: take (Z.to_nat g) (drop 1 dl) ++ f)%list).
  { destruct dl as [|x dl']; [discriminate |].
    injection Hsys as ->. cbn [drop]. f_equal.
    unfold f. replace (Z.to_nat (g + 1)) with (S (Z.to_nat g)) by lia.
    cbn [drop]. symmetry. apply take_drop. }
  eexists _, sys. split; [exact Hstep |]. cbn [data_devices metadata_devices].
  fold f. rewrite Hcat.
  split; [exact Hsys |].
  split; [unfold len; rewrite length_map, length_seq; lia |].
  split.
  { intros i Hi.
    change (map ?h ?l) with (h <$> l).
    rewrite list_lookup_fmap, lookup_seq_lt by lia. cbn.
    f_equal. unfold f. rewrite drop_drop.
    rewrite slice_take_drop by nia.
    f_equal; [lia |]. f_equal. nia. }
  split.
  { apply Forall_forall. intros s Hs. apply list_elem_of_In, in_map_iff in Hs.
    destruct Hs as (i & <- & Hi). apply in_seq in Hi.
    unfold len. rewrite length_take, length_drop. nia. }
  split; [rewrite slice_take_drop by lia; f_equal; lia |].
  split; [unfold len in *; rewrite length_take, length_drop; lia |].
  split; [unfold f; rewrite slice_from_drop by lia; reflexivity |].
  split; [unfold len; lia |].
  split; [exact Hdec |].
  intros Hnd. rewrite Hdec in Hnd.
  apply NoDup_cons_1_2 in Hnd. apply NoDup_app in Hnd. tauto.
Qed.
End ExactDivisionClaim.

(** ** Steps that leave the files alone *)

Section Frame.
Context {A B : Type}.

Lemma keeps_ret (a : A) : keeps_files (ret a).
Proof. intros w r w' [= _ <-]. reflexivity. Qed.

Lemma keeps_raise e : keeps_files (@raise A e).
Proof. intros w r w' [= _ <-]. reflexivity. Qed.

Lemma keeps_lift (x : result A) : keeps_files (lift x).
Proof. intros w r w' [= _ <-]. reflexivity. Qed.

Lemma keeps_bind (m : M A) (k : A -> M B) :
  keeps_files m -> (forall a, keeps_files (k a)) -> keeps_files (bind m k).
Proof.
  intros Hm Hk w r w'. unfold bind.
  destruct (m w) as [[a | e] w1] eqn:Hmw.
  - intros Hka. apply Hk in Hka. apply Hm in Hmw. congruence.
  - intros [= _ <-]. eapply Hm, Hmw.
Qed.

Lemma keeps_execute_cmd_lines E host c : keeps_files (execute_cmd_lines E host c).
Proof. intros w r w' [= _ <-]. reflexivity. Qed.

Lemma keeps_execute_cmd E host c : keeps_files (execute_cmd E host c).
Proof. intros w r w' [= _ <-]. reflexivity. Qed.

Lemma keeps_call_outside E fn : keeps_files (call_outside E fn).
Proof. intros w r w' [= _ <-]. reflexivity. Qed.

Lemma keeps_sleep secs : keeps_files (sleep secs).
Proof. intros w r w' [= _ <-]. reflexivity. Qed.

Lemma keeps_time_now : keeps_files time_now.
Proof. intros w r w' [= _ <-]. reflexivity. Qed.
End Frame.

(** ** The loop of [update_sol_yaml] *)

Section SolLoopFacts.
Import Partition Lib.
Context (E : env) (cfg : deploy_cfg) (cmd : commands).

Lemma list_devices_files node : keeps_files (list_devices E cmd node).
Proof.
  unfold list_devices.
  repeat (apply keeps_bind; [| intros ?]); auto using keeps_lift, keeps_execute_cmd_lines.
Qed.

Lemma sol_loop_cons kw N node rest v w :
  sol_loop E cmd kw N (node :: rest) v w =
  match list_devices E cmd node w with
  | (Ok dl, w1) =>
      match node_step (cvg_count kw) (skip_disk_count_check kw)
                      (sns_spare kw + sns_data kw + sns_parity kw) N
                      (hostname node) dl v with
      | Ok (Continue v') => sol_loop E cmd kw N rest v' w1
      | Ok (Return_False msg) => (Ok (Return_False msg), w1)
      | Raise e => (Raise e, w1)
      end
  | (Raise e, w1) => (Raise e, w1)
  end.
Proof.
  cbn [sol_loop]. unfold bind at 1.
  destruct (list_devices E cmd node w) as [[dl | e] w1]; [| reflexivity].
  unfold bind, lift.
  destruct (node_step _ _ _ _ _ _ _) as [[msg | v'] | e]; reflexivity.
Qed.

Lemma sol_loop_files kw N workers v w r w' :
  sol_loop E cmd kw N workers v w = (r, w') -> files w' = files w.
Proof.
  revert v w. induction workers as [|node rest IH]; intros v w.
  - cbn. intros [= _ <-]. reflexivity.
  - rewrite sol_loop_cons.
    destruct (list_devices E cmd node w) as [[dl | e] w1] eqn:Hld;
      apply list_devices_files in Hld.
    + destruct (node_step _ _ _ _ _ _ _) as [[msg | v'] | e].
      * intros [= _ <-]. exact Hld.
      * intros H. apply IH in H. congruence.
      * intros [= _ <-]. exact Hld.
    + intros [= _ <-]. exact Hld.
Qed.

(** The loop over [pre ++ post] is the loop over [pre] followed, when no
    round returned, by the loop over [post]. *)
Lemma sol_loop_app kw N pre post v w :
  sol_loop E cmd kw N (pre ++ post) v w =
  match sol_loop E cmd kw N pre v w with
  | (Ok (Continue v'), w') => sol_loop E cmd kw N post v' w'
  | other => other
  end.
Proof.
  revert v w. induction pre as [|node pre IH]; intros v w.
  - reflexivity.
  - cbn [app]. rewrite !sol_loop_cons.
    destruct (list_devices E cmd node w) as [[dl | e] w1]; [| reflexivity].
    destruct (node_step _ _ _ _ _ _ _) as [[msg | v'] | e]; try reflexivity.
    apply IH.
Qed.

(** A round that returns [False] ends [update_sol_yaml] at once. *)
Lemma update_sol_yaml_return_false workers path img kw w msg w' :
  sol_loop E cmd kw (len workers) workers (init_vars (kw_data_disk_per_cvg kw)) w
    = (Ok (Return_False msg), w') ->
  update_sol_yaml E cfg cmd workers path img kw w = (Ok (Sol_False msg), w').
Proof. intros H. unfold update_sol_yaml, bind at 1. rewrite H. reflexivity. Qed.
End SolLoopFacts.

Section ExactDivisionExamples.
Import Partition Lab.

(** Witness for C1: 7 devices, 2 groups, [d] derived
    as 2. *)
Lemma exact_division_slices_witness :
  exists v' sys,
    node_step 2 false 1 1 "w1" (devs 7) (init_vars 0) = Ok (Continue v') /\
    index (devs 7) 0 = Ok sys /\
    len (data_devices v') = 2 /\
    concat (data_devices v') = slice_from (devs 7) 3.
Proof.
  destruct (exact_division_slices 2 false 1 1 "w1" (devs 7) (init_vars 0) 2)
    as (v' & sys & H1 & H2 & H3 & _ & _ & _ & _ & H8 & _);
    [lia | lia | reflexivity | reflexivity | reflexivity |].
  exists v', sys. repeat split; assumption.
Defined.

(** C1 as stated fails: with 9 devices, 2 groups and 2 data disks per group,
    2 divides the 6 remaining devices evenly, yet the loop body computes 3
    slices that cover 6 devices, not exactly 2 slices covering 4. *)
Lemma divisible_but_three_slices :
  ~ ((len (devs 9) - 2 - 1) mod 2 = 0 ->
     forall v', node_step 2 false 1 1 "w1" (devs 9) (init_vars 2) = Ok (Continue v') ->
                len (data_devices v') = 2 /\ len (concat (data_devices v')) = 2 * 2).
Proof.
  intros H.
  specialize (H eq_refl _ eq_refl). destruct H as [H _].
  vm_compute in H. discriminate H.
Qed.
End ExactDivisionExamples.

(** ** Rejections of [update_sol_yaml] *)

Section Rejections.
Import Partition Lib.
Context (E : env) (cfg : deploy_cfg) (cmd : commands).

Lemma map_last_nonempty {A} (f : A -> A) (l r : list A) :
  map_last f l = Ok r -> r <> [].
Proof.
  intros H ->. destruct l as [|x [|y l]]; [discriminate H | discriminate H |].
  change (map_last f (x :: y :: l))
    with (rbind (map_last f (y :: l)) (fun r => Ok (x :: r))) in H.
  destruct (map_last f (y :: l)); discriminate H.
Qed.

Lemma list_devices_nonempty node w dl w' :
  list_devices E cmd node w = (Ok dl, w') -> dl <> [].
Proof.
  unfold list_devices, bind.
  destruct (execute_cmd_lines E _ _ w) as [[out | e] w1]; [| discriminate].
  unfold lift. destruct (index out 0) as [line | e]; [| discriminate].
  intros [= H _]. eapply map_last_nonempty, H.
Qed.

Lemma node_step_over_request g skip valid N host dl v d :
  effective_d g dl (data_disk_per_cvg v) = Ok d ->
  nks_check skip valid d g N = false ->
  len dl - g - 1 < d * g ->
  node_step g skip valid N host dl v = Ok (Return_False msg_more).
Proof.
  intros Heff Hchk Hlt. unfold node_step. rewrite Heff. cbn [rbind].
  rewrite Hchk. destruct (Z.ltb_spec (len dl - g - 1) (d * g)); [reflexivity | lia].
Qed.

Lemma node_step_under_use g skip valid N host dl v d :
  effective_d g dl (data_disk_per_cvg v) = Ok d ->
  nks_check skip valid d g N = false ->
  d * g < len dl - g - 1 -> 0 <= g -> dl <> [] ->
  exists v', node_step g skip valid N host dl v = Ok (Continue v')
             /\ data_disk_per_cvg v' = d
             /\ metadata_devices v' = slice dl 1 (g + 1)
             /\ exists extra, data_devices v' = (data_devices v ++ extra)%list.
Proof.
  intros Heff Hchk Hlt Hg Hdl. unfold node_step. rewrite Heff. cbn [rbind].
  rewrite Hchk.
  destruct (Z.ltb_spec (len dl - g - 1) (d * g)); [lia |].
  destruct (Z.ltb_spec (d * g) (len dl - g - 1)); [| lia].
  destruct (split_while_ok (slice_from dl (g + 1)) d (len dl - g - 1)
              (Z.to_nat (Z.max g (len dl - g - 1 + 2))) g d
              (data_devices v ++ [slice (slice_from dl (g + 1)) 0 d])%list)
    as (dd & Hdd & extra & Hex); [lia | lia |].
  rewrite Hdd. cbn [rbind].
  destruct dl as [|sys dl']; [contradiction |].
  cbn [index Z.ltb Z.to_nat lookup list_lookup rbind].
  eexists. split; [reflexivity |]. cbn.
  split; [reflexivity |]. split; [reflexivity |].
  eexists. rewrite Hex, <- app_assoc. reflexivity.
Qed.

(** C3 (amended). At any node that the loop of [update_sol_yaml] reaches
    with the N+K+S check passing, a request [d * g] strictly above the
    [n - g - 1] remaining devices makes [update_sol_yaml] return the
    failure "requested data disk is more than ... available" with the
    manifest files untouched; a request strictly below the remaining
    devices is not rejected: the round goes on to the next node. *)
Theorem over_request_rejected (pre post : list LogicalNode) (node_obj : LogicalNode)
    (path img : string) (kw : sol_kwargs) (w0 w1 w2 : world) (v : vars)
    (dl : list string) (d : Z) :
  let workers := (pre ++ node_obj :: post)%list in
  let valid := sns_spare kw + sns_data kw + sns_parity kw in
  sol_loop E cmd kw (len workers) pre (init_vars (kw_data_disk_per_cvg kw)) w0
    = (Ok (Continue v), w1) ->
  list_devices E cmd node_obj w1 = (Ok dl, w2) ->
  effective_d (cvg_count kw) dl (data_disk_per_cvg v) = Ok d ->
  nks_check (skip_disk_count_check kw) valid d (cvg_count kw) (len workers) = false ->
  (len dl - cvg_count kw - 1 < d * cvg_count kw ->
     update_sol_yaml E cfg cmd workers path img kw w0 = (Ok (Sol_False msg_more), w2)
     /\ files w2 = files w0) /\
  (d * cvg_count kw < len dl - cvg_count kw - 1 -> 0 <= cvg_count kw ->
     exists v', node_step (cvg_count kw) (skip_disk_count_check kw) valid (len workers)
                          (hostname node_obj) dl v = Ok (Continue v')).
Proof.
  intros workers valid Hpre Hld Heff Hchk. split.
  - intros Hlt. split.
    + apply update_sol_yaml_return_false. unfold workers.
      rewrite sol_loop_app. fold workers. rewrite Hpre, sol_loop_cons, Hld.
      fold valid.
      rewrite (node_step_over_request _ _ _ _ _ _ _ d) by assumption. reflexivity.
    + apply list_devices_files in Hld. apply sol_loop_files in Hpre. congruence.
  - intros Hlt Hg.
    destruct (node_step_under_use (cvg_count kw) (skip_disk_count_check kw) valid
                (len workers) (hostname node_obj) dl v d)
      as (v' & Hv' & _); try assumption.
    + eapply list_devices_nonempty, Hld.
    + exists v'. exact Hv'.
Qed.
End Rejections.

Section RejectionExamples.
Import Partition Lib Lab.

(** Witness for C3: one node with 6 devices, 2 groups
    of 2 data disks each ask for 4 of the 3 remaining devices. *)
Lemma over_request_rejected_witness :
  update_sol_yaml (plain_env 6) config cmds [node "w1"] "solution.yaml" "cortx-all:2.0"
    (kwargs 2 2 (1, 0, 0) (1, 0, 0) false) world0
  = (Ok (Sol_False msg_more), snd (list_devices (plain_env 6) cmds (node "w1") world0))
  /\ files (snd (list_devices (plain_env 6) cmds (node "w1") world0)) = files world0.
Proof.
  apply (over_request_rejected (plain_env 6) config cmds [] [] (node "w1")
           "solution.yaml" "cortx-all:2.0" (kwargs 2 2 (1, 0, 0) (1, 0, 0) false)
           world0 world0 (snd (list_devices (plain_env 6) cmds (node "w1") world0))
           (init_vars 2) (devs 6) 2);
    reflexivity.
Defined.

(** C3 as stated fails: with 9 devices, 2 groups and 2 data disks per group
    the request 4 is below the 6 remaining devices, and [update_sol_yaml]
    succeeds instead of rejecting. *)
Lemma under_use_accepted :
  ~ (2 * 2 < len (devs 9) - 2 - 1 ->
     exists msg w',
       update_sol_yaml (plain_env 9) config cmds [node "w1"] "solution.yaml"
         "cortx-all:2.0" (kwargs 2 2 (1, 0, 0) (1, 0, 0) false) world0
       = (Ok (Sol_False msg), w')).
Proof.
  intros H. destruct H as (msg & w' & H); [reflexivity |].
  apply (f_equal fst) in H. vm_compute in H. discriminate H.
Qed.
End RejectionExamples.

(** ** The N+K+S check *)

Section DiskCountCheck.
Import Partition Lib.
Context (E : env) (cfg : deploy_cfg) (cmd : commands).

Lemma nks_check_true skip valid d g N :
  nks_check skip valid d g N = true <-> skip = false /\ valid > d * g * N.
Proof.
  unfold nks_check. destruct skip; cbn;
    [| destruct (Z.gtb_spec valid (d * g * N))];
    intuition (try discriminate; try lia).
Qed.

Lemma nks_check_false skip valid d g N :
  nks_check skip valid d g N = false <-> skip = true \/ valid <= d * g * N.
Proof.
  unfold nks_check. destruct skip; cbn;
    [| destruct (Z.gtb_spec valid (d * g * N))];
    intuition (try discriminate; try lia).
Qed.

Lemma node_step_nks_reject g skip valid N host dl v d :
  effective_d g dl (data_disk_per_cvg v) = Ok d ->
  nks_check skip valid d g N = true ->
  node_step g skip valid N host dl v = Ok (Return_False msg_nks).
Proof.
  intros Heff Hchk. unfold node_step. rewrite Heff. cbn [rbind].
  rewrite Hchk. reflexivity.
Qed.

Lemma msg_more_not_nks : msg_more <> msg_nks.
Proof. discriminate. Qed.

(** When the check passes, the round does not return its message. *)
Lemma node_step_nks_pass g skip valid N host dl v d :
  effective_d g dl (data_disk_per_cvg v) = Ok d ->
  nks_check skip valid d g N = false ->
  node_step g skip valid N host dl v <> Ok (Return_False msg_nks).
Proof.
  intros Heff Hchk. unfold node_step. rewrite Heff. cbn [rbind]. rewrite Hchk.
  destruct (len dl - g - 1 <? d * g); [intros [= H]; discriminate H |].
  destruct (_ : result (list (list string))) as [dd | e]; cbn [rbind]; [| discriminate].
  destruct (index dl 0); cbn [rbind]; discriminate.
Qed.

(** With the override flag no round returns the N+K+S failure. *)
Lemma node_step_skip g valid N host dl v :
  node_step g true valid N host dl v <> Ok (Return_False msg_nks).
Proof.
  destruct (effective_d g dl (data_disk_per_cvg v)) as [d | e] eqn:Heff.
  - apply (node_step_nks_pass _ _ _ _ _ _ _ d Heff). reflexivity.
  - unfold node_step. rewrite Heff. discriminate.
Qed.

Lemma sol_loop_skip kw N workers v w w' :
  skip_disk_count_check kw = true ->
  sol_loop E cmd kw N workers v w <> (Ok (Return_False msg_nks), w').
Proof.
  intros Hskip. revert v w. induction workers as [|node rest IH]; intros v w.
  - discriminate.
  - rewrite sol_loop_cons.
    destruct (list_devices E cmd node w) as [[dl | e] w1]; [| discriminate].
    rewrite Hskip.
    destruct (node_step _ _ _ _ _ _ _) as [[msg | v'] | e] eqn:Hstep.
    + intros [= -> _]. eapply node_step_skip, Hstep.
    + apply IH.
    + discriminate.
Qed.
End DiskCountCheck.

Section DiskCountClaim.
Import Partition Lib.
Context (E : env) (cfg : deploy_cfg) (cmd : commands).

Lemma edit_pass_true path edit w r w' :
  edit_pass path edit w = (Ok r, w') -> r = (true, path).
Proof.
  unfold edit_pass, bind.
  destruct (load_yaml path w) as [[conf | e] w1]; [| discriminate].
  unfold lift. destruct (edit conf) as [conf' | e]; [| discriminate].
  cbn. intros [= <- _]. reflexivity.
Qed.

(** The only failures [update_sol_yaml] returns are those of a round of
    its loop: the four editors return [True] or raise. *)
Lemma update_sol_yaml_false_inv workers path img kw w m w' :
  update_sol_yaml E cfg cmd workers path img kw w = (Ok (Sol_False m), w') ->
  sol_loop E cmd kw (len workers) workers (init_vars (kw_data_disk_per_cvg kw)) w
    = (Ok (Return_False m), w').
Proof.
  unfold update_sol_yaml, bind at 1.
  destruct (sol_loop _ _ _ _ _ _ _) as [[[msg | v] | e] w1]; [| | discriminate].
  - intros [= -> ->]. reflexivity.
  - unfold update_password_sol_file, update_image_section_sol_file,
      update_cvg_sol_file, update_nodes_sol_file.
    unfold bind at 1.
    destruct (edit_pass _ _ w1) as [[r1 | e] w2] eqn:H1; [| discriminate].
    apply edit_pass_true in H1. subst r1. cbn [fst negb].
    unfold bind at 1.
    destruct (edit_pass _ _ w2) as [[r2 | e] w3] eqn:H2; [| discriminate].
    apply edit_pass_true in H2. subst r2. cbn [fst negb].
    unfold bind at 1.
    destruct (edit_pass _ _ w3) as [[r3 | e] w4] eqn:H3; [| discriminate].
    apply edit_pass_true in H3. subst r3. cbn [fst negb].
    unfold bind at 1.
    destruct (edit_pass _ _ w4) as [[r4 | e] w5] eqn:H4; [| discriminate].
    apply edit_pass_true in H4. subst r4. cbn [fst negb].
    discriminate.
Qed.

(** C2 (amended). At any node that the loop of [update_sol_yaml] reaches,
    with [d] the data disks per group in force there: when the SNS sum
    data+parity+spare strictly exceeds [d * g * node_count] and the skip
    flag is off, [update_sol_yaml] returns the N+K+S failure and the
    manifest files are untouched; when the sum is at most
    [d * g * node_count] (equality included) the round does not return that
    failure; and with the skip flag on [update_sol_yaml] never returns it.
    The DIX triple takes no part in the check. *)
Theorem nks_sum_rejected (pre post : list LogicalNode) (node_obj : LogicalNode)
    (path img : string) (kw : sol_kwargs) (w0 w1 w2 : world) (v : vars)
    (dl : list string) (d : Z) :
  let workers := (pre ++ node_obj :: post)%list in
  let valid := sns_spare kw + sns_data kw + sns_parity kw in
  sol_loop E cmd kw (len workers) pre (init_vars (kw_data_disk_per_cvg kw)) w0
    = (Ok (Continue v), w1) ->
  list_devices E cmd node_obj w1 = (Ok dl, w2) ->
  effective_d (cvg_count kw) dl (data_disk_per_cvg v) = Ok d ->
  (skip_disk_count_check kw = false -> valid > d * cvg_count kw * len workers ->
     update_sol_yaml E cfg cmd workers path img kw w0 = (Ok (Sol_False msg_nks), w2)
     /\ files w2 = files w0) /\
  (valid <= d * cvg_count kw * len workers ->
     nks_check (skip_disk_count_check kw) valid d (cvg_count kw) (len workers) = false
     /\ node_step (cvg_count kw) (skip_disk_count_check kw) valid (len workers)
                  (hostname node_obj) dl v <> Ok (Return_False msg_nks)) /\
  (skip_disk_count_check kw = true ->
     forall w', update_sol_yaml E cfg cmd workers path img kw w0
                <> (Ok (Sol_False msg_nks), w')).
Proof.
  intros workers valid Hpre Hld Heff. split; [| split].
  - intros Hskip Hgt. split.
    + apply update_sol_yaml_return_false. unfold workers.
      rewrite sol_loop_app. fold workers. rewrite Hpre, sol_loop_cons, Hld.
      fold valid.
      rewrite (node_step_nks_reject _ _ _ _ _ _ _ d); [reflexivity | assumption |].
      apply nks_check_true. split; assumption.
    + apply list_devices_files in Hld. apply sol_loop_files in Hpre. congruence.
  - intros Hle.
    assert (Hchk : nks_check (skip_disk_count_check kw) valid d (cvg_count kw)
                             (len workers) = false)
      by (apply nks_check_false; right; exact Hle).
    split; [exact Hchk |].
    eapply node_step_nks_pass; eassumption.
  - intros Hskip w' H. apply update_sol_yaml_false_inv in H.
    revert H. apply sol_loop_skip. exact Hskip.
Qed.
End DiskCountClaim.

Section DiskCountExamples.
Import Partition Lib Lab.

(** Witness for C2: one node with 7 devices, 2 groups of 2
    data disks, SNS 4+1+0 asks for 5 of the 4 data disks. *)
Lemma nks_sum_rejected_witness :
  update_sol_yaml (plain_env 7) config cmds [node "w1"] "solution.yaml" "cortx-all:2.0"
    (kwargs 2 2 (4, 1, 0) (1, 0, 0) false) world0
  = (Ok (Sol_False msg_nks), snd (list_devices (plain_env 7) cmds (node "w1") world0))
  /\ files (snd (list_devices (plain_env 7) cmds (node "w1") world0)) = files world0.
Proof.
  apply (nks_sum_rejected (plain_env 7) config cmds [] [] (node "w1")
           "solution.yaml" "cortx-all:2.0" (kwargs 2 2 (4, 1, 0) (1, 0, 0) false)
           world0 world0 (snd (list_devices (plain_env 7) cmds (node "w1") world0))
           (init_vars 2) (devs 7) 2);
    reflexivity.
Defined.

(** C2 as stated fails for the DIX domain: with 4 data disks in the cluster
    and DIX 5+0+0, the DIX sum exceeds the capacity, yet [update_sol_yaml]
    succeeds and rewrites the manifest. *)
Lemma dix_sum_not_checked :
  ~ (5 + 0 + 0 > 2 * 2 * len [node "w1"] ->
     exists msg w',
       update_sol_yaml (plain_env 7) config cmds [node "w1"] "solution.yaml"
         "cortx-all:2.0" (kwargs 2 2 (1, 0, 0) (5, 0, 0) false) world0
       = (Ok (Sol_False msg), w')
       /\ files w' = files world0).
Proof.
  intros H. destruct H as (msg & w' & H & _); [reflexivity |].
  apply (f_equal fst) in H. vm_compute in H. discriminate H.
Qed.
End DiskCountExamples.

(** ** Dictionaries *)

Section DictFacts.
Context {V : Type}.
Implicit Types (d u : list (string * V)) (k : string).

Lemma dict_get_set_eq k (v : V) d : dict_get k (dict_set k v d) = Some v.
Proof.
  induction d as [|[k' v'] d IH]; cbn.
  - by rewrite String.eqb_refl.
  - destruct (String.eqb_spec k k') as [-> | Hne]; cbn.
    + by rewrite String.eqb_refl.
    + destruct (String.eqb_spec k k'); [contradiction | exact IH].
Qed.

Lemma dict_get_set_ne k k' (v : V) d :
  k <> k' -> dict_get k (dict_set k' v d) = dict_get k d.
Proof.
  intros Hne. induction d as [|[k0 v0] d IH]; cbn.
  - destruct (String.eqb_spec k k'); [contradiction | reflexivity].
  - destruct (String.eqb_spec k' k0) as [-> | Hne0]; cbn.
    + destruct (String.eqb_spec k k0); [contradiction | reflexivity].
    + destruct (String.eqb_spec k k0); [reflexivity | exact IH].
Qed.

Lemma dict_get_None k d : dict_get k d = None <-> k ∉ dict_keys d.
Proof.
  induction d as [|[k' v'] d IH]; cbn.
  - split; [intros _; apply not_elem_of_nil | reflexivity].
  - rewrite not_elem_of_cons.
    destruct (String.eqb_spec k k') as [-> | Hne].
    + split; [discriminate | intros [? _]; contradiction].
    + rewrite IH. tauto.
Qed.

Lemma dict_get_Some_key k d v : dict_get k d = Some v -> k ∈ dict_keys d.
Proof.
  intros H. destruct (decide (k ∈ dict_keys d)) as [|Hn]; [assumption |].
  apply dict_get_None in Hn. congruence.
Qed.

Lemma dict_keys_set k (v : V) d k' :
  k' ∈ dict_keys (dict_set k v d) <-> k' = k \/ k' ∈ dict_keys d.
Proof.
  induction d as [|[k0 v0] d IH]; cbn.
  - rewrite list_elem_of_singleton. split; [auto | intros [? | H]; [auto | inversion H]].
  - destruct (String.eqb_spec k k0) as [-> | Hne]; cbn; rewrite !elem_of_cons.
    + tauto.
    + rewrite IH. tauto.
Qed.

Lemma dict_set_NoDup k (v : V) d :
  NoDup (dict_keys d) -> NoDup (dict_keys (dict_set k v d)).
Proof.
  induction d as [|[k0 v0] d IH]; cbn; intros Hnd.
  - apply NoDup_singleton.
  - apply NoDup_cons in Hnd as [Hnin Hnd].
    destruct (String.eqb_spec k k0) as [-> | Hne]; cbn.
    + apply NoDup_cons. split; assumption.
    + apply NoDup_cons. split; [| auto].
      intros Hin. apply dict_keys_set in Hin as [-> | Hin]; contradiction.
Qed.

(** [d.update(u)] on a key: the entry of [u] when it has one. *)
Lemma dict_get_update k d u :
  NoDup (dict_keys u) ->
  dict_get k (dict_update d u) =
  match dict_get k u with Some v => Some v | None => dict_get k d end.
Proof.
  unfold dict_update. revert d.
  induction u as [|[k' v'] u IH]; intros d Hnd; cbn; [reflexivity |].
  apply NoDup_cons in Hnd as [Hnin Hnd]. rewrite IH by assumption.
  cbn in Hnin.
  destruct (String.eqb_spec k k') as [-> | Hne].
  - apply dict_get_None in Hnin. rewrite Hnin. apply dict_get_set_eq.
  - rewrite dict_get_set_ne by assumption. reflexivity.
Qed.

Lemma dict_update_NoDup d u :
  NoDup (dict_keys d) -> NoDup (dict_keys (dict_update d u)).
Proof.
  unfold dict_update. revert d.
  induction u as [|[k' v'] u IH]; intros d Hnd; cbn; [assumption |].
  apply IH, dict_set_NoDup, Hnd.
Qed.

Lemma dict_keys_remove k d k' :
  k' ∈ dict_keys (dict_remove k d) -> k' ∈ dict_keys d.
Proof.
  induction d as [|[k0 v0] d IH]; cbn; [auto |].
  destruct (String.eqb_spec k k0); cbn; rewrite ?elem_of_cons; tauto.
Qed.

Lemma dict_remove_NoDup k d :
  NoDup (dict_keys d) -> NoDup (dict_keys (dict_remove k d)).
Proof.
  induction d as [|[k0 v0] d IH]; cbn; intros Hnd; [assumption |].
  apply NoDup_cons in Hnd as [Hnin Hnd].
  destruct (String.eqb_spec k k0); cbn; [assumption |].
  apply NoDup_cons. split; [| auto].
  intros Hin. apply dict_keys_remove in Hin. contradiction.
Qed.

Lemma dict_get_remove_eq k d :
  NoDup (dict_keys d) -> dict_get k (dict_remove k d) = None.
Proof.
  induction d as [|[k0 v0] d IH]; cbn; intros Hnd; [reflexivity |].
  apply NoDup_cons in Hnd as [Hnin Hnd].
  destruct (String.eqb_spec k k0) as [-> | Hne]; cbn.
  - by apply dict_get_None.
  - destruct (String.eqb_spec k k0); [contradiction | auto].
Qed.

Lemma dict_get_remove_ne k k' d :
  k <> k' -> dict_get k (dict_remove k' d) = dict_get k d.
Proof.
  intros Hne. induction d as [|[k0 v0] d IH]; cbn; [reflexivity |].
  destruct (String.eqb_spec k' k0) as [-> | Hne0]; cbn.
  - destruct (String.eqb_spec k k0); [contradiction | reflexivity].
  - destruct (String.eqb_spec k k0); [reflexivity | exact IH].
Qed.

(** Popping every key of a dictionary empties it. *)
Lemma dict_pop_all_keys d :
  foldM (fun acc k => dict_pop k acc) (dict_keys d) d = Ok [].
Proof.
  induction d as [|[k v] d IH]; cbn; [reflexivity |].
  unfold dict_pop. cbn. rewrite String.eqb_refl. cbn. exact IH.
Qed.
End DictFacts.

Lemma str_in_elem_of x l : str_in x l = true <-> x ∈ l.
Proof.
  unfold str_in. rewrite existsb_exists. split.
  - intros (y & Hy & Heq). apply String.eqb_eq in Heq. subst. by apply list_elem_of_In.
  - intros H. exists x. split; [by apply list_elem_of_In | apply String.eqb_refl].
Qed.

(** ** The image section *)

Section ImageFacts.
Import Manifest.

Lemma dict_get_str_items k (d : list (string * string)) :
  dict_get k (str_items d) = PStr <$> dict_get k d.
Proof.
  induction d as [|[k' v'] d IH]; cbn; [reflexivity |].
  destruct (String.eqb k k'); [reflexivity | exact IH].
Qed.

Lemma dict_keys_str_items (d : list (string * string)) :
  dict_keys (str_items d) = dict_keys d.
Proof. unfold dict_keys, str_items. rewrite map_map. reflexivity. Qed.

Lemma image_override_in defaults image pending k v s :
  str_in k (dict_keys defaults) = true -> dict_get k pending = Some s ->
  image_override defaults (image, pending) (k, v)
  = Ok (dict_update image [(k, PStr v)], dict_remove k pending).
Proof.
  intros Hin Hg. unfold image_override, dict_pop. cbn [fst snd].
  rewrite Hin, Hg. reflexivity.
Qed.

Lemma image_override_out defaults image pending k v :
  str_in k (dict_keys defaults) = false ->
  image_override defaults (image, pending) (k, v) = Ok (image, pending).
Proof. intros Hin. unfold image_override. cbn [fst snd]. rewrite Hin. reflexivity. Qed.

(** The loop over the injected mapping: what [image] and the pending
    defaults hold afterwards, key by key. *)
Lemma image_override_loop (defaults inj : list (string * string)) :
  forall image pending,
    NoDup (dict_keys inj) -> NoDup (dict_keys pending) ->
    (forall k, k ∈ dict_keys inj -> k ∈ dict_keys defaults -> dict_get k pending <> None) ->
    exists image' pending',
      foldM (image_override defaults) inj (image, pending) = Ok (image', pending')
      /\ NoDup (dict_keys pending')
      /\ (forall k, dict_get k image' =
                    match dict_get k inj with
                    | Some v => if str_in k (dict_keys defaults)
                                then Some (PStr v) else dict_get k image
                    | None => dict_get k image
                    end)
      /\ (forall k, dict_get k pending' =
                    match dict_get k inj with
                    | Some v => if str_in k (dict_keys defaults)
                                then None else dict_get k pending
                    | None => dict_get k pending
                    end).
Proof.
  induction inj as [|[k0 v0] inj IH]; intros image pending Hinj Hpend Hhas.
  - exists image, pending. cbn. auto.
  - change (dict_keys ((k0, v0) :: inj)) with (k0 :: dict_keys inj) in Hinj, Hhas.
    apply NoDup_cons in Hinj as [Hk0 Hinj].
    assert (Hk0' : dict_get k0 inj = None) by (by apply dict_get_None).
    cbn [foldM].
    destruct (str_in k0 (dict_keys defaults)) eqn:Hin.
    + assert (Hsome : dict_get k0 pending <> None).
      { apply Hhas; [by left | by apply str_in_elem_of]. }
      destruct (dict_get k0 pending) eqn:Hg; [| contradiction].
      rewrite (image_override_in _ _ _ _ _ _ Hin Hg). cbn [rbind].
      destruct (IH (dict_update image [(k0, PStr v0)]) (dict_remove k0 pending))
        as (image' & pending' & Hrun & Hnd & Himg & Hpen).
      * exact Hinj.
      * by apply dict_remove_NoDup.
      * intros k Hk HkD. rewrite dict_get_remove_ne; [apply Hhas; [by right | done] |].
        intros ->. contradiction.
      * exists image', pending'. split; [exact Hrun |]. split; [exact Hnd |].
        split; intros k; [rewrite Himg | rewrite Hpen]; cbn [dict_get];
          destruct (String.eqb_spec k k0) as [-> | Hne].
        -- rewrite Hk0', Hin. apply dict_get_set_eq.
        -- destruct (dict_get k inj); [destruct (str_in k _) |];
             try reflexivity; by apply dict_get_set_ne.
        -- rewrite Hk0', Hin. by apply dict_get_remove_eq.
        -- destruct (dict_get k inj); [destruct (str_in k _) |];
             try reflexivity; by apply dict_get_remove_ne.
    + rewrite (image_override_out _ _ _ _ _ Hin). cbn [rbind].
      destruct (IH image pending) as (image' & pending' & Hrun & Hnd & Himg & Hpen).
      * exact Hinj.
      * exact Hpend.
      * intros k Hk HkD. apply Hhas; [by right | done].
      * exists image', pending'. split; [exact Hrun |]. split; [exact Hnd |].
        split; intros k; [rewrite Himg | rewrite Hpen]; cbn [dict_get];
          destruct (String.eqb_spec k k0) as [-> | Hne];
          try reflexivity; rewrite Hk0', Hin; reflexivity.
Qed.

(** The image section after [update_image_section_sol_file], key by key:
    an injected key that is a default third-party key has the injected
    value, any other default key has its default, every other key is as
    the [cortx_im] update left it. *)
Lemma image_section_lookup (defaults : list (string * string)) (keys : list string)
    (cortx_image : string) (inj : list (string * string)) (image : list (string * pyval)) :
  NoDup (dict_keys defaults) -> NoDup (dict_keys inj) ->
  exists image',
    image_section defaults keys cortx_image inj image = Ok image' /\
    forall k,
      dict_get k image' =
      match dict_get k defaults with
      | Some dv => match dict_get k inj with
                   | Some v => Some (PStr v)
                   | None => Some (PStr dv)
                   end
      | None =>
          dict_get k
            (dict_update image
               (str_items (fold_left (fun acc image_key => dict_set image_key cortx_image acc)
                                     keys [])))
      end.
Proof.
  intros HD Hinj. unfold image_section.
  set (image1 := dict_update image _).
  assert (HD0 : forall k, dict_get k (dict_update [] defaults) = dict_get k defaults).
  { intros k. rewrite dict_get_update by assumption. by destruct (dict_get k defaults). }
  destruct (image_override_loop defaults inj image1 (dict_update [] defaults))
    as (image' & pending' & Hrun & Hnd & Himg & Hpen).
  - exact Hinj.
  - apply dict_update_NoDup. apply NoDup_nil_2.
  - intros k _ Hk. rewrite HD0. intros Hnone.
    apply dict_get_None in Hnone. contradiction.
  - rewrite Hrun. cbn [rbind fst snd]. eexists. split; [reflexivity |].
    intros k. rewrite dict_get_update by (by rewrite dict_keys_str_items).
    rewrite dict_get_str_items, Hpen, Himg, HD0.
    destruct (dict_get k defaults) as [dv |] eqn:Hd.
    + assert (Hin : str_in k (dict_keys defaults) = true).
      { apply str_in_elem_of. eapply dict_get_Some_key, Hd. }
      rewrite Hin. destruct (dict_get k inj); reflexivity.
    + assert (Hin : str_in k (dict_keys defaults) = false).
      { apply not_true_is_false. rewrite str_in_elem_of. by apply dict_get_None. }
      rewrite Hin. destruct (dict_get k inj); reflexivity.
Qed.
End ImageFacts.

(** ** Edit passes *)

Section EditFacts.
Import Manifest Lib.

Lemma getitem_setitem_eq v k x v' :
  setitem v k x = Ok v' -> getitem v' k = Ok x.
Proof.
  destruct v; try discriminate. intros [= <-]. cbn. by rewrite dict_get_set_eq.
Qed.


Lemma getitem_is_dict v k x : getitem v k = Ok x -> exists d, v = PDict d.
Proof. destruct v; try discriminate. eauto. Qed.

(** A pass whose edit succeeds on the stored document writes the edited
    document back to the same path. *)
Lemma edit_pass_ok path edit w conf conf' :
  files w !! path = Some conf -> edit conf = Ok conf' ->
  exists w', edit_pass path edit w = (Ok (true, path), w')
             /\ files w' = <[path := conf']> (files w)
             /\ trace w' = Dump path :: trace w.
Proof.
  intros Hf He. unfold edit_pass, bind, load_yaml, lift, dump_yaml, ret.
  rewrite Hf, He. eexists. split; [reflexivity |]. split; reflexivity.
Qed.

(** A pass whose edit raises leaves the files as they were. *)
Lemma edit_pass_raise path edit w e w' :
  edit_pass path edit w = (Raise e, w') -> files w' = files w.
Proof.
  unfold edit_pass, bind, load_yaml, lift, dump_yaml, ret.
  destruct (files w !! path) as [conf |]; [| intros [= _ <-]; reflexivity].
  destruct (edit conf); [discriminate | intros [= _ <-]; reflexivity].
Qed.
End EditFacts.

Section ImageClaim.
Import Manifest Lib.
Context (cfg : deploy_cfg).

(** C5 (amended). After [update_image_section_sol_file] runs on a manifest
    that has an [images] section, the reloaded [images] section has, for
    every key of the injected mapping that is also a default third-party
    image key, the injected value, and for every default third-party image
    key that the injected mapping does not have, the default value. An
    injected key that is no default third-party key is skipped: the section
    holds for it what it held after the [cortx_im] update. *)
Theorem image_section_updated (filepath cortx_image : string)
    (inj : list (string * string)) (w : world) (conf : pyval)
    (image : list (string * pyval)) :
  files w !! filepath = Some conf ->
  section conf ["solution"; "images"] = Ok (PDict image) ->
  NoDup (dict_keys (third_party_images cfg)) ->
  NoDup (dict_keys inj) ->
  exists w' conf' image',
    update_image_section_sol_file cfg filepath cortx_image inj w
      = (Ok (true, filepath), w')
    /\ fst (load_yaml filepath w') = Ok conf'
    /\ section conf' ["solution"; "images"] = Ok (PDict image')
    /\ (forall k v, dict_get k inj = Some v ->
                    k ∈ dict_keys (third_party_images cfg) ->
                    dict_get k image' = Some (PStr v))
    /\ (forall k dv, dict_get k (third_party_images cfg) = Some dv ->
                     dict_get k inj = None ->
                     dict_get k image' = Some (PStr dv))
    /\ (forall k, k ∉ dict_keys (third_party_images cfg) ->
                  dict_get k image' =
                  dict_get k
                    (dict_update image
                       (str_items
                          (fold_left (fun acc image_key => dict_set image_key cortx_image acc)
                                     (cortx_images_key cfg) [])))).
Proof.
  intros Hf Hsec HD Hinj.
  unfold section in Hsec. cbn [foldM] in Hsec.
  destruct (getitem conf "solution") as [parent |] eqn:Hp; [| discriminate].
  cbn [rbind] in Hsec.
  destruct (getitem parent "images") as [img |] eqn:Hi; [| discriminate].
  cbn [rbind] in Hsec. injection Hsec as ->.
  destruct (image_section_lookup (third_party_images cfg) (cortx_images_key cfg)
              cortx_image inj image HD Hinj) as (image' & Hsecn & Hlook).
  destruct (getitem_is_dict _ _ _ Hp) as [dc ->].
  destruct (getitem_is_dict _ _ _ Hi) as [dp ->].
  set (parent' := PDict (dict_set "images" (PDict image') dp)).
  set (conf' := PDict (dict_set "solution" parent' dc)).
  assert (Hedit : image_edit (third_party_images cfg) (cortx_images_key cfg) cortx_image
                             inj (PDict dc) = Ok conf').
  { unfold image_edit. rewrite Hp. cbn [rbind]. rewrite Hi. cbn [rbind as_dict].
    rewrite Hsecn. reflexivity. }
  destruct (edit_pass_ok filepath _ w _ _ Hf Hedit) as (w' & Hrun & Hfiles & _).
  exists w', conf', image'.
  split; [exact Hrun |].
  split; [unfold load_yaml; rewrite Hfiles, lookup_insert_eq; reflexivity |].
  split.
  { unfold section, conf', parent'. cbn [foldM getitem].
    rewrite dict_get_set_eq. cbn [rbind getitem]. rewrite dict_get_set_eq. reflexivity. }
  split; [| split].
  - intros k v Hk HkD. rewrite Hlook, Hk.
    destruct (dict_get k (third_party_images cfg)) eqn:Hd; [reflexivity |].
    apply dict_get_None in Hd. contradiction.
  - intros k dv Hd Hk. rewrite Hlook, Hd, Hk. reflexivity.
  - intros k Hk. rewrite Hlook. apply dict_get_None in Hk. rewrite Hk. reflexivity.
Qed.
End ImageClaim.

Section ImageExamples.
Import Manifest Lib Lab.

(** Witness for C5: the laboratory manifest with
    [consul] overridden. *)
Lemma image_section_updated_witness :
  exists w' conf' image',
    update_image_section_sol_file config "solution.yaml" "cortx-all:2.0"
      [("consul", "consul:test")] world0 = (Ok (true, "solution.yaml"), w')
    /\ fst (load_yaml "solution.yaml" w') = Ok conf'
    /\ section conf' ["solution"; "images"] = Ok (PDict image')
    /\ dict_get "consul" image' = Some (PStr "consul:test")
    /\ dict_get "kafka" image' = Some (PStr "3.0.0-debian-10-r7").
Proof.
  destruct (image_section_updated config "solution.yaml" "cortx-all:2.0"
              [("consul", "consul:test")] world0 template
              [("cortxcontrol", PStr "cortx-all:old");
               ("openldap", PStr "ghcr.io/seagate/symas-openldap:2.4.58")])
    as (w' & conf' & image' & H1 & H2 & H3 & H4 & H5 & _).
  - reflexivity.
  - reflexivity.
  - apply (bool_decide_unpack _). vm_compute. exact I.
  - apply (bool_decide_unpack _). vm_compute. exact I.
  - exists w', conf', image'. repeat split; try assumption.
    + apply (H4 "consul" "consul:test"); [reflexivity |].
      apply (bool_decide_unpack _). vm_compute. exact I.
    + apply (H5 "kafka" "3.0.0-debian-10-r7"); reflexivity.
Defined.

(** C5 as stated fails: an injected key that is not among the default
    third-party image keys does not reach the [images] section. *)
Lemma foreign_image_key_dropped :
  ~ (forall k v,
       dict_get k [("busybox", "busybox:1.35")] = Some v ->
       exists conf' image',
         fst (load_yaml "solution.yaml"
                (snd (update_image_section_sol_file config "solution.yaml"
                        "cortx-all:2.0" [("busybox", "busybox:1.35")] world0)))
           = Ok conf'
         /\ section conf' ["solution"; "images"] = Ok (PDict image')
         /\ dict_get k image' = Some (PStr v)).
Proof.
  intros H. destruct (H "busybox" "busybox:1.35" eq_refl) as (conf' & image' & H1 & H2 & H3).
  vm_compute in H1. injection H1 as <-.
  vm_compute in H2. injection H2 as <-.
  vm_compute in H3. discriminate H3.
Qed.
End ImageExamples.

(** ** The durability fields *)

Section DurabilityFacts.
Import Manifest Lib.

(** [str(n)] is a decimal string that denotes [n]. *)
Lemma int_of_decimal_str_of_int (n : Z) : int_of_decimal (str_of_int n) = Some n.
Proof.
  unfold int_of_decimal, str_of_int.
  rewrite NilZero.isi.
  - cbn. f_equal. apply DecimalZ.of_to.
  - destruct n; cbn; try discriminate.
    intros [= H]. pose proof (DecimalPos.Unsigned.to_uint_nonnil p). congruence.
  - destruct n; cbn; try discriminate.
    intros [= H]. pose proof (DecimalPos.Unsigned.to_uint_nonnil p). congruence.
Qed.

Lemma foldM_ok {A S} (f : S -> A -> result S) (l : list A) (s : S) :
  (forall s x, x ∈ l -> exists s', f s x = Ok s') ->
  exists s', foldM f l s = Ok s'.
Proof.
  revert s. induction l as [|x l IH]; intros s Hf; cbn.
  - eauto.
  - destruct (Hf s x) as [s1 Hs1]; [by left |]. rewrite Hs1. cbn.
    apply IH. intros s2 y Hy. apply Hf. by right.
Qed.

Lemma elem_of_range (n x : Z) : x ∈ range n -> 0 <= x < n.
Proof.
  unfold range. intros H. apply list_elem_of_In, in_map_iff in H.
  destruct H as (k & <- & Hk). apply in_seq in Hk. lia.
Qed.

Lemma index_lookup {A} (l : list A) (i : Z) (x : A) :
  0 <= i -> l !! Z.to_nat i = Some x -> index l i = Ok x.
Proof.
  intros Hi Hl. unfold index. destruct (Z.ltb_spec i 0); [lia |].
  destruct (Z.ltb_spec i 0); [lia |]. by rewrite Hl.
Qed.

(** The volume-group loop succeeds when every group has its metadata
    device and a row of at least [d] data devices. *)
Lemma add_cvg_loop_ok (md : list string) (dd : list (list string)) (ty : string)
    (g d : Z) (sm sd : string) (storage : list (string * pyval)) :
  (forall cvg, 0 <= cvg < g ->
     exists m row, md !! Z.to_nat cvg = Some m /\ dd !! Z.to_nat cvg = Some row
                   /\ d <= len row) ->
  exists storage', foldM (add_cvg md dd ty d sm sd) (range g) storage = Ok storage'.
Proof.
  intros Hdev. apply foldM_ok. intros s cvg Hcvg. apply elem_of_range in Hcvg.
  destruct (Hdev cvg Hcvg) as (m & row & Hm & Hrow & Hlen).
  unfold add_cvg. rewrite (index_lookup md cvg m) by (lia || assumption).
  cbn [rbind].
  assert (Hds : exists ds, data_schema_of dd cvg d sd = Ok ds).
  { unfold data_schema_of. apply foldM_ok. intros ds disk Hdisk.
    apply elem_of_range in Hdisk.
    rewrite (index_lookup dd cvg row) by (lia || assumption). cbn [rbind].
    destruct (lookup_lt_is_Some_2 row (Z.to_nat disk)) as [dev Hdev'];
      [unfold len in Hlen; lia |].
    rewrite (index_lookup row disk dev) by (lia || assumption). cbn [rbind]. eauto. }
  destruct Hds as [ds ->]. cbn [rbind]. eauto.
Qed.
End DurabilityFacts.

Section DurabilityClaim.
Import Manifest Lib.

Lemma section_cons conf k ks x :
  section conf (k :: ks) = Ok x ->
  exists v, getitem conf k = Ok v /\ section v ks = Ok x.
Proof.
  unfold section. cbn [foldM]. destruct (getitem conf k) as [v |]; [| discriminate].
  cbn [rbind]. eauto.
Qed.

Lemma section_nil conf x : section conf [] = Ok x -> conf = x.
Proof. unfold section. cbn. congruence. Qed.

(** The edit of [update_cvg_sol_file] succeeds on a manifest that has the
    sections it reads, and leaves the two formatted strings in the
    durability section. *)
Lemma cvg_edit_durability (md : list string) (dd : list (list string)) (g : Z)
    (ty : string) (d : Z) (sn sk ss dn dk ds : Z) (sm sd gs : string)
    (conf : pyval) (gl du st : list (string * pyval)) :
  section conf ["solution"; "common"; "glusterfs"] = Ok (PDict gl) ->
  section conf ["solution"; "common"; "storage_sets"; "durability"] = Ok (PDict du) ->
  section conf ["solution"; "storage"] = Ok (PDict st) ->
  (forall cvg, 0 <= cvg < g ->
     exists m row, md !! Z.to_nat cvg = Some m /\ dd !! Z.to_nat cvg = Some row
                   /\ d <= len row) ->
  exists conf',
    cvg_edit md dd g ty d sn sk ss dn dk ds sm sd gs conf = Ok conf'
    /\ section conf' ["solution"; "common"; "storage_sets"; "durability"; "sns"]
       = Ok (PStr (nks_format sn sk ss))
    /\ section conf' ["solution"; "common"; "storage_sets"; "durability"; "dix"]
       = Ok (PStr (nks_format dn dk ds)).
Proof.
  intros Hgl Hdu Hst Hdev.
  apply section_cons in Hgl as (parent & Hp & Hgl).
  apply section_cons in Hgl as (common & Hc & Hgl).
  apply section_cons in Hgl as (glv & Hg & Hgl). apply section_nil in Hgl. subst glv.
  apply section_cons in Hdu as (parent' & Hp' & Hdu).
  rewrite Hp in Hp'. injection Hp' as <-.
  apply section_cons in Hdu as (common' & Hc' & Hdu).
  rewrite Hc in Hc'. injection Hc' as <-.
  apply section_cons in Hdu as (sets & Hs & Hdu).
  apply section_cons in Hdu as (duv & Hd & Hdu). apply section_nil in Hdu. subst duv.
  apply section_cons in Hst as (parent' & Hp' & Hst).
  rewrite Hp in Hp'. injection Hp' as <-.
  apply section_cons in Hst as (stv & Hsto & Hst). apply section_nil in Hst. subst stv.
  destruct (getitem_is_dict _ _ _ Hp) as [dc ->].
  destruct (getitem_is_dict _ _ _ Hc) as [dp ->].
  destruct (getitem_is_dict _ _ _ Hg) as [dcm ->].
  destruct (getitem_is_dict _ _ _ Hd) as [dss ->].
  destruct (add_cvg_loop_ok md dd ty g d sm sd [] Hdev) as [storage' Hloop].
  unfold cvg_edit. rewrite Hp. cbn [rbind]. rewrite Hc. cbn [rbind].
  rewrite Hsto. cbn [rbind]. rewrite Hs. cbn [rbind]. rewrite Hg.
  cbn [rbind setitem as_dict]. rewrite Hd. cbn [rbind setitem].
  unfold pop_all. rewrite dict_pop_all_keys. cbn [rbind]. rewrite Hloop.
  cbn [rbind setitem]. eexists. split; [reflexivity |].
  unfold section. cbn [foldM getitem].
  split.
  - rewrite dict_get_set_eq. cbn [rbind getitem].
    rewrite dict_get_set_ne by discriminate. rewrite dict_get_set_eq. cbn [rbind getitem].
    rewrite dict_get_set_eq. cbn [rbind getitem].
    rewrite dict_get_set_eq. cbn [rbind getitem].
    rewrite dict_get_set_ne by discriminate. rewrite dict_get_set_eq. reflexivity.
  - rewrite dict_get_set_eq. cbn [rbind getitem].
    rewrite dict_get_set_ne by discriminate. rewrite dict_get_set_eq. cbn [rbind getitem].
    rewrite dict_get_set_eq. cbn [rbind getitem].
    rewrite dict_get_set_eq. cbn [rbind getitem].
    rewrite dict_get_set_eq. reflexivity.
Qed.

(** C6. For all integers N, K, S of the two durability domains, on a
    manifest that has the sections the editor reads and with a metadata
    device and [d] data devices for each volume group,
    [update_cvg_sol_file] succeeds and the reloaded manifest has
    [durability.sns] and [durability.dix] equal to the string
    ["N+K+S"] built from the decimal forms of the input integers; each
    decimal form denotes its integer. *)
Theorem durability_round_trip (filepath : string) (md : list string)
    (dd : list (list string)) (g : Z) (ty : string) (d : Z)
    (sn sk ss dn dk ds : Z) (sm sd gs : string)
    (w : world) (conf : pyval) (gl du st : list (string * pyval)) :
  files w !! filepath = Some conf ->
  section conf ["solution"; "common"; "glusterfs"] = Ok (PDict gl) ->
  section conf ["solution"; "common"; "storage_sets"; "durability"] = Ok (PDict du) ->
  section conf ["solution"; "storage"] = Ok (PDict st) ->
  (forall cvg, 0 <= cvg < g ->
     exists m row, md !! Z.to_nat cvg = Some m /\ dd !! Z.to_nat cvg = Some row
                   /\ d <= len row) ->
  exists w' conf',
    update_cvg_sol_file filepath md dd g ty d sn sk ss dn dk ds sm sd gs w
      = (Ok (true, filepath), w')
    /\ fst (load_yaml filepath w') = Ok conf'
    /\ section conf' ["solution"; "common"; "storage_sets"; "durability"; "sns"]
       = Ok (PStr (str_of_int sn ++ "+" ++ str_of_int sk ++ "+" ++ str_of_int ss))
    /\ section conf' ["solution"; "common"; "storage_sets"; "durability"; "dix"]
       = Ok (PStr (str_of_int dn ++ "+" ++ str_of_int dk ++ "+" ++ str_of_int ds))
    /\ Forall (fun n => int_of_decimal (str_of_int n) = Some n) [sn; sk; ss; dn; dk; ds].
Proof.
  intros Hf Hgl Hdu Hst Hdev.
  destruct (cvg_edit_durability md dd g ty d sn sk ss dn dk ds sm sd gs conf gl du st
              Hgl Hdu Hst Hdev) as (conf' & Hedit & Hsns & Hdix).
  destruct (edit_pass_ok filepath _ w _ _ Hf Hedit) as (w' & Hrun & Hfiles & _).
  exists w', conf'. split; [exact Hrun |].
  split; [unfold load_yaml; rewrite Hfiles, lookup_insert_eq; reflexivity |].
  split; [exact Hsns |]. split; [exact Hdix |].
  repeat constructor; apply int_of_decimal_str_of_int.
Qed.
End DurabilityClaim.

Section DurabilityExamples.
Import Manifest Lib Lab.

(** Witness for C6: inputs 1, 0, 0 give ["1+0+0"]. *)
Lemma durability_round_trip_witness :
  exists w' conf',
    update_cvg_sol_file "solution.yaml" ["/dev/sdb"] [["/dev/sdc"; "/dev/sdd"]] 1 "ios" 2
      1 0 0 1 0 0 "20Gi" "20Gi" "20Gi" world0 = (Ok (true, "solution.yaml"), w')
    /\ fst (load_yaml "solution.yaml" w') = Ok conf'
    /\ section conf' ["solution"; "common"; "storage_sets"; "durability"; "sns"]
       = Ok (PStr "1+0+0")
    /\ section conf' ["solution"; "common"; "storage_sets"; "durability"; "dix"]
       = Ok (PStr "1+0+0").
Proof.
  destruct (durability_round_trip "solution.yaml" ["/dev/sdb"] [["/dev/sdc"; "/dev/sdd"]]
              1 "ios" 2 1 0 0 1 0 0 "20Gi" "20Gi" "20Gi" world0 template
              [("size", PStr "5Gi")]
              [("sns", PStr "4+2+0"); ("dix", PStr "1+2+0")]
              [("cvg1", PDict [("name", PStr "cvg-01")])])
    as (w' & conf' & H1 & H2 & H3 & H4 & _).
  - reflexivity.
  - reflexivity.
  - reflexivity.
  - reflexivity.
  - intros cvg Hcvg. assert (cvg = 0) as -> by lia.
    exists "/dev/sdb", ["/dev/sdc"; "/dev/sdd"]. repeat split. vm_compute. discriminate.
  - exists w', conf'. repeat split; assumption.
Defined.
End DurabilityExamples.

(** ** One assignment for all nodes *)

Section GlobalAssignment.
Import Partition Manifest Lib.
Context (E : env) (cfg : deploy_cfg) (cmd : commands).

Lemma split_while_prefix f d new_len fuel count count_end acc dd :
  split_while f d new_len fuel count count_end acc = Ok dd ->
  exists extra, dd = (acc ++ extra)%list.
Proof.
  revert count count_end acc.
  induction fuel as [|fuel IH]; intros count count_end acc; cbn [split_while].
  - destruct (count =? 0); [| discriminate].
    intros [= <-]. exists []. by rewrite app_nil_r.
  - destruct (count =? 0); [intros [= <-]; exists []; by rewrite app_nil_r |].
    destruct (count_end + d >? new_len);
      [intros [= <-]; exists []; by rewrite app_nil_r |].
    intros H. apply IH in H as [extra ->].
    eexists. rewrite <- app_assoc. reflexivity.
Qed.

(** A round that goes on: the metadata devices are those of this node,
    whatever they were before; in the under-use branch the data slices of
    the earlier rounds stay in front. *)
Lemma node_step_continue g skip valid N host dl v v' :
  node_step g skip valid N host dl v = Ok (Continue v') ->
  exists d,
    effective_d g dl (data_disk_per_cvg v) = Ok d
    /\ data_disk_per_cvg v' = d
    /\ metadata_devices v' = slice dl 1 (g + 1)
    /\ (d * g < len dl - g - 1 ->
        exists extra, data_devices v' = (data_devices v ++ extra)%list).
Proof.
  unfold node_step.
  destruct (effective_d g dl (data_disk_per_cvg v)) as [d |]; [| discriminate].
  cbn [rbind]. destruct (nks_check skip valid d g N); [discriminate |].
  destruct (len dl - g - 1 <? d * g); [discriminate |].
  destruct (Z.ltb_spec (d * g) (len dl - g - 1)) as [Hlt | Hge].
  - destruct (split_while _ _ _ _ _ _ _) as [dd |] eqn:Hsw; [| discriminate].
    cbn [rbind]. destruct (index dl 0); [| discriminate]. cbn [rbind].
    intros [= <-]. exists d. cbn. repeat split.
    intros _. apply split_while_prefix in Hsw as [extra ->].
    eexists. rewrite <- app_assoc. reflexivity.
  - destruct (range0 _ _); [| discriminate]. cbn [rbind].
    destruct (index dl 0); [| discriminate]. cbn [rbind].
    intros [= <-]. exists d. cbn. repeat split. lia.
Qed.



(** The storage section that [update_cvg_sol_file] writes is built from
    its two device lists alone, starting from an empty dictionary. *)
Lemma cvg_edit_storage md dd g ty d sn sk ss dn dk ds sm sd gs conf conf' :
  cvg_edit md dd g ty d sn sk ss dn dk ds sm sd gs conf = Ok conf' ->
  exists storage,
    foldM (add_cvg md dd ty d sm sd) (range g) [] = Ok storage
    /\ section conf' ["solution"; "storage"] = Ok (PDict storage).
Proof.
  unfold cvg_edit.
  repeat (match goal with
          | |- rbind ?r _ = Ok _ -> _ =>
              let x := fresh "x" in let H := fresh "H" in
              destruct r as [x |] eqn:H; [cbn [rbind] | discriminate]
          end).
  unfold pop_all in *. rewrite dict_pop_all_keys in *.
  match goal with H : Ok [] = Ok ?e |- _ => injection H as <- end.
  intros Hset. eexists. split; [eassumption |].
  unfold section. cbn [foldM].
  rewrite (getitem_setitem_eq _ _ _ _ Hset). cbn [rbind].
  match goal with H : setitem _ "storage" _ = Ok ?p |- _ =>
    rewrite (getitem_setitem_eq _ _ _ _ H) end.
  reflexivity.
Qed.

End GlobalAssignment.

Section GlobalAssignmentClaim.
Import Partition Manifest Lib.
Context (E : env) (cfg : deploy_cfg) (cmd : commands).

End GlobalAssignmentClaim.

Section GlobalAssignmentExamples.
Import Partition Manifest Lib Lab.

End GlobalAssignmentExamples.

(** ** Teardown *)

Section Teardown.
Import Lib.
Context (E : env) (cfg : deploy_cfg).

Lemma destroy_workers_cons wk rest resp w :
  destroy_workers E cfg (wk :: rest) resp w =
  match host_lines E (trace w) (hostname wk) (destroy_cmd2 cfg) with
  | Ok _ =>
      let w1 := snd (execute_cmd_lines E (hostname wk) (destroy_cmd2 cfg) w) in
      match host_lines E (trace w1) (hostname wk) destroy_cmd3 with
      | Ok l3 =>
          destroy_workers E cfg rest (Out_lines l3)
            (snd (execute_cmd_lines E (hostname wk) destroy_cmd3 w1))
      | Raise e => (Raise e, snd (execute_cmd_lines E (hostname wk) destroy_cmd3 w1))
      end
  | Raise e => (Raise e, snd (execute_cmd_lines E (hostname wk) (destroy_cmd2 cfg) w))
  end.
Proof.
  cbn [destroy_workers]. unfold bind at 1. unfold execute_cmd_lines at 1.
  destruct (host_lines E (trace w) (hostname wk) (destroy_cmd2 cfg)); [| reflexivity].
  unfold bind at 1. unfold execute_cmd_lines at 1. cbn [snd trace].
  destruct (host_lines E _ (hostname wk) destroy_cmd3); reflexivity.
Qed.

Lemma destroy_workers_trace workers resp w r w' :
  destroy_workers E cfg workers resp w = (r, w') ->
  exists later, trace w' = (later ++ trace w)%list
                /\ Forall (worker_cleanup cfg workers) later.
Proof.
  revert resp w. induction workers as [|wk rest IH]; intros resp w.
  - cbn. intros [= _ <-]. exists []. split; [reflexivity | constructor].
  - rewrite destroy_workers_cons.
    assert (H2 : worker_cleanup cfg (wk :: rest) (Exec (hostname wk) (destroy_cmd2 cfg)))
      by (exists wk; split; [by left | by left]).
    assert (H3 : worker_cleanup cfg (wk :: rest) (Exec (hostname wk) destroy_cmd3))
      by (exists wk; split; [by left | by right]).
    destruct (host_lines E (trace w) _ _).
    + cbn zeta. destruct (host_lines E _ _ destroy_cmd3).
      * intros H. apply IH in H as (later & Ht & Hall).
        exists (later ++ [Exec (hostname wk) destroy_cmd3;
                          Exec (hostname wk) (destroy_cmd2 cfg)])%list.
        split; [rewrite Ht, <- app_assoc; reflexivity |].
        apply Forall_app. split; [| by repeat constructor].
        eapply Forall_impl; [exact Hall |].
        intros ev (wk' & Hin & Hev). exists wk'. split; [by right | exact Hev].
      * intros [= _ <-].
        exists [Exec (hostname wk) destroy_cmd3; Exec (hostname wk) (destroy_cmd2 cfg)].
        split; [reflexivity | by repeat constructor].
    + intros [= _ <-]. exists [Exec (hostname wk) (destroy_cmd2 cfg)].
      split; [reflexivity | by repeat constructor].
Qed.

Lemma destroy_workers_app pre post resp w :
  destroy_workers E cfg (pre ++ post) resp w =
  match destroy_workers E cfg pre resp w with
  | (Ok r, w') => destroy_workers E cfg post r w'
  | (Raise e, w') => (Raise e, w')
  end.
Proof.
  revert resp w. induction pre as [|wk pre IH]; intros resp w; [reflexivity |].
  cbn [app]. rewrite !destroy_workers_cons.
  destruct (host_lines E (trace w) _ _); [| reflexivity].
  cbn zeta. destruct (host_lines E _ _ destroy_cmd3); [apply IH | reflexivity].
Qed.
End Teardown.

Section TeardownClaim.
Import Lib.
Context (E : env) (cfg : deploy_cfg).

(** C7 (amended). In [destroy_setup] the teardown command on the master is
    the first command run, and everything after it is a cleanup command of
    a worker. The cleanup of the workers is not continue-on-error: when
    the unmount or the directory removal fails on a worker, no further
    command is run on any worker and [destroy_setup] returns
    [(False, error)] with that error. *)
Theorem teardown_order_and_abort (master : LogicalNode) (workers : list LogicalNode)
    (w w' : world) (r : result (bool * (cmd_out + exn))) :
  destroy_setup E cfg master workers w = (r, w') ->
  (exists later,
     trace w' = (later ++ [Exec (hostname master) (destroy_cmd1 cfg)] ++ trace w)%list
     /\ Forall (worker_cleanup cfg workers) later) /\
  (forall pre bad post out w1 resp w2 e,
     workers = (pre ++ bad :: post)%list ->
     execute_cmd E (hostname master) (destroy_cmd1 cfg) w = (Ok out, w1) ->
     destroy_workers E cfg pre (Out_bytes out) w1 = (Ok resp, w2) ->
     (host_lines E (trace w2) (hostname bad) (destroy_cmd2 cfg) = Raise e ->
        r = Ok (false, inr e)
        /\ trace w' = Exec (hostname bad) (destroy_cmd2 cfg) :: trace w2) /\
     (forall l2,
        host_lines E (trace w2) (hostname bad) (destroy_cmd2 cfg) = Ok l2 ->
        host_lines E (Exec (hostname bad) (destroy_cmd2 cfg) :: trace w2)
                   (hostname bad) destroy_cmd3 = Raise e ->
        r = Ok (false, inr e)
        /\ trace w' = Exec (hostname bad) destroy_cmd3
                        :: Exec (hostname bad) (destroy_cmd2 cfg) :: trace w2)).
Proof.
  unfold destroy_setup, try_except, bind at 1.
  destruct (execute_cmd E (hostname master) (destroy_cmd1 cfg) w) as [[out | e0] w1] eqn:Hm.
  - assert (Ht1 : trace w1 = Exec (hostname master) (destroy_cmd1 cfg) :: trace w).
    { unfold execute_cmd in Hm. injection Hm as _ <-. reflexivity. }
    unfold bind at 1.
    destruct (destroy_workers E cfg workers (Out_bytes out) w1) as [[resp | e1] w2] eqn:Hw.
    + cbn. intros [= <- <-]. split.
      * apply destroy_workers_trace in Hw as (later & Ht & Hall).
        exists later. split; [rewrite Ht, Ht1; reflexivity | exact Hall].
      * intros pre bad post out' w1' resp' w2' e -> [= <- <-] Hpre.
        rewrite destroy_workers_app, Hpre, destroy_workers_cons in Hw.
        split.
        -- intros Hbad. rewrite Hbad in Hw. discriminate Hw.
        -- intros l2 Hl2 Hbad. rewrite Hl2 in Hw. cbn zeta in Hw.
           cbn [execute_cmd_lines snd trace] in Hw. rewrite Hbad in Hw. discriminate Hw.
    + cbn. intros [= <- <-]. split.
      * apply destroy_workers_trace in Hw as (later & Ht & Hall).
        exists later. split; [rewrite Ht, Ht1; reflexivity | exact Hall].
      * intros pre bad post out' w1' resp' w2' e -> [= <- <-] Hpre.
        rewrite destroy_workers_app, Hpre, destroy_workers_cons in Hw.
        split.
        -- intros Hbad. rewrite Hbad in Hw. injection Hw as <- <-.
           split; reflexivity.
        -- intros l2 Hl2 Hbad. rewrite Hl2 in Hw. cbn zeta in Hw.
           cbn [execute_cmd_lines snd trace] in Hw. rewrite Hbad in Hw.
           injection Hw as <- <-. split; reflexivity.
  - cbn. intros [= <- <-]. split.
    + exists []. split; [| constructor].
      unfold execute_cmd in Hm. injection Hm as _ <-. reflexivity.
    + intros pre bad post out w1' resp w2 e _ [=].
Qed.
End TeardownClaim.

Section TeardownExamples.
Import Lib Lab.

(** Witness for C7: the unmount fails on the first
    of two workers; the run stops there with [(False, error)]. *)
Lemma teardown_order_and_abort_witness :
  fst (destroy_setup umount_fails_on_w1 config (node "m1") [node "w1"; node "w2"] world0)
    = Ok (false, inr (ExecFailure "umount /mnt/fs-local-volume"))
  /\ trace (snd (destroy_setup umount_fails_on_w1 config (node "m1")
                   [node "w1"; node "w2"] world0))
     = [Exec "w1" "umount /mnt/fs-local-volume";
        Exec "m1" "cd /root/cortx-k8s/k8_cortx_cloud/ && ./destroy-cortx-cloud.sh --force"].
Proof.
  destruct (teardown_order_and_abort umount_fails_on_w1 config (node "m1")
              [node "w1"; node "w2"] world0
              (snd (destroy_setup umount_fails_on_w1 config (node "m1")
                      [node "w1"; node "w2"] world0))
              (fst (destroy_setup umount_fails_on_w1 config (node "m1")
                      [node "w1"; node "w2"] world0)))
    as [_ H].
  - vm_compute. reflexivity.
  - destruct (H [] (node "w1") [node "w2"] "started"
                (snd (execute_cmd umount_fails_on_w1 "m1" (destroy_cmd1 config) world0))
                (Out_bytes "started")
                (snd (execute_cmd umount_fails_on_w1 "m1" (destroy_cmd1 config) world0))
                (ExecFailure "umount /mnt/fs-local-volume"))
      as [[H1 H2] _]; try reflexivity.
    split; [exact H1 | exact H2].
Defined.

(** C7 as stated fails: after the unmount failed on worker [w1], no
    cleanup command is run on worker [w2]. *)
Lemma failed_worker_aborts_cleanup :
  ~ (host_lines umount_fails_on_w1 [] "w1" (destroy_cmd2 config)
       = Raise (ExecFailure "umount /mnt/fs-local-volume") ->
     In (Exec "w2" (destroy_cmd2 config))
        (trace (snd (destroy_setup umount_fails_on_w1 config (node "m1")
                       [node "w1"; node "w2"] world0)))).
Proof.
  intros H. specialize (H eq_refl). vm_compute in H.
  destruct H as [H | [H | []]]; discriminate H.
Qed.
End TeardownExamples.

(** ** Prerequisite check *)

Section Prereq.
Import Lib.
Context (E : env) (cfg : deploy_cfg) (cmd : commands).

Lemma first_line_ok node c w line rest :
  host_lines E (trace w) (hostname node) c = Ok (line :: rest) ->
  first_line E node c w = (Ok line, snd (execute_cmd_lines E (hostname node) c w)).
Proof.
  intros H. unfold first_line, bind, execute_cmd_lines, lift. rewrite H. reflexivity.
Qed.

Lemma trace_after host c w :
  trace (snd (execute_cmd_lines E host c w)) = Exec host c :: trace w.
Proof. reflexivity. Qed.

(** C8. For a node that answers the ping and the four queries, with a CPU
    count [c] and a disk count [k] that [int] can read, [prereq_vm]
    returns a result [(b, msg)] where [b] is true exactly when
    [c >= cpu_cores], [k >= min_disks], the OS release is in the allow-list
    and the kernel version is in the allow-list; when a check fails, the
    result is [False] with the message of the first failed check. *)
Theorem prereq_vm_iff (node : LogicalNode) (w : world)
    (lp : list string) (cpu_line disk_line os_line krnl_line : string)
    (r1 r2 r3 r4 : list string) (c k : Z) :
  let host := hostname node in
  let h1 := Exec host (CMD_PING cmd host) :: trace w in
  let h2 := Exec host (CMD_NUM_CPU cmd) :: h1 in
  let h3 := Exec host (CMD_LSBLK cmd) :: h2 in
  let h4 := Exec host (CMD_OS_REL cmd) :: h3 in
  host_lines E (trace w) host (CMD_PING cmd host) = Ok lp ->
  host_lines E h1 host (CMD_NUM_CPU cmd) = Ok (cpu_line :: r1) ->
  int_of_str (strip cpu_line) = Ok c ->
  host_lines E h2 host (CMD_LSBLK cmd) = Ok (disk_line :: r2) ->
  int_of_str disk_line = Ok k ->
  host_lines E h3 host (CMD_OS_REL cmd) = Ok (os_line :: r3) ->
  host_lines E h4 host (CMD_KRNL_VER cmd) = Ok (krnl_line :: r4) ->
  exists b msg w',
    prereq_vm E cfg cmd node w = (Ok (b, msg), w')
    /\ (b = true <->
        cpu_cores (prereq cfg) <= c
        /\ min_disks (prereq cfg) <= k
        /\ strip os_line ∈ os_release (prereq cfg)
        /\ strip krnl_line ∈ kernel (prereq cfg))
    /\ (c < cpu_cores (prereq cfg) ->
        b = false /\ msg = "No of CPU are not as expected.")
    /\ (cpu_cores (prereq cfg) <= c -> k < min_disks (prereq cfg) ->
        b = false
        /\ msg = "Need at least " ++ str_of_int (min_disks (prereq cfg))
                   ++ " disks for deployment")
    /\ (cpu_cores (prereq cfg) <= c -> min_disks (prereq cfg) <= k ->
        strip os_line ∉ os_release (prereq cfg) ->
        b = false /\ msg = "OS version is different than expected.")
    /\ (cpu_cores (prereq cfg) <= c -> min_disks (prereq cfg) <= k ->
        strip os_line ∈ os_release (prereq cfg) ->
        strip krnl_line ∉ kernel (prereq cfg) ->
        b = false /\ msg = "Kernel Version is different than expected.").
Proof.
  intros host h1 h2 h3 h4 Hping Hcpu Hc Hdisk Hk Hos Hkr.
  unfold prereq_vm. unfold bind at 1. unfold execute_cmd_lines at 1.
  fold host. rewrite Hping.
  set (w1 := {| trace := Exec host (CMD_PING cmd host) :: trace w;
                clock := _; files := _ |}).
  unfold bind at 1. rewrite (first_line_ok node _ w1 cpu_line r1) by exact Hcpu.
  unfold bind at 1, lift at 1. rewrite Hc.
  set (w2 := snd (execute_cmd_lines E (hostname node) (CMD_NUM_CPU cmd) w1)).
  destruct (Z.ltb_spec c (cpu_cores (prereq cfg))) as [Hlt | Hge].
  { eexists _, _, _. split; [reflexivity |].
    repeat split; try discriminate; try lia; intros; lia. }
  unfold bind at 1. rewrite (first_line_ok node _ w2 disk_line r2) by exact Hdisk.
  unfold bind at 1, lift at 1. rewrite Hk.
  set (w3 := snd (execute_cmd_lines E (hostname node) (CMD_LSBLK cmd) w2)).
  destruct (Z.ltb_spec k (min_disks (prereq cfg))) as [Hlt | Hge2].
  { eexists _, _, _. split; [reflexivity |].
    repeat split; try discriminate; try lia; intros; lia. }
  unfold bind at 1. rewrite (first_line_ok node _ w3 os_line r3) by exact Hos.
  set (w4 := snd (execute_cmd_lines E (hostname node) (CMD_OS_REL cmd) w3)).
  destruct (str_in (strip os_line) (os_release (prereq cfg))) eqn:Hin1; cbn [negb].
  2:{ assert (Hnin : strip os_line ∉ os_release (prereq cfg)).
      { rewrite <- str_in_elem_of, Hin1. discriminate. }
      eexists _, _, _. split; [reflexivity |].
      repeat split; try discriminate; try lia; try tauto; intros; try lia; tauto. }
  apply str_in_elem_of in Hin1.
  unfold bind at 1. rewrite (first_line_ok node _ w4 krnl_line r4) by exact Hkr.
  destruct (str_in (strip krnl_line) (kernel (prereq cfg))) eqn:Hin2; cbn [negb].
  2:{ assert (Hnin : strip krnl_line ∉ kernel (prereq cfg)).
      { rewrite <- str_in_elem_of, Hin2. discriminate. }
      eexists _, _, _. split; [reflexivity |].
      repeat split; try discriminate; try lia; try tauto; intros; try lia; tauto. }
  apply str_in_elem_of in Hin2.
  eexists _, _, _. split; [reflexivity |].
  repeat split; try assumption; try lia; intros; try lia; contradiction.
Qed.
End Prereq.

Section PrereqExamples.
Import Lib Lab.

(** Witness for C8: a laboratory node with 8 CPUs and 8 disks
    on the allowed OS release and kernel passes. *)
Lemma prereq_vm_iff_witness :
  exists msg w',
    prereq_vm (plain_env 9) config cmds (node "w1") world0 = (Ok (true, msg), w').
Proof.
  destruct (prereq_vm_iff (plain_env 9) config cmds (node "w1") world0
              [] "8" "8" "CentOS Linux release 7.9.2009 (Core)" "3.10.0-1160.el7.x86_64"
              [] [] [] [] 8 8)
    as (b & msg & w' & Hrun & Hiff & _); try reflexivity.
  assert (b = true) as ->.
  { apply Hiff. repeat split; try (vm_compute; discriminate);
      apply (bool_decide_unpack _); vm_compute; exact I. }
  exists msg, w'. exact Hrun.
Defined.
End PrereqExamples.

(** ** What a step adds to the trace *)

Section Emits.
Context (P : event -> Prop) {A B : Type}.

Lemma emits_ret (a : A) : emits_only P (ret a).
Proof. intros w r w' [= _ <-]. exists []. split; [reflexivity | constructor]. Qed.

Lemma emits_raise e : emits_only P (@raise A e).
Proof. intros w r w' [= _ <-]. exists []. split; [reflexivity | constructor]. Qed.

Lemma emits_lift (x : result A) : emits_only P (lift x).
Proof. intros w r w' [= _ <-]. exists []. split; [reflexivity | constructor]. Qed.

Lemma emits_bind (m : M A) (k : A -> M B) :
  emits_only P m -> (forall a, emits_only P (k a)) -> emits_only P (bind m k).
Proof.
  intros Hm Hk w r w'. unfold bind.
  destruct (m w) as [[a | e] w1] eqn:Hmw.
  - intros Hka. apply Hk in Hka as (l2 & Ht2 & Hl2).
    apply Hm in Hmw as (l1 & Ht1 & Hl1).
    exists (l2 ++ l1)%list. split; [rewrite Ht2, Ht1, app_assoc; reflexivity |].
    apply Forall_app. split; assumption.
  - intros [= _ <-]. eapply Hm, Hmw.
Qed.

Lemma emits_try (m : M A) (h : exn -> M A) :
  emits_only P m -> (forall e, emits_only P (h e)) -> emits_only P (try_except m h).
Proof.
  intros Hm Hh w r w'. unfold try_except.
  destruct (m w) as [[a | e] w1] eqn:Hmw.
  - intros [= _ <-]. eapply Hm, Hmw.
  - intros Hhe. apply Hh in Hhe as (l2 & Ht2 & Hl2).
    apply Hm in Hmw as (l1 & Ht1 & Hl1).
    exists (l2 ++ l1)%list. split; [rewrite Ht2, Ht1, app_assoc; reflexivity |].
    apply Forall_app. split; assumption.
Qed.

Lemma emits_execute_cmd_lines E host c :
  P (Exec host c) -> emits_only P (execute_cmd_lines E host c).
Proof.
  intros HP w r w' [= _ <-]. exists [Exec host c].
  split; [reflexivity | by repeat constructor].
Qed.

Lemma emits_execute_cmd E host c :
  P (Exec host c) -> emits_only P (execute_cmd E host c).
Proof.
  intros HP w r w' [= _ <-]. exists [Exec host c].
  split; [reflexivity | by repeat constructor].
Qed.

Lemma emits_call_outside E fn : P (Call fn) -> emits_only P (call_outside E fn).
Proof.
  intros HP w r w' [= _ <-]. exists [Call fn].
  split; [reflexivity | by repeat constructor].
Qed.

Lemma emits_sleep secs : P (Sleep secs) -> emits_only P (sleep secs).
Proof.
  intros HP w r w' [= _ <-]. exists [Sleep secs].
  split; [reflexivity | by repeat constructor].
Qed.

Lemma emits_dump_yaml path conf : P (Dump path) -> emits_only P (dump_yaml path conf).
Proof.
  intros HP w r w' [= _ <-]. exists [Dump path].
  split; [reflexivity | by repeat constructor].
Qed.

Lemma emits_time_now : emits_only P time_now.
Proof. intros w r w' [= _ <-]. exists []. split; [reflexivity | constructor]. Qed.

Lemma emits_store_file path doc : emits_only P (store_file path doc).
Proof. intros w r w' [= _ <-]. exists []. split; [reflexivity | constructor]. Qed.

Lemma emits_load_yaml path : emits_only P (load_yaml path).
Proof.
  intros w r w'. unfold load_yaml.
  destruct (files w !! path); intros [= _ <-]; exists [];
    (split; [reflexivity | constructor]).
Qed.

End Emits.

Lemma emits_assert_true P c msg : emits_only P (assert_true c msg).
Proof. destruct c; [apply emits_ret | apply emits_raise]. Qed.

(** Steps of the library that never enter an IO step. *)
Section NoIo.
Import Partition Lib.
Context (E : env) (cfg : deploy_cfg) (cmd : commands).

Lemma exec_not_io host c : ~ io_step (Exec host c).
Proof. intros [H | H]; discriminate H. Qed.

Lemma sleep_not_io secs : ~ io_step (Sleep secs).
Proof. intros [H | H]; discriminate H. Qed.

Lemma dump_not_io path : ~ io_step (Dump path).
Proof. intros [H | H]; discriminate H. Qed.

Lemma call_not_io fn :
  fn <> "basic_io_write_read_validate" -> fn <> "io_workload" -> ~ io_step (Call fn).
Proof. intros H1 H2 [[= H] | [= H]]; contradiction. Qed.
End NoIo.

(** Breaks a step into its primitive actions, each of which adds no IO
    event. *)
Ltac no_io_step :=
  repeat first
    [ apply emits_ret | apply emits_raise | apply emits_lift
    | apply emits_time_now | apply emits_load_yaml | apply emits_store_file
    | apply emits_assert_true
    | apply emits_execute_cmd_lines; apply exec_not_io
    | apply emits_execute_cmd; apply exec_not_io
    | apply emits_sleep; apply sleep_not_io
    | apply emits_dump_yaml; apply dump_not_io
    | apply emits_call_outside; apply call_not_io; discriminate
    | apply emits_bind; [| intros ?]
    | apply emits_try; [| intros ?]
    | match goal with
      | |- emits_only _ (if ?b then _ else _) => destruct b
      | |- emits_only _ (match ?x with _ => _ end) => destruct x
      | |- emits_only _ (let '(_, _) := ?x in _) => destruct x
      end ].

Section PhasesWithoutIo.
Import Partition Lib.
Context (E : env) (cfg : deploy_cfg) (cmd : commands).

#[local] Abbreviation no_io := (emits_only (fun ev => ~ io_step ev)).

Lemma edit_pass_no_io path edit : no_io (edit_pass path edit).
Proof. unfold edit_pass. no_io_step. Qed.

Lemma list_devices_no_io node : no_io (list_devices E cmd node).
Proof. unfold list_devices. no_io_step. Qed.

Lemma sol_loop_no_io kw N workers v : no_io (sol_loop E cmd kw N workers v).
Proof.
  revert v. induction workers as [|node rest IH]; intros v; cbn [sol_loop].
  - no_io_step.
  - apply emits_bind; [apply list_devices_no_io | intros dl].
    apply emits_bind; [apply emits_lift | intros [msg | v']].
    + apply emits_ret.
    + apply IH.
Qed.

Lemma update_sol_yaml_no_io workers path img kw :
  no_io (update_sol_yaml E cfg cmd workers path img kw).
Proof.
  unfold update_sol_yaml, update_password_sol_file, update_image_section_sol_file,
    update_cvg_sol_file, update_nodes_sol_file.
  apply emits_bind; [apply sol_loop_no_io | intros [msg | v]]; [apply emits_ret |].
  repeat first [ apply edit_pass_no_io | apply emits_ret
               | apply emits_bind; [| intros ?]
               | match goal with
                 | |- emits_only _ (if ?b then _ else _) => destruct b
                 end ].
Qed.

Lemma prereq_vm_no_io node : no_io (prereq_vm E cfg cmd node).
Proof. unfold prereq_vm, first_line. no_io_step. Qed.

Lemma get_hctl_status_no_io node pod : no_io (get_hctl_status E cmd node pod).
Proof. unfold get_hctl_status. no_io_step. Qed.

Lemma get_pod_name_no_io node prefix : no_io (get_pod_name E cmd node prefix).
Proof. unfold get_pod_name. no_io_step. Qed.

Lemma destroy_workers_no_io workers resp : no_io (destroy_workers E cfg workers resp).
Proof.
  revert resp. induction workers as [|wk rest IH]; intros resp; cbn [destroy_workers].
  - apply emits_ret.
  - apply emits_bind; [apply emits_execute_cmd_lines, exec_not_io | intros l2].
    apply emits_bind; [apply emits_execute_cmd_lines, exec_not_io | intros l3].
    apply IH.
Qed.

Lemma destroy_setup_no_io master workers : no_io (destroy_setup E cfg master workers).
Proof.
  unfold destroy_setup. apply emits_try; [| intros e; apply emits_ret].
  apply emits_bind; [apply emits_execute_cmd, exec_not_io | intros out].
  apply emits_bind; [apply destroy_workers_no_io | intros resp]. apply emits_ret.
Qed.

Lemma setup_k8s_cluster_no_io masters workers :
  no_io (setup_k8s_cluster E masters workers).
Proof. unfold setup_k8s_cluster. no_io_step. Qed.

Lemma taint_masters_no_io masters : no_io (taint_masters E cmd masters).
Proof.
  induction masters as [|node rest IH]; cbn [taint_masters].
  - apply emits_ret.
  - unfold validate_master_tainted, taint_master.
    apply emits_bind; [no_io_step | intros resp].
    apply emits_bind; [no_io_step | intros _]. apply IH.
Qed.

Lemma prepare_workers_no_io workers disks :
  no_io (prepare_workers E cfg cmd workers disks).
Proof.
  induction workers as [|node rest IH]; cbn [prepare_workers].
  - apply emits_ret.
  - apply emits_bind; [apply prereq_vm_no_io | intros resp].
    apply emits_bind; [apply emits_assert_true | intros _].
    destruct (dict_get (hostname node) disks); [| apply emits_raise].
    unfold helper_step.
    repeat (apply emits_bind; [no_io_step | intros _]). apply IH.
Qed.

Lemma deploy_cortx_cluster_no_io masters workers disks :
  no_io (deploy_cortx_cluster E cfg cmd masters workers disks).
Proof.
  unfold deploy_cortx_cluster.
  destruct masters as [|master ?], workers as [|? ?]; try apply emits_ret.
  apply emits_bind; [apply prepare_workers_no_io | intros _].
  unfold helper_step, deploy_cluster, validate_cluster_status. no_io_step.
Qed.

Lemma poll_hctl_no_io fuel end_time node pod resp :
  no_io (poll_hctl E cmd fuel end_time node pod resp).
Proof.
  revert resp. induction fuel as [|fuel IH]; intros resp; cbn [poll_hctl].
  - no_io_step.
  - apply emits_bind; [apply emits_time_now | intros now].
    destruct (now <? end_time); [| apply emits_ret].
    apply emits_bind; [apply get_hctl_status_no_io | intros resp'].
    destruct (fst resp'); [apply emits_ret |].
    apply emits_bind; [apply emits_sleep, sleep_not_io | intros _]. apply IH.
Qed.

Lemma deploy_phase_no_io img kw masters workers :
  no_io (deploy_phase E cfg cmd img kw masters workers).
Proof.
  unfold deploy_phase, checkout_solution_file.
  apply emits_bind; [no_io_step | intros path].
  apply emits_bind; [apply update_sol_yaml_no_io | intros [msg | p sys]];
    [apply emits_raise |].
  apply emits_bind; [apply emits_load_yaml | intros _].
  apply emits_bind; [apply deploy_cortx_cluster_no_io | intros [resp |]];
    [| apply emits_raise].
  apply emits_bind; [apply emits_assert_true | intros _].
  apply emits_bind; [apply emits_lift | intros master].
  apply emits_bind; [apply get_pod_name_no_io | intros resp'].
  unfold wait_for_cluster.
  apply emits_bind; [apply emits_time_now | intros start].
  apply emits_bind; [apply poll_hctl_no_io | intros resp''].
  apply emits_assert_true.
Qed.

(** C10. In [test_deployment] the basic-IO validation and the s3bench
    workload are nested in the client-configuration branch: when
    [setup_client_config_flag] is false, the run, however it ends and
    whatever the other flags are, enters neither
    [basic_io_write_read_validate] nor [io_workload]. *)
Theorem io_steps_need_client_config (img : string) (kw : sol_kwargs)
    (masters workers : list LogicalNode) (flags : phase_kwargs)
    (w w' : world) (r : result unit) :
  kwargs_get (setup_client_config_flag flags) (flag_setup_client_config cfg) = false ->
  test_deployment E cfg cmd img kw masters workers flags w = (r, w') ->
  exists added,
    trace w' = (added ++ trace w)%list
    /\ (Call "basic_io_write_read_validate" ∉ added)
    /\ (Call "io_workload" ∉ added).
Proof.
  intros Hflag Hrun.
  assert (Hno : no_io (test_deployment E cfg cmd img kw masters workers flags)).
  { unfold test_deployment. cbv zeta. rewrite Hflag.
    apply emits_bind; [| intros _].
    { destruct (kwargs_get (setup_k8s_cluster_flag flags) _); [| apply emits_ret].
      apply emits_bind; [apply setup_k8s_cluster_no_io | intros resp].
      apply emits_bind; [apply emits_assert_true | intros _].
      apply taint_masters_no_io. }
    apply emits_bind; [| intros _].
    { destruct (kwargs_get (cortx_cluster_deploy flags) _);
        [apply deploy_phase_no_io | apply emits_ret]. }
    apply emits_bind; [apply emits_ret | intros _].
    destruct (kwargs_get (destroy_setup_flag flags) _); [| apply emits_ret].
    apply emits_bind; [apply emits_lift | intros master].
    apply emits_bind; [apply destroy_setup_no_io | intros resp].
    apply emits_assert_true. }
  apply Hno in Hrun as (added & Ht & Hall).
  exists added. split; [exact Ht |].
  rewrite Forall_forall in Hall.
  split; intros Hin; apply (Hall _ Hin); [left | right]; reflexivity.
Qed.
End PhasesWithoutIo.

Section IoExamples.
Import Lib Lab.

(** Witness for C10: a full deployment run with
    both IO flags on and the client-configuration flag off. *)
Lemma io_steps_need_client_config_witness :
  exists added,
    trace (snd (test_deployment (plain_env 9) config cmds "cortx-all:2.0"
                  (kwargs 2 2 (1, 0, 0) (1, 0, 0) false) [node "m1"] [node "w1"]
                  {| setup_k8s_cluster_flag := Some true;
                     cortx_cluster_deploy := Some true;
                     setup_client_config_flag := Some false;
                     run_basic_s3_io_flag := Some true;
                     run_s3bench_workload_flag := Some true;
                     destroy_setup_flag := Some true |} world0))
    = (added ++ trace world0)%list
    /\ (Call "basic_io_write_read_validate" ∉ added)
    /\ (Call "io_workload" ∉ added).
Proof.
  apply (io_steps_need_client_config (plain_env 9) config cmds "cortx-all:2.0"
           (kwargs 2 2 (1, 0, 0) (1, 0, 0) false) [node "m1"] [node "w1"]
           {| setup_k8s_cluster_flag := Some true;
              cortx_cluster_deploy := Some true;
              setup_client_config_flag := Some false;
              run_basic_s3_io_flag := Some true;
              run_s3bench_workload_flag := Some true;
              destroy_setup_flag := Some true |} world0 _
           (fst (test_deployment (plain_env 9) config cmds "cortx-all:2.0"
                   (kwargs 2 2 (1, 0, 0) (1, 0, 0) false) [node "m1"] [node "w1"]
                   {| setup_k8s_cluster_flag := Some true;
                      cortx_cluster_deploy := Some true;
                      setup_client_config_flag := Some false;
                      run_basic_s3_io_flag := Some true;
                      run_s3bench_workload_flag := Some true;
                      destroy_setup_flag := Some true |} world0)));
    [reflexivity | apply surjective_pairing].
Defined.
End IoExamples.

(** ** The status verdict *)

Section Verdict.
Import Lib.

Lemma find_app {A} (p : A -> bool) (l1 l2 : list A) :
  find p (l1 ++ l2)%list =
  match find p l1 with Some x => Some x | None => find p l2 end.
Proof.
  induction l1 as [|x l1 IH]; cbn; [reflexivity |]. destruct (p x); [reflexivity | exact IH].
Qed.

Lemma mapM_cons_inv {A B} (f : A -> result B) x l r :
  mapM f (x :: l) = Ok r ->
  exists y ys, f x = Ok y /\ mapM f l = Ok ys /\ r = y :: ys.
Proof.
  cbn. destruct (f x) as [y |]; [| discriminate]. cbn.
  destruct (mapM f l) as [ys |]; [| discriminate]. cbn. intros [= <-]. eauto.
Qed.

(** The inner loop stops at the first service whose status is not
    ["started"]. *)
Lemma first_not_started_spec (services : list pyval) (l : list (pyval * pyval)) :
  mapM read_svc services = Ok l ->
  first_not_started services
  = Ok (fst <$> find (fun ns => not_started (snd ns)) l).
Proof.
  unfold first_not_started.
  assert (Hsome : forall svcs x,
             foldM (fun found svc =>
                      match found with
                      | Some _ => Ok found
                      | None =>
                          (status <- getitem svc "status" ;;
                           if not_started status
                           then (name <- getitem svc "name" ;; Ok (Some name))
                           else Ok None)%res
                      end) svcs (Some x) = Ok (Some x)).
  { induction svcs as [|s svcs IH]; intros x; cbn; [reflexivity | apply IH]. }
  revert l. induction services as [|svc services IH]; intros l Hl.
  - cbn in Hl. injection Hl as <-. reflexivity.
  - apply mapM_cons_inv in Hl as ([name status] & ys & Hsvc & Hrest & ->).
    unfold read_svc in Hsvc.
    destruct (getitem svc "name") as [name' |] eqn:Hn; [| discriminate].
    cbn [rbind] in Hsvc.
    destruct (getitem svc "status") as [status' |] eqn:Hs; [| discriminate].
    cbn [rbind] in Hsvc. injection Hsvc as -> ->.
    cbn [foldM find snd fst]. rewrite Hs. cbn [rbind].
    destruct (not_started status).
    + rewrite Hn. cbn [rbind]. rewrite Hsome. reflexivity.
    + cbn [rbind]. apply IH. exact Hrest.
Qed.

Lemma scan_nodes_spec (nodes : list pyval) (ll : list (list (pyval * pyval))) :
  mapM read_node nodes = Ok ll ->
  scan_nodes nodes = Ok (fst <$> find (fun ns => not_started (snd ns)) (concat ll)).
Proof.
  unfold scan_nodes.
  assert (Hsome : forall nds x,
             foldM (fun found node_data =>
                      match found with
                      | Some _ => Ok found
                      | None =>
                          (services <- getitem node_data "svcs" ;;
                           services <- iterate services ;;
                           first_not_started services)%res
                      end) nds (Some x) = Ok (Some x)).
  { induction nds as [|s nds IH]; intros x; cbn; [reflexivity | apply IH]. }
  revert ll. induction nodes as [|nd nodes IH]; intros ll Hll.
  - cbn in Hll. injection Hll as <-. reflexivity.
  - apply mapM_cons_inv in Hll as (l & ls & Hnd & Hrest & ->).
    unfold read_node in Hnd.
    destruct (getitem nd "svcs") as [sv |] eqn:Hsv; [| discriminate].
    cbn [rbind] in Hnd. destruct sv; try discriminate. cbn [as_list rbind] in Hnd.
    cbn [foldM concat]. rewrite Hsv. cbn [rbind iterate].
    rewrite (first_not_started_spec _ _ Hnd). cbn [rbind].
    rewrite find_app. destruct (find _ l) as [[n s] |].
    + cbn. apply Hsome.
    + cbn [fmap option_fmap option_map]. apply IH. exact Hrest.
Qed.

(** The verdict of [get_hctl_status] as a function of the reported
    services: success when all are started, else the failure naming the
    first that is not. *)
Lemma hctl_verdict_spec (doc : pyval) (svcs : list (pyval * pyval)) :
  doc_services doc = Ok svcs ->
  hctl_verdict doc =
  Ok (match find (fun ns => not_started (snd ns)) svcs with
      | Some ns => (false, msg_not_started (fst ns))
      | None => (true, msg_running)
      end).
Proof.
  unfold doc_services.
  destruct (getitem doc "nodes") as [nd |] eqn:Hn; [| discriminate]. cbn [rbind].
  destruct nd; try discriminate. cbn [as_list rbind].
  destruct (mapM read_node l) as [ll |] eqn:Hll; [| discriminate]. cbn [rbind].
  intros [= <-].
  destruct doc; try discriminate.
  unfold hctl_verdict. rewrite Hn. cbn [rbind iterate].
  rewrite (scan_nodes_spec _ _ Hll). cbn [rbind].
  destruct (find _ (concat ll)) as [[n s] |]; reflexivity.
Qed.

Lemma find_none_all_started (svcs : list (pyval * pyval)) :
  Forall (fun ns => snd ns = PStr "started") svcs ->
  find (fun ns => not_started (snd ns)) svcs = None.
Proof.
  induction 1 as [|[n s] l Hs _ IH]; [reflexivity |].
  cbn in *. subst s. cbn. exact IH.
Qed.

Lemma find_some_not_started (svcs : list (pyval * pyval)) :
  Exists (fun ns => snd ns <> PStr "started") svcs ->
  exists ns, find (fun ns => not_started (snd ns)) svcs = Some ns.
Proof.
  induction 1 as [[n s] l Hs | [n s] l _ IH]; cbn in *.
  - assert (not_started s = true) as ->; [| eauto].
    destruct s; try reflexivity. cbn.
    destruct (String.eqb_spec s "started"); [congruence | reflexivity].
  - destruct (not_started s); eauto.
Qed.
End Verdict.

(** ** Convergence polling *)

Section Polling.
Import Lib.
Context (E : env) (cmd : commands) (master : LogicalNode) (pod : string).

Lemma get_hctl_status_polled w v :
  polled E cmd master pod (trace w) v ->
  get_hctl_status E cmd master pod w
  = (Ok v, snd (execute_cmd E (hostname master) (K8S_HCTL_STATUS cmd pod) w)).
Proof.
  intros (s & doc & Hs & Hdoc & Hv).
  unfold get_hctl_status, bind, execute_cmd, lift. rewrite Hs, Hdoc, Hv. reflexivity.
Qed.

Lemma poll_hctl_past_deadline fuel end_time resp w :
  end_time <= clock w ->
  poll_hctl E cmd fuel end_time master pod resp w = (Ok resp, w).
Proof.
  intros Hle. destruct fuel; cbn [poll_hctl]; unfold bind, time_now;
    destruct (Z.ltb_spec (clock w) end_time); (lia || reflexivity).
Qed.

Lemma poll_hctl_round fuel end_time resp w m :
  clock w < end_time ->
  polled E cmd master pod (trace w) (false, m) ->
  poll_hctl E cmd (S fuel) end_time master pod resp w
  = poll_hctl E cmd fuel end_time master pod (false, m)
      (snd (sleep 60 (snd (execute_cmd E (hostname master) (K8S_HCTL_STATUS cmd pod) w)))).
Proof.
  intros Hlt Hp. cbn [poll_hctl]. unfold bind at 1, time_now at 1.
  destruct (Z.ltb_spec (clock w) end_time); [| lia].
  unfold bind at 1. rewrite (get_hctl_status_polled w _ Hp). cbn [fst].
  unfold bind at 1. reflexivity.
Qed.

Lemma poll_hctl_first fuel end_time resp w msg :
  clock w < end_time ->
  polled E cmd master pod (trace w) (true, msg) ->
  poll_hctl E cmd (S fuel) end_time master pod resp w
  = (Ok (true, msg), snd (execute_cmd E (hostname master) (K8S_HCTL_STATUS cmd pod) w)).
Proof.
  intros Hlt Hp. cbn [poll_hctl]. unfold bind at 1, time_now at 1.
  destruct (Z.ltb_spec (clock w) end_time); [| lia].
  unfold bind at 1. rewrite (get_hctl_status_polled w _ Hp). reflexivity.
Qed.

Lemma rounds_snoc {A} (n : nat) (x : list A) :
  (concat (replicate n x) ++ x)%list = concat (replicate (S n) x).
Proof.
  induction n as [|n IH]; cbn; [by rewrite app_nil_r |].
  cbn in IH. rewrite <- app_assoc, IH. reflexivity.
Qed.

(** While no poll sees the cluster up, the loop polls and sleeps until
    the clock reaches the deadline, and leaves with the verdict of its
    last poll. *)
Lemma poll_hctl_never_started (end_time : Z) :
  (forall h, exists m, polled E cmd master pod h (false, m)) ->
  forall fuel w resp,
    clock w < end_time -> end_time - clock w <= 60 * Z.of_nat fuel ->
    exists n h_last m w',
      poll_hctl E cmd fuel end_time master pod resp w = (Ok (false, m), w')
      /\ polled E cmd master pod h_last (false, m)
      /\ (1 <= n <= fuel)%nat
      /\ trace w' = (concat (replicate n [Sleep 60;
                                          Exec (hostname master) (K8S_HCTL_STATUS cmd pod)])
                       ++ trace w)%list
      /\ trace w' = Sleep 60 :: Exec (hostname master) (K8S_HCTL_STATUS cmd pod) :: h_last
      /\ end_time <= clock w'
      /\ files w' = files w
      /\ ((forall h host c, host_secs E h host c = 0%N) ->
          clock w' = clock w + 60 * Z.of_nat n).
Proof.
  intros Hall. induction fuel as [|fuel IH]; intros w resp Hlt Hfuel; [lia |].
  destruct (Hall (trace w)) as [m Hm].
  rewrite (poll_hctl_round fuel end_time resp w m Hlt Hm).
  set (w2 := snd (sleep 60 (snd (execute_cmd E (hostname master)
                                   (K8S_HCTL_STATUS cmd pod) w)))).
  assert (Ht2 : trace w2 = Sleep 60 :: Exec (hostname master) (K8S_HCTL_STATUS cmd pod)
                             :: trace w) by reflexivity.
  assert (Hc2 : clock w2 = clock w + Z.of_N (host_secs E (trace w) (hostname master)
                                               (K8S_HCTL_STATUS cmd pod)) + 60)
    by reflexivity.
  assert (Hf2 : files w2 = files w) by reflexivity.
  destruct (Z.lt_ge_cases (clock w2) end_time) as [Hlt2 | Hge2].
  - destruct (IH w2 (false, m) Hlt2) as (n & h_last & m' & w' & Hrun & Hp & Hn & Ht & Htl & Hend & Hfl & Hz);
      [lia |].
    exists (S n), h_last, m', w'. split; [exact Hrun |]. split; [exact Hp |].
    split; [lia |].
    split; [rewrite Ht, Ht2, <- rounds_snoc, <- app_assoc; reflexivity |].
    split; [exact Htl |]. split; [exact Hend |]. split; [congruence |].
    intros Hzero. rewrite (Hz Hzero), Hc2, Hzero. lia.
  - rewrite poll_hctl_past_deadline by exact Hge2.
    exists 1%nat, (trace w), m, w2. split; [reflexivity |]. split; [exact Hm |].
    split; [lia |]. split; [exact Ht2 |]. split; [exact Ht2 |].
    split; [exact Hge2 |]. split; [exact Hf2 |].
    intros Hzero. rewrite Hc2, Hzero. lia.
Qed.
End Polling.

Section PollingFuel.
Import Lib.
Context (E : env) (cmd : commands) (master : LogicalNode) (pod : string).

Lemma poll_hctl_unfold fuel end_time resp w :
  poll_hctl E cmd (S fuel) end_time master pod resp w =
  if clock w <? end_time
  then match get_hctl_status E cmd master pod w with
       | (Ok r, w1) =>
           if fst r then (Ok r, w1)
           else poll_hctl E cmd fuel end_time master pod r (snd (sleep 60 w1))
       | (Raise e, w1) => (Raise e, w1)
       end
  else (Ok resp, w).
Proof.
  cbn [poll_hctl]. unfold bind at 1, time_now at 1.
  destruct (clock w <? end_time); [| reflexivity].
  unfold bind at 1.
  destruct (get_hctl_status E cmd master pod w) as [[r | e] w1]; [| reflexivity].
  destruct (fst r); [reflexivity |]. unfold bind at 1. reflexivity.
Qed.

Lemma get_hctl_status_clock w r w1 :
  get_hctl_status E cmd master pod w = (r, w1) -> clock w <= clock w1.
Proof.
  unfold get_hctl_status, bind, execute_cmd, lift.
  destruct (host_bytes E _ _ _) as [s |]; [destruct (json_loads E s) |];
    intros [= _ <-]; cbn; lia.
Qed.

(** Thirty rounds are enough: once the fuel covers the time left to the
    deadline in steps of 60 seconds, more fuel changes nothing, so the
    loop never stops for lack of it. *)
Lemma poll_hctl_fuel_enough end_time fuel extra :
  forall w resp,
    end_time - clock w <= 60 * Z.of_nat fuel ->
    poll_hctl E cmd (fuel + extra) end_time master pod resp w
    = poll_hctl E cmd fuel end_time master pod resp w.
Proof.
  induction fuel as [|fuel IH]; intros w resp Hfuel.
  - rewrite !poll_hctl_past_deadline by lia. reflexivity.
  - cbn [Nat.add]. rewrite !poll_hctl_unfold.
    destruct (clock w <? end_time); [| reflexivity].
    destruct (get_hctl_status E cmd master pod w) as [[r | e] w1] eqn:Hg; [| reflexivity].
    destruct (fst r); [reflexivity |].
    apply get_hctl_status_clock in Hg. apply IH. cbn. lia.
Qed.
End PollingFuel.

Section PollingClaim.
Import Lib.
Context (E : env) (cmd : commands).

(** C4. Convergence polling with a deadline 1800 seconds (30 minutes)
    after its start and a 60 second sleep after every unsuccessful poll.
    When the first status answer reports every service as ["started"], it
    succeeds after that one poll, without sleeping. When every status
    answer reports some service that is not ["started"], it polls and
    sleeps 60 seconds between 1 and 30 times, until the clock has reached
    the deadline, then fails with an assertion error whose message is the
    verdict of the last poll, and polls no more; when commands take no
    time there are exactly 30 polls, 60 seconds apart, and the failure
    comes 1800 seconds after the start. *)
Theorem convergence_polling (master : LogicalNode) (pod : string)
    (resp : bool * string) (w : world) :
  let host := hostname master in
  let c := K8S_HCTL_STATUS cmd pod in
  (forall s doc svcs,
     host_bytes E (trace w) host c = Ok s ->
     json_loads E s = Ok doc ->
     doc_services doc = Ok svcs ->
     Forall (fun ns => snd ns = PStr "started") svcs ->
     exists w',
       wait_for_cluster E cmd master pod resp w = (Ok tt, w')
       /\ trace w' = Exec host c :: trace w) /\
  ((forall h, exists s doc svcs,
      host_bytes E h host c = Ok s
      /\ json_loads E s = Ok doc
      /\ doc_services doc = Ok svcs
      /\ Exists (fun ns => snd ns <> PStr "started") svcs) ->
   exists n h_last m w',
     wait_for_cluster E cmd master pod resp w = (Raise (AssertionError m), w')
     /\ polled E cmd master pod h_last (false, m)
     /\ (1 <= n <= 30)%nat
     /\ trace w' = (concat (replicate n [Sleep 60; Exec host c]) ++ trace w)%list
     /\ trace w' = Sleep 60 :: Exec host c :: h_last
     /\ clock w + 1800 <= clock w'
     /\ ((forall h host' c', host_secs E h host' c' = 0%N) ->
         n = 30%nat /\ clock w' = clock w + 1800)).
Proof.
  intros host c. split.
  - intros s doc svcs Hs Hdoc Hsv Hall.
    assert (Hp : polled E cmd master pod (trace w) (true, msg_running)).
    { exists s, doc. split; [exact Hs |]. split; [exact Hdoc |].
      rewrite (hctl_verdict_spec doc svcs Hsv), find_none_all_started by exact Hall.
      reflexivity. }
    eexists. unfold wait_for_cluster, bind at 1, time_now at 1.
    unfold bind at 1.
    rewrite (poll_hctl_first E cmd master pod 29 _ resp w msg_running) by (lia || exact Hp).
    cbn [fst snd assert_true ret]. split; reflexivity.
  - intros Hall.
    assert (Hall' : forall h, exists m, polled E cmd master pod h (false, m)).
    { intros h. destruct (Hall h) as (s & doc & svcs & Hs & Hdoc & Hsv & Hex).
      destruct (find_some_not_started svcs Hex) as [ns Hns].
      exists (msg_not_started (fst ns)), s, doc.
      split; [exact Hs |]. split; [exact Hdoc |].
      rewrite (hctl_verdict_spec doc svcs Hsv), Hns. reflexivity. }
    destruct (poll_hctl_never_started E cmd master pod (clock w + 1800) Hall' 30 w resp)
      as (n & h_last & m & w' & Hrun & Hp & Hn & Ht & Htl & Hend & _ & Hz); [lia | lia |].
    exists n, h_last, m, w'.
    split.
    { unfold wait_for_cluster, bind at 1, time_now at 1. unfold bind at 1.
      rewrite Hrun. reflexivity. }
    split; [exact Hp |]. split; [exact Hn |]. split; [exact Ht |].
    split; [exact Htl |]. split; [exact Hend |].
    intros Hzero. specialize (Hz Hzero). split; lia.
Qed.
End PollingClaim.

Section PollingExamples.
Import Lib Lab.

(** Witness for C4: one poll against a cluster that is
    up; thirty polls, then the failure naming [s3server], against a cluster
    that stays offline. *)
Lemma convergence_polling_witness :
  (exists w',
     wait_for_cluster (plain_env 9) cmds (node "m1") "cortx-data-pod-w1" (true, "pod") world0
       = (Ok tt, w')
     /\ trace w' = [Exec "m1" (K8S_HCTL_STATUS cmds "cortx-data-pod-w1")]) /\
  (exists w',
     wait_for_cluster offline_env cmds (node "m1") "cortx-data-pod-w1" (true, "pod") world0
       = (Raise (AssertionError "Service s3server not started."), w')
     /\ length (trace w') = 60%nat
     /\ clock w' = clock world0 + 1800).
Proof.
  split.
  - destruct (convergence_polling (plain_env 9) cmds (node "m1") "cortx-data-pod-w1"
                (true, "pod") world0) as [H _].
    apply (H "started" status_started
             [(PStr "hax", PStr "started"); (PStr "ioservice", PStr "started");
              (PStr "hax", PStr "started"); (PStr "s3server", PStr "started")]);
      try reflexivity.
    repeat constructor.
  - destruct (convergence_polling offline_env cmds (node "m1") "cortx-data-pod-w1"
                (true, "pod") world0) as [_ H].
    destruct H as (n & h_last & m & w' & Hrun & _ & _ & _ & _ & _ & _).
    + intros h. exists "offline", status_offline,
        [(PStr "hax", PStr "started"); (PStr "ioservice", PStr "started");
         (PStr "hax", PStr "started"); (PStr "s3server", PStr "offline")].
      repeat split. do 3 apply Exists_cons_tl. apply Exists_cons_hd. discriminate.
    + exists (snd (wait_for_cluster offline_env cmds (node "m1") "cortx-data-pod-w1"
                     (true, "pod") world0)).
      split; [| split]; vm_compute; reflexivity.
Defined.
End PollingExamples.

(** * Further properties of the library *)

(** ** The loop of [update_sol_yaml], continued *)

Section LoopInvariants.
Import Partition Lib.
Context (E : env) (cfg : deploy_cfg) (cmd : commands).

Lemma node_step_sys_disk g skip valid N host dl v v' :
  node_step g skip valid N host dl v = Ok (Continue v') ->
  exists disk, index dl 0 = Ok disk
               /\ sys_disk_pernode v' = dict_update (sys_disk_pernode v) [(host, disk)].
Proof.
  unfold node_step.
  destruct (effective_d g dl (data_disk_per_cvg v)) as [d |]; [| discriminate].
  cbn [rbind]. destruct (nks_check skip valid d g N); [discriminate |].
  destruct (len dl - g - 1 <? d * g); [discriminate |].
  destruct (_ : result (list (list string))) as [dd |]; [| discriminate].
  cbn [rbind]. destruct (index dl 0) as [disk |]; [| discriminate]. cbn [rbind].
  intros [= <-]. exists disk. split; reflexivity.
Qed.

Lemma sol_loop_sys_disk kw N workers :
  forall v w v' w',
    sol_loop E cmd kw N workers v w = (Ok (Continue v'), w') ->
    (forall node, node ∈ workers ->
       exists disk, dict_get (hostname node) (sys_disk_pernode v') = Some disk)
    /\ (forall k disk, dict_get k (sys_disk_pernode v) = Some disk ->
          exists disk', dict_get k (sys_disk_pernode v') = Some disk').
Proof.
  induction workers as [|node rest IH]; intros v w v' w' Hrun.
  - cbn in Hrun. injection Hrun as <- <-. split; [intros node Hin; inversion Hin | eauto].
  - rewrite sol_loop_cons in Hrun.
    destruct (list_devices E cmd node w) as [[dl | e] w1]; [| discriminate].
    destruct (node_step _ _ _ _ _ _ _) as [[msg | v1] | e] eqn:Hstep; try discriminate.
    apply node_step_sys_disk in Hstep as (disk & _ & Hsys).
    destruct (IH _ _ _ _ Hrun) as [Hin Hkeep].
    assert (Hset : forall k, dict_get k (sys_disk_pernode v1)
                             = if String.eqb k (hostname node) then Some disk
                               else dict_get k (sys_disk_pernode v)).
    { intros k. rewrite Hsys. cbn.
      destruct (String.eqb_spec k (hostname node)) as [-> | Hne];
        [apply dict_get_set_eq | by apply dict_get_set_ne]. }
    split.
    + intros node' Hin'. apply elem_of_cons in Hin' as [-> | Hin']; [| by apply Hin].
      apply (Hkeep _ disk). rewrite Hset, String.eqb_refl. reflexivity.
    + intros k d0 Hk. destruct (String.eqb_spec k (hostname node)) as [-> | Hne].
      * apply (Hkeep _ disk). rewrite Hset, String.eqb_refl. reflexivity.
      * apply (Hkeep _ d0). rewrite Hset.
        destruct (String.eqb_spec k (hostname node)); [contradiction | exact Hk].
Qed.

Lemma update_sol_yaml_true_inv workers path img kw w p sys w' :
  update_sol_yaml E cfg cmd workers path img kw w = (Ok (Sol_True p sys), w') ->
  exists v w1,
    sol_loop E cmd kw (len workers) workers (init_vars (kw_data_disk_per_cvg kw)) w
      = (Ok (Continue v), w1)
    /\ p = path /\ sys = sys_disk_pernode v.
Proof.
  unfold update_sol_yaml, bind at 1.
  destruct (sol_loop _ _ _ _ _ _ _) as [[[msg | v] | e] w1]; try discriminate.
  unfold update_password_sol_file, update_image_section_sol_file,
    update_cvg_sol_file, update_nodes_sol_file.
  unfold bind at 1.
  destruct (edit_pass _ _ w1) as [[r1 | e] w2] eqn:H1; [| discriminate].
  apply edit_pass_true in H1. subst r1. cbn [fst negb].
  unfold bind at 1.
  destruct (edit_pass _ _ w2) as [[r2 | e] w3] eqn:H2; [| discriminate].
  apply edit_pass_true in H2. subst r2. cbn [fst negb].
  unfold bind at 1.
  destruct (edit_pass _ _ w3) as [[r3 | e] w4] eqn:H3; [| discriminate].
  apply edit_pass_true in H3. subst r3. cbn [fst negb].
  unfold bind at 1.
  destruct (edit_pass _ _ w4) as [[r4 | e] w5] eqn:H4; [| discriminate].
  apply edit_pass_true in H4. subst r4. cbn [fst negb].
  intros [= <- <- <-]. eauto.
Qed.

(** X1. When [update_sol_yaml] succeeds, the path it returns is the one it
    was given and its system-disk dictionary has an entry for the host name
    of every worker, so that the lookup [system_disk_dict[node.hostname]]
    of [deploy_cortx_cluster] finds a disk for each of them. *)
Theorem system_disk_for_every_worker (workers : list LogicalNode) (path img : string)
    (kw : sol_kwargs) (w w' : world) (p : string) (sys : list (string * string)) :
  update_sol_yaml E cfg cmd workers path img kw w = (Ok (Sol_True p sys), w') ->
  p = path
  /\ forall node, node ∈ workers ->
       exists disk, dict_get (hostname node) sys = Some disk.
Proof.
  intros H. apply update_sol_yaml_true_inv in H as (v & w1 & Hloop & -> & ->).
  split; [reflexivity |]. apply sol_loop_sys_disk in Hloop as [Hin _]. exact Hin.
Qed.

Lemma node_step_keeps_d g skip valid N host dl v v' :
  node_step g skip valid N host dl v = Ok (Continue v') ->
  data_disk_per_cvg v <> 0 -> data_disk_per_cvg v' = data_disk_per_cvg v.
Proof.
  intros Hstep Hd. apply node_step_continue in Hstep as (d & Heff & Hd' & _).
  rewrite effective_d_given in Heff by exact Hd. congruence.
Qed.

(** X2. The number of data disks per volume group is settled once: from
    the round in which it is not zero (given by the caller, or derived at
    an earlier node), no later round of the loop changes it, whatever the
    number of devices of the later nodes. *)
Theorem data_disk_per_cvg_settled (kw : sol_kwargs) (N : Z) (workers : list LogicalNode)
    (v v' : Partition.vars) (w w' : world) :
  sol_loop E cmd kw N workers v w = (Ok (Continue v'), w') ->
  data_disk_per_cvg v <> 0 ->
  data_disk_per_cvg v' = data_disk_per_cvg v.
Proof.
  revert v w. induction workers as [|node rest IH]; intros v w Hrun Hd.
  - cbn in Hrun. injection Hrun as <- <-. reflexivity.
  - rewrite sol_loop_cons in Hrun.
    destruct (list_devices E cmd node w) as [[dl | e] w1]; [| discriminate].
    destruct (node_step _ _ _ _ _ _ _) as [[msg | v1] | e] eqn:Hstep; try discriminate.
    apply node_step_keeps_d in Hstep; [| exact Hd].
    rewrite <- Hstep. apply (IH v1 w1 Hrun). congruence.
Qed.
End LoopInvariants.

Section UnderUse.
Import Partition Lib.

(** The rounds of the under-use loop: from chunk [k] on, it appends the
    chunks [f[j*d:(j+1)*d]] while rounds are left and the chunk fits. *)
Lemma split_while_chunks (f : list string) (d new_len : Z) :
  0 < d ->
  forall fuel count k acc,
    0 <= count -> count <= Z.of_nat fuel -> 0 <= k ->
    split_while f d new_len fuel count (k * d) acc
    = Ok (acc ++ map (fun j => slice f (Z.of_nat j * d) ((Z.of_nat j + 1) * d))
                     (seq (Z.to_nat k) (Z.to_nat (Z.min count (new_len / d - k)))))%list.
Proof.
  intros Hd.
  pose proof (Z.div_mod new_len d ltac:(lia)) as Hdm.
  pose proof (Z.mod_pos_bound new_len d Hd) as Hmod.
  induction fuel as [|fuel IH]; intros count k acc Hc Hf Hk.
  - assert (count = 0) as -> by lia. cbn [split_while Z.eqb].
    replace (Z.to_nat (Z.min 0 (new_len / d - k))) with 0%nat by lia.
    cbn. by rewrite app_nil_r.
  - cbn [split_while]. destruct (Z.eqb_spec count 0) as [-> | Hne].
    + replace (Z.to_nat (Z.min 0 (new_len / d - k))) with 0%nat by lia.
      cbn. by rewrite app_nil_r.
    + destruct (Z.gtb_spec (k * d + d) new_len) as [Hgt | Hle].
      * assert (new_len / d - k <= 0) by nia.
        replace (Z.to_nat (Z.min count (new_len / d - k))) with 0%nat by lia.
        cbn. by rewrite app_nil_r.
      * assert (Hpos : 0 < new_len / d - k) by nia.
        replace (k * d + d) with ((k + 1) * d) by lia.
        rewrite IH by lia. f_equal. rewrite <- app_assoc. f_equal.
        replace (Z.to_nat (Z.min count (new_len / d - k)))
          with (S (Z.to_nat (Z.min (count - 1) (new_len / d - (k + 1))))) by lia.
        replace (Z.to_nat (k + 1)) with (S (Z.to_nat k)) by lia.
        cbn [seq map app]. f_equal. f_equal; lia.
Qed.
End UnderUse.

Section UnderUseSlices.
Import Partition Lib.

(** X3. With [g > 0] volume groups and [d > 0] data disks per group asking
    for fewer than the [n - g - 1] remaining devices, a round of the loop
    appends, to the slices of the earlier rounds, the contiguous slices
    [dl[g+1+j*d : g+1+(j+1)*d]] for [j] below [min (g+1) ((n-g-1)/d)]:
    the [g] slices that the volume groups need and, when [d] more devices
    are left, one surplus slice. *)
Theorem under_use_slices (g : Z) (skip : bool) (valid N : Z) (host : string)
    (dl : list string) (v : vars) (d : Z) :
  0 < g -> 0 < d ->
  effective_d g dl (data_disk_per_cvg v) = Ok d ->
  nks_check skip valid d g N = false ->
  d * g < len dl - g - 1 ->
  exists v' m,
    node_step g skip valid N host dl v = Ok (Continue v')
    /\ m = Z.to_nat (Z.min (g + 1) ((len dl - g - 1) / d))
    /\ (Z.to_nat g <= m <= Z.to_nat g + 1)%nat
    /\ data_devices v'
       = (data_devices v
            ++ map (fun j => slice dl (g + 1 + Z.of_nat j * d) (g + 1 + (Z.of_nat j + 1) * d))
                   (seq 0 m))%list
    /\ metadata_devices v' = slice dl 1 (g + 1).
Proof.
  intros Hg Hd Heff Hchk Hlt.
  assert (Hsys : exists sys, index dl 0 = Ok sys).
  { destruct dl as [|sys dl']; [unfold len in Hlt; cbn in Hlt; nia | by exists sys]. }
  destruct Hsys as [sys Hsys].
  set (new_len := len dl - g - 1) in *.
  pose proof (Z.div_mod new_len d ltac:(lia)) as Hdm.
  pose proof (Z.mod_pos_bound new_len d Hd) as Hmod.
  assert (Hq : g <= new_len / d) by nia.
  unfold node_step. rewrite Heff. cbn [rbind]. rewrite Hchk. fold new_len.
  destruct (Z.ltb_spec new_len (d * g)); [lia |].
  destruct (Z.ltb_spec (d * g) new_len); [| lia].
  pose proof (split_while_chunks (slice_from dl (g + 1)) d new_len Hd
                (Z.to_nat (Z.max g (new_len + 2))) g 1
                (data_devices v ++ [slice (slice_from dl (g + 1)) 0 d])%list
                ltac:(lia) ltac:(lia) ltac:(lia)) as Hsw.
  replace (1 * d) with d in Hsw by lia. rewrite Hsw. clear Hsw.
  cbn [rbind].
  rewrite Hsys. cbn [rbind].
  eexists _, _. split; [reflexivity |]. split; [reflexivity |].
  split; [lia |]. cbn [data_devices metadata_devices]. split; [| reflexivity].
  rewrite <- app_assoc. f_equal.
  replace (Z.to_nat (Z.min (g + 1) (new_len / d)))
    with (S (Z.to_nat (Z.min g (new_len / d - 1)))) by lia.
  cbn [seq map app Z.to_nat].
  assert (Hslice : forall j, (Z.of_nat j) + 1 <= new_len / d ->
            slice (slice_from dl (g + 1)) (Z.of_nat j * d) ((Z.of_nat j + 1) * d)
            = slice dl (g + 1 + Z.of_nat j * d) (g + 1 + (Z.of_nat j + 1) * d)).
  { intros j Hj.
    assert (Hfit : (Z.of_nat j + 1) * d <= new_len).
    { transitivity (new_len / d * d); [apply Z.mul_le_mono_nonneg_r; lia | lia]. }
    assert (Hlen : len dl = new_len + g + 1) by (unfold new_len; lia).
    apply slice_of_slice_from; try lia; nia. }
  f_equal.
  - rewrite <- (Hslice 0%nat) by lia. f_equal; lia.
  - apply map_ext_in. intros j Hj. apply in_seq in Hj. apply Hslice. lia.
Qed.
End UnderUseSlices.

Section LoopEdges.
Import Partition Manifest Lib.
Context (E : env) (cfg : deploy_cfg) (cmd : commands).

Lemma update_sol_yaml_first_raise node rest path img kw w dl w1 e :
  list_devices E cmd node w = (Ok dl, w1) ->
  node_step (cvg_count kw) (skip_disk_count_check kw)
            (sns_spare kw + sns_data kw + sns_parity kw) (len (node :: rest))
            (hostname node) dl (init_vars (kw_data_disk_per_cvg kw)) = Raise e ->
  update_sol_yaml E cfg cmd (node :: rest) path img kw w = (Raise e, w1)
  /\ files w1 = files w.
Proof.
  intros Hld Hstep. split.
  - unfold update_sol_yaml, bind at 1. rewrite sol_loop_cons, Hld, Hstep. reflexivity.
  - eapply list_devices_files, Hld.
Qed.

(** X4. With [cvg_count] 0 and [data_disk_per_cvg] 0 (to be derived), the
    division by the number of volume groups fails at the first worker:
    [update_sol_yaml] raises [ZeroDivisionError] and writes nothing. *)
Theorem zero_groups_division_error (node : LogicalNode) (rest : list LogicalNode)
    (path img : string) (kw : sol_kwargs) (w w1 : world) (dl : list string) :
  list_devices E cmd node w = (Ok dl, w1) ->
  cvg_count kw = 0 -> kw_data_disk_per_cvg kw = 0 ->
  update_sol_yaml E cfg cmd (node :: rest) path img kw w = (Raise ZeroDivisionError, w1)
  /\ files w1 = files w.
Proof.
  intros Hld Hg Hd. apply (update_sol_yaml_first_raise _ _ _ _ _ _ dl); [exact Hld |].
  unfold node_step, effective_d, init_vars. cbn [data_disk_per_cvg].
  rewrite Hg, Hd. reflexivity.
Qed.

(** X5. A first worker that has the system disk and the [g] metadata
    devices but no data device at all, with [data_disk_per_cvg] to be
    derived and the N+K+S check passing (skipped, or a sum of at most 0):
    the derived size is 0 and [update_sol_yaml] raises [ValueError] (a
    [range] with step 0) instead of returning a failure; nothing is
    written. *)
Theorem no_data_device_value_error (node : LogicalNode) (rest : list LogicalNode)
    (path img : string) (kw : sol_kwargs) (w w1 : world) (dl : list string) :
  list_devices E cmd node w = (Ok dl, w1) ->
  0 < cvg_count kw -> len dl = cvg_count kw + 1 -> kw_data_disk_per_cvg kw = 0 ->
  nks_check (skip_disk_count_check kw) (sns_spare kw + sns_data kw + sns_parity kw)
            0 (cvg_count kw) (len (node :: rest)) = false ->
  update_sol_yaml E cfg cmd (node :: rest) path img kw w = (Raise ValueError, w1)
  /\ files w1 = files w.
Proof.
  intros Hld Hg Hn Hd Hchk.
  apply (update_sol_yaml_first_raise _ _ _ _ _ _ dl); [exact Hld |].
  unfold node_step, init_vars. cbn [data_disk_per_cvg]. rewrite Hd.
  rewrite effective_d_derived by lia.
  replace ((len dl - cvg_count kw - 1) / cvg_count kw) with 0
    by (rewrite Hn; replace (cvg_count kw + 1 - cvg_count kw - 1) with 0 by lia;
        symmetry; apply Z.div_0_l; lia).
  cbn [rbind]. rewrite Hchk.
  destruct (Z.ltb_spec (len dl - cvg_count kw - 1) (0 * cvg_count kw)); [lia |].
  destruct (Z.ltb_spec (0 * cvg_count kw) (len dl - cvg_count kw - 1)); [lia |].
  reflexivity.
Qed.

Lemma edit_pass_raise_at path edit w conf e :
  files w !! path = Some conf -> edit conf = Raise e ->
  edit_pass path edit w = (Raise e, w).
Proof.
  intros Hf He. unfold edit_pass, bind, load_yaml, lift. rewrite Hf, He. reflexivity.
Qed.

Lemma range_pos (g : Z) : 0 < g -> exists rest, range g = 0 :: rest.
Proof.
  intros Hg. unfold range. destruct (Z.to_nat g) as [|n] eqn:Hn; [lia |].
  cbn. eauto.
Qed.

(** The volume-group loop on an empty list of metadata devices. *)
Lemma cvg_edit_no_metadata (dd : list (list string)) (g : Z) (ty : string) (d : Z)
    (sn sk ss dn dk ds : Z) (sm sd gs : string) (conf : pyval)
    (gl du st : list (string * pyval)) :
  section conf ["solution"; "common"; "glusterfs"] = Ok (PDict gl) ->
  section conf ["solution"; "common"; "storage_sets"; "durability"] = Ok (PDict du) ->
  section conf ["solution"; "storage"] = Ok (PDict st) ->
  0 < g ->
  cvg_edit [] dd g ty d sn sk ss dn dk ds sm sd gs conf = Raise IndexError.
Proof.
  intros Hgl Hdu Hst Hg.
  apply section_cons in Hgl as (parent & Hp & Hgl).
  apply section_cons in Hgl as (common & Hc & Hgl).
  apply section_cons in Hgl as (glv & Hgv & Hgl). apply section_nil in Hgl. subst glv.
  apply section_cons in Hdu as (parent' & Hp' & Hdu).
  rewrite Hp in Hp'. injection Hp' as <-.
  apply section_cons in Hdu as (common' & Hc' & Hdu).
  rewrite Hc in Hc'. injection Hc' as <-.
  apply section_cons in Hdu as (sets & Hs & Hdu).
  apply section_cons in Hdu as (duv & Hd & Hdu). apply section_nil in Hdu. subst duv.
  apply section_cons in Hst as (parent' & Hp' & Hst).
  rewrite Hp in Hp'. injection Hp' as <-.
  apply section_cons in Hst as (stv & Hsto & Hst). apply section_nil in Hst. subst stv.
  unfold cvg_edit. rewrite Hp. cbn [rbind]. rewrite Hc. cbn [rbind].
  rewrite Hsto. cbn [rbind]. rewrite Hs. cbn [rbind]. rewrite Hgv.
  cbn [rbind setitem as_dict]. rewrite Hd. cbn [rbind setitem].
  unfold pop_all. rewrite dict_pop_all_keys. cbn [rbind].
  destruct (range_pos g Hg) as [rest ->]. reflexivity.
Qed.

(** X6. [update_sol_yaml] is not atomic. With an empty list of workers the
    loop and its checks do not run; on a manifest that the password and
    image editors accept, with at least one volume group asked for, the
    volume-group editor then finds no metadata device and raises
    [IndexError], after the first two editors have written the file. *)
Theorem no_worker_partial_write (path img : string) (kw : sol_kwargs) (w : world)
    (conf c1 c2 : pyval) (gl du st : list (string * pyval)) :
  files w !! path = Some conf ->
  password_edit cfg (decrypt E) conf = Ok c1 ->
  image_edit (third_party_images cfg) (cortx_images_key cfg) img
             (match third_party_images_kw kw with
              | Some d => d
              | None => third_party_images cfg
              end) c1 = Ok c2 ->
  section c2 ["solution"; "common"; "glusterfs"] = Ok (PDict gl) ->
  section c2 ["solution"; "common"; "storage_sets"; "durability"] = Ok (PDict du) ->
  section c2 ["solution"; "storage"] = Ok (PDict st) ->
  0 < cvg_count kw ->
  exists w',
    update_sol_yaml E cfg cmd [] path img kw w = (Raise IndexError, w')
    /\ files w' !! path = Some c2
    /\ trace w' = Dump path :: Dump path :: trace w.
Proof.
  intros Hf Hpw Him Hgl Hdu Hst Hg.
  destruct (edit_pass_ok path _ w _ _ Hf Hpw) as (w1 & Hrun1 & Hf1 & Ht1).
  assert (Hl1 : files w1 !! path = Some c1) by (rewrite Hf1; apply lookup_insert_eq).
  destruct (edit_pass_ok path _ w1 _ _ Hl1 Him) as (w2 & Hrun2 & Hf2 & Ht2).
  assert (Hl2 : files w2 !! path = Some c2) by (rewrite Hf2; apply lookup_insert_eq).
  exists w2. split; [| split; [exact Hl2 | rewrite Ht2, Ht1; reflexivity]].
  unfold update_sol_yaml. cbn [sol_loop]. unfold bind at 1, ret at 1.
  unfold update_password_sol_file. unfold bind at 1. rewrite Hrun1. cbn [fst negb].
  unfold update_image_section_sol_file. unfold bind at 1. rewrite Hrun2. cbn [fst negb].
  unfold update_cvg_sol_file, bind at 1.
  rewrite (edit_pass_raise_at path _ w2 c2 IndexError Hl2); [reflexivity |].
  cbn [init_vars metadata_devices data_devices data_disk_per_cvg].
  eapply cvg_edit_no_metadata; eassumption.
Qed.
End LoopEdges.

(** ** Aborted runs *)

Section AbortedRuns.
Import Partition Lib.
Context (E : env) (cfg : deploy_cfg) (cmd : commands).

Lemma job_result_not_success {A} (res : pyval) (a b : A) :
  res <> PStr "SUCCESS" ->
  match res with
  | PStr "SUCCESS" => a
  | _ => b
  end = b.
Proof.
  intros Hne. destruct res as [| | | s | |]; try reflexivity.
  repeat (match goal with
          | |- match ?x with _ => _ end = _ => destruct x; try reflexivity
          end).
  contradiction.
Qed.

Lemma setup_k8s_cluster_failed master masters worker workers w out u res :
  outside E (trace w) "Provisioner.build_job" = Ok out ->
  getitem out "url" = Ok u -> getitem out "result" = Ok res ->
  res <> PStr "SUCCESS" ->
  setup_k8s_cluster E (master :: masters) (worker :: workers) w
  = (Ok (false, res), snd (call_outside E "Provisioner.build_job" w)).
Proof.
  intros Hout Hu Hres Hne. unfold setup_k8s_cluster, bind at 1, call_outside at 1.
  rewrite Hout. unfold bind at 1, lift at 1. rewrite Hu.
  unfold bind at 1, lift at 1. rewrite Hres.
  rewrite job_result_not_success by exact Hne. reflexivity.
Qed.

(** X7. A cluster-setup job that does not report ["SUCCESS"] ends the run:
    [test_deployment] raises an assertion error carrying the job result,
    and the job is the only thing that was started: no taint, no deployment,
    no client configuration, no IO and no destroy, whatever the flags. *)
Theorem failed_cluster_setup_stops_run (img : string) (kw : sol_kwargs)
    (master worker : LogicalNode) (masters workers : list LogicalNode)
    (flags : phase_kwargs) (w : world) (out u res : pyval) :
  kwargs_get (setup_k8s_cluster_flag flags) (flag_setup_k8s_cluster cfg) = true ->
  outside E (trace w) "Provisioner.build_job" = Ok out ->
  getitem out "url" = Ok u -> getitem out "result" = Ok res ->
  res <> PStr "SUCCESS" ->
  exists w',
    test_deployment E cfg cmd img kw (master :: masters) (worker :: workers) flags w
    = (Raise (AssertionError (py_str res)), w')
    /\ trace w' = Call "Provisioner.build_job" :: trace w
    /\ files w' = files w.
Proof.
  intros Hflag Hout Hu Hres Hne.
  exists (snd (call_outside E "Provisioner.build_job" w)).
  split; [| split; reflexivity].
  unfold test_deployment. cbv zeta. rewrite Hflag.
  unfold bind at 1. unfold bind at 1.
  rewrite (setup_k8s_cluster_failed _ _ _ _ _ out u res) by assumption.
  reflexivity.
Qed.

End AbortedRuns.

(** ** Prerequisite check, continued *)

Section PrereqEdges.
Import Lib.
Context (E : env) (cfg : deploy_cfg) (cmd : commands).

(** X9. The checks of [prereq_vm] run in order and stop at the first that
    fails: with too few CPUs, the ping and the CPU query are the only
    commands sent to the node. *)
Theorem prereq_stops_at_cpu (node : LogicalNode) (w : world) (lp r1 : list string)
    (cpu_line : string) (c : Z) :
  let host := hostname node in
  host_lines E (trace w) host (CMD_PING cmd host) = Ok lp ->
  host_lines E (Exec host (CMD_PING cmd host) :: trace w) host (CMD_NUM_CPU cmd)
    = Ok (cpu_line :: r1) ->
  int_of_str (strip cpu_line) = Ok c ->
  c < cpu_cores (prereq cfg) ->
  exists w',
    prereq_vm E cfg cmd node w = (Ok (false, "No of CPU are not as expected."), w')
    /\ trace w' = Exec host (CMD_NUM_CPU cmd) :: Exec host (CMD_PING cmd host) :: trace w.
Proof.
  intros host Hping Hcpu Hc Hlt.
  unfold prereq_vm. unfold bind at 1. unfold execute_cmd_lines at 1.
  fold host. rewrite Hping.
  unfold bind at 1. erewrite first_line_ok by exact Hcpu.
  unfold bind at 1, lift at 1. rewrite Hc.
  destruct (Z.ltb_spec c (cpu_cores (prereq cfg))); [| lia].
  eexists. split; reflexivity.
Qed.

(** X10. [prereq_vm] reports a mismatch as [(False, message)] but lets
    every other trouble through as an exception: a ping that fails raises
    the executor's error before any check; a CPU query without output
    raises [IndexError]; a CPU count that is no integer raises
    [ValueError]. *)
Theorem prereq_raises (node : LogicalNode) (w : world) :
  let host := hostname node in
  (forall e, host_lines E (trace w) host (CMD_PING cmd host) = Raise e ->
     exists w', prereq_vm E cfg cmd node w = (Raise e, w')
                /\ trace w' = Exec host (CMD_PING cmd host) :: trace w) /\
  (forall lp, host_lines E (trace w) host (CMD_PING cmd host) = Ok lp ->
     host_lines E (Exec host (CMD_PING cmd host) :: trace w) host (CMD_NUM_CPU cmd) = Ok [] ->
     exists w', prereq_vm E cfg cmd node w = (Raise IndexError, w')) /\
  (forall lp cpu_line r1,
     host_lines E (trace w) host (CMD_PING cmd host) = Ok lp ->
     host_lines E (Exec host (CMD_PING cmd host) :: trace w) host (CMD_NUM_CPU cmd)
       = Ok (cpu_line :: r1) ->
     int_of_str (strip cpu_line) = Raise ValueError ->
     exists w', prereq_vm E cfg cmd node w = (Raise ValueError, w')).
Proof.
  intros host. split; [| split].
  - intros e Hping. unfold prereq_vm. unfold bind at 1. unfold execute_cmd_lines at 1.
    fold host. rewrite Hping. eexists. split; reflexivity.
  - intros lp Hping Hcpu. unfold prereq_vm. unfold bind at 1.
    unfold execute_cmd_lines at 1. fold host. rewrite Hping.
    unfold bind at 1, first_line at 1. unfold bind at 1, execute_cmd_lines at 1.
    cbn [trace]. fold host. rewrite Hcpu. unfold lift. cbn. eexists. reflexivity.
  - intros lp cpu_line r1 Hping Hcpu Hbad. unfold prereq_vm. unfold bind at 1.
    unfold execute_cmd_lines at 1. fold host. rewrite Hping.
    unfold bind at 1. erewrite first_line_ok by exact Hcpu.
    unfold bind at 1, lift at 1. rewrite Hbad. eexists. reflexivity.
Qed.
End PrereqEdges.

(** ** Cluster deployment and teardown, continued *)

Section DeployEdges.
Import Lib.
Context (E : env) (cfg : deploy_cfg) (cmd : commands).

Lemma bind_assoc {A B C} (m : M A) (k : A -> M B) (h : B -> M C) w :
  bind (bind m k) h w = bind m (fun a => bind (k a) h) w.
Proof. unfold bind. destruct (m w) as [[a | e] w1]; reflexivity. Qed.

Lemma bind_ext {A B} (m : M A) (k k' : A -> M B) w :
  (forall a w1, k a w1 = k' a w1) -> bind m k w = bind m k' w.
Proof. intros H. unfold bind. destruct (m w) as [[a | e] w1]; [apply H | reflexivity]. Qed.

Lemma prepare_workers_bind pre post disks w :
  prepare_workers E cfg cmd (pre ++ post) disks w
  = bind (prepare_workers E cfg cmd pre disks)
         (fun _ => prepare_workers E cfg cmd post disks) w.
Proof.
  revert w. induction pre as [|node pre IH]; intros w; [reflexivity |].
  cbn [app prepare_workers]. rewrite bind_assoc. apply bind_ext. intros resp w1.
  rewrite bind_assoc. apply bind_ext. intros _ w2.
  destruct (dict_get (hostname node) disks); [| reflexivity].
  do 4 (rewrite bind_assoc; apply bind_ext; intros _ ?).
  apply IH.
Qed.

Lemma prepare_workers_app pre post disks w :
  prepare_workers E cfg cmd (pre ++ post) disks w =
  match prepare_workers E cfg cmd pre disks w with
  | (Ok _, w') => prepare_workers E cfg cmd post disks w'
  | (Raise e, w') => (Raise e, w')
  end.
Proof. rewrite prepare_workers_bind. reflexivity. Qed.

(** X11. A worker that fails its prerequisite check is a hard stop of
    [deploy_cortx_cluster]: it raises an assertion error with the message
    of the check, right after the check, so that nothing is logged in,
    cloned, copied or run on that worker or on any later one. *)
Theorem failed_prereq_stops_deployment (master : LogicalNode)
    (masters pre post : list LogicalNode) (bad : LogicalNode)
    (disks : list (string * string)) (w wa wb : world) (msg : string) :
  prepare_workers E cfg cmd pre disks w = (Ok tt, wa) ->
  prereq_vm E cfg cmd bad wa = (Ok (false, msg), wb) ->
  deploy_cortx_cluster E cfg cmd (master :: masters) (pre ++ bad :: post) disks w
  = (Raise (AssertionError msg), wb).
Proof.
  intros Hpre Hbad. unfold deploy_cortx_cluster.
  destruct (pre ++ bad :: post)%list as [|x l] eqn:Hl; [by destruct pre |].
  rewrite <- Hl. unfold bind at 1. rewrite prepare_workers_app, Hpre.
  cbn [prepare_workers]. unfold bind at 1. rewrite Hbad. reflexivity.
Qed.

(** X12. What a deployment that ran answers. [deploy_cluster] answers
    [True] whatever the deploy script printed, so with at least one master
    and one worker the answer of [deploy_cortx_cluster], whenever it
    returns, is the one of [validate_cluster_status]: the lines that the
    status script printed on the first master, with [False] exactly when
    one of these lines is, as a whole, the word FAILED. The status script
    is the last command that ran. *)
Theorem deployment_answer_is_status_check (master worker : LogicalNode)
    (masters workers : list LogicalNode) (disks : list (string * string))
    (w w' : world) (r : option (bool * pyval)) :
  deploy_cortx_cluster E cfg cmd (master :: masters) (worker :: workers) disks w
  = (Ok r, w') ->
  exists lines w1,
    host_lines E (trace w1) (hostname master)
               ("cd " ++ git_remote_dir cfg ++ "; " ++ CLSTR_STATUS_CMD cmd
                  ++ " | tee cluster_status.log") = Ok lines
    /\ r = Some (negb (str_in "FAILED" lines), PList (map PStr lines))
    /\ trace w'
       = Exec (hostname master)
              ("cd " ++ git_remote_dir cfg ++ "; " ++ CLSTR_STATUS_CMD cmd
                 ++ " | tee cluster_status.log") :: trace w1.
Proof.
  unfold deploy_cortx_cluster.
  repeat (unfold bind at 1;
          match goal with
          | |- match ?m with _ => _ end = _ -> _ =>
              let r := fresh "r" in let w := fresh "w" in
              destruct m as [[r | ?] w] eqn:?; [| discriminate]
          end).
  match goal with H : deploy_cluster _ _ _ _ _ = (Ok ?x, _) |- _ =>
    unfold deploy_cluster, bind in H;
    destruct (execute_cmd_lines _ _ _ _) as [[? | ?] ?]; [| discriminate H];
    injection H as <- _
  end.
  cbn [fst]. unfold bind at 1.
  match goal with |- context [validate_cluster_status _ _ _ _ ?w0] =>
    unfold validate_cluster_status, bind, execute_cmd_lines; cbn [trace];
    destruct (host_lines E (trace w0) (hostname master) _) as [lines | e] eqn:Hlines;
    [| discriminate];
    exists lines, w0
  end.
  split; [exact Hlines |].
  match goal with H : _ = (Ok r, w') |- _ =>
    destruct (str_in "FAILED" lines); cbn [negb]; unfold ret in H;
    injection H as <- <-; split; reflexivity
  end.
Qed.

Lemma destroy_workers_ok_trace workers resp w r w' :
  destroy_workers E cfg workers resp w = (Ok r, w') ->
  trace w' = (rev (flat_map (fun wk => [Exec (hostname wk) (destroy_cmd2 cfg);
                                        Exec (hostname wk) destroy_cmd3]) workers)
              ++ trace w)%list.
Proof.
  revert resp w. induction workers as [|wk rest IH]; intros resp w.
  - cbn. intros [= _ <-]. reflexivity.
  - rewrite destroy_workers_cons.
    destruct (host_lines E (trace w) _ _); [| discriminate]. cbn zeta.
    destruct (host_lines E _ _ destroy_cmd3); [| discriminate].
    intros H. apply IH in H. rewrite H. cbn [flat_map].
    rewrite rev_app_distr. cbn [rev app execute_cmd_lines snd trace].
    rewrite <- app_assoc. reflexivity.
Qed.

(** X13. [destroy_setup] never raises: every exception of a command is
    caught and returned as [(False, error)]. When it returns [True], the
    commands that ran are, in order, the teardown on the master and then,
    worker by worker, the unmount and the removal of the residual
    directories. *)
Theorem destroy_setup_never_raises (master : LogicalNode) (workers : list LogicalNode)
    (w : world) :
  exists b payload w',
    destroy_setup E cfg master workers w = (Ok (b, payload), w')
    /\ (b = true ->
        trace w'
        = (rev (Exec (hostname master) (destroy_cmd1 cfg)
                  :: flat_map (fun wk => [Exec (hostname wk) (destroy_cmd2 cfg);
                                          Exec (hostname wk) destroy_cmd3]) workers)
             ++ trace w)%list)
    /\ (b = false -> exists e, payload = inr e).
Proof.
  unfold destroy_setup, try_except, bind at 1.
  destruct (execute_cmd E (hostname master) (destroy_cmd1 cfg) w) as [[out | e0] w1] eqn:Hm.
  - assert (Ht1 : trace w1 = Exec (hostname master) (destroy_cmd1 cfg) :: trace w).
    { unfold execute_cmd in Hm. injection Hm as _ <-. reflexivity. }
    unfold bind at 1.
    destruct (destroy_workers E cfg workers (Out_bytes out) w1) as [[resp | e1] w2] eqn:Hw.
    + eexists _, _, _. split; [reflexivity |]. split; [| discriminate].
      intros _. apply destroy_workers_ok_trace in Hw. rewrite Hw, Ht1.
      cbn [rev]. rewrite <- app_assoc. reflexivity.
    + eexists _, _, _. split; [reflexivity |]. split; [discriminate | eauto].
  - eexists _, _, _. split; [reflexivity |]. split; [discriminate | eauto].
Qed.
End DeployEdges.

(** ** Status and pod queries *)

Section StatusEdges.
Import Lib.
Context (E : env) (cmd : commands).

Lemma find_split {A} (p : A -> bool) (l : list A) (x : A) :
  find p l = Some x ->
  exists pre post, l = (pre ++ x :: post)%list
                   /\ Forall (fun y => p y = false) pre /\ p x = true.
Proof.
  induction l as [|y l IH]; cbn; [discriminate |].
  destruct (p y) eqn:Hy.
  - intros [= ->]. exists [], l. split; [reflexivity |]. split; [constructor | exact Hy].
  - intros H. destruct (IH H) as (pre & post & -> & Hpre & Hx).
    exists (y :: pre), post. split; [reflexivity |]. split; [by constructor | exact Hx].
Qed.

Lemma not_started_false (s : pyval) : not_started s = false <-> s = PStr "started".
Proof.
  destruct s; cbn; try (split; discriminate).
  destruct (String.eqb_spec s "started"); cbn; split; try congruence; discriminate.
Qed.

(** X14. The verdict of [get_hctl_status] on a status document that lists
    its services under [nodes[].svcs[]]: it is [True] exactly when every
    listed status is the string ["started"] (so also when no service is
    listed at all); otherwise it is [False] and the message names the
    first service, in document order, whose status is anything else. A
    [null] document is "not retrieved". *)
Theorem hctl_verdict_first_offender (doc : pyval) (svcs : list (pyval * pyval)) :
  doc_services doc = Ok svcs ->
  exists b msg,
    hctl_verdict doc = Ok (b, msg)
    /\ (b = true <-> Forall (fun ns => snd ns = PStr "started") svcs)
    /\ (b = true -> msg = "Cluster is up and running.")
    /\ (b = false ->
        exists pre ns post,
          svcs = (pre ++ ns :: post)%list
          /\ Forall (fun ns => snd ns = PStr "started") pre
          /\ snd ns <> PStr "started"
          /\ msg = "Service " ++ py_str (fst ns) ++ " not started.")
    /\ hctl_verdict PNone = Ok (false, "Cluster status is not retrieved.").
Proof.
  intros Hsv. rewrite (hctl_verdict_spec doc svcs Hsv).
  destruct (find (fun ns => not_started (snd ns)) svcs) as [ns |] eqn:Hfind.
  - apply find_split in Hfind as (pre & post & -> & Hpre & Hns).
    assert (Hbad : snd ns <> PStr "started").
    { intros Heq. apply not_started_false in Heq. congruence. }
    exists false, (msg_not_started (fst ns)). split; [reflexivity |].
    split; [| split; [discriminate | split; [| reflexivity]]].
    + split; [discriminate |]. intros Hall.
      apply Forall_app in Hall as [_ Hall]. apply Forall_cons in Hall as [Hok _].
      contradiction.
    + intros _. exists pre, ns, post. split; [reflexivity |].
      split; [| split; [exact Hbad | reflexivity]].
      eapply Forall_impl; [exact Hpre |]. intros y Hy. by apply not_started_false.
  - exists true, msg_running. split; [reflexivity |].
    split; [| split; [reflexivity | split; [discriminate | reflexivity]]].
    split; [| reflexivity]. intros _.
    apply Forall_forall. intros ns Hin. apply not_started_false.
    apply list_elem_of_In in Hin.
    exact (find_none _ _ Hfind ns Hin).
Qed.

Lemma filter_first_match (p : string -> bool) (pre post : list string) (l : string) :
  Forall (fun x => p x = false) pre -> p l = true ->
  filter (fun x => Is_true (p x)) (pre ++ l :: post)%list
  = l :: filter (fun x => Is_true (p x)) post.
Proof.
  intros Hpre Hl. induction Hpre as [|x pre Hx _ IH]; cbn [app].
  - rewrite filter_cons_True by (rewrite Hl; exact I). reflexivity.
  - rewrite filter_cons_False by (rewrite Hx; exact id). exact IH.
Qed.

Lemma filter_no_match (p : string -> bool) (l : list string) :
  Forall (fun x => p x = false) l -> filter (fun x => Is_true (p x)) l = [].
Proof.
  induction 1 as [|x l Hx _ IH]; [reflexivity |].
  rewrite filter_cons_False by (rewrite Hx; exact id). exact IH.
Qed.

(** X15. [get_pod_name] answers with the first line of the pod listing
    that contains the prefix, stripped of surrounding whitespace, whatever
    comes after it; when no line contains the prefix it answers [False]
    with a message, without raising. *)
Theorem get_pod_name_first_match (node : LogicalNode) (prefix : string) (w : world)
    (output : list string) :
  host_lines E (trace w) (hostname node)
             (CMD_POD_STATUS cmd ++ " -o=custom-columns=NAME:.metadata.name") = Ok output ->
  (forall pre l post,
     output = (pre ++ l :: post)%list ->
     Forall (fun x => str_contains prefix x = false) pre ->
     str_contains prefix l = true ->
     fst (get_pod_name E cmd node prefix w) = Ok (true, strip l)) /\
  (Forall (fun x => str_contains prefix x = false) output ->
   exists msg, fst (get_pod_name E cmd node prefix w) = Ok (false, msg)).
Proof.
  intros Hout. split.
  - intros pre l post -> Hpre Hl. unfold get_pod_name, bind, execute_cmd_lines.
    rewrite Hout. rewrite (filter_first_match _ pre post l Hpre Hl). reflexivity.
  - intros Hnone. unfold get_pod_name, bind, execute_cmd_lines.
    rewrite Hout. rewrite (filter_no_match _ output Hnone). eexists. reflexivity.
Qed.
End StatusEdges.

(** ** Reading the device list *)

Section DeviceLine.
Import Lib.
Context (E : env) (cmd : commands).

(** No character of [s] is [c]. *)
Lemma free_of_cons (c a : ascii) (s : string) :
  Forall (fun x => x <> c) (list_ascii_of_string (String a s)) ->
  a <> c /\ Forall (fun x => x <> c) (list_ascii_of_string s).
Proof. cbn. intros H. by apply Forall_cons in H. Qed.

Lemma append_nil_l (t : string) : EmptyString ++ t = t.
Proof. reflexivity. Qed.

Lemma append_cons_l (a : ascii) (s t : string) : String a s ++ t = String a (s ++ t).
Proof. reflexivity. Qed.

Lemma split_comma_nonempty (s : string) : split_comma s <> [].
Proof.
  destruct s as [|c s]; cbn; [discriminate |].
  destruct (Ascii.eqb c ","); [discriminate |]. destruct (split_comma s); discriminate.
Qed.

(** A comma-free prefix stays in front of the first field. *)
Lemma split_comma_prefix (s t : string) :
  Forall (fun x => x <> ","%char) (list_ascii_of_string s) ->
  split_comma (s ++ t)
  = match split_comma t with
    | h :: r => (s ++ h) :: r
    | [] => [s]
    end.
Proof.
  induction s as [|a s IH]; intros Hs.
  - rewrite append_nil_l.
    destruct (split_comma t) eqn:Ht; [by apply split_comma_nonempty in Ht | reflexivity].
  - apply free_of_cons in Hs as [Ha Hs]. rewrite append_cons_l. cbn [split_comma].
    destruct (Ascii.eqb_spec a ","); [contradiction |].
    rewrite (IH Hs).
    destruct (split_comma t) eqn:Ht; [by apply split_comma_nonempty in Ht |].
    by rewrite append_cons_l.
Qed.

Lemma append_empty_r (s : string) : s ++ EmptyString = s.
Proof. induction s as [|a s IH]; [reflexivity | by rewrite append_cons_l, IH]. Qed.

Lemma append_assoc_str (s t u : string) : (s ++ t) ++ u = s ++ (t ++ u).
Proof. induction s as [|a s IH]; [reflexivity | by rewrite !append_cons_l, IH]. Qed.

(** Splitting the fields joined by commas, with a comma-free tail after
    the last field: the fields come back, the tail stays on the last. *)
Lemma split_comma_join (l : list string) (x tail : string) :
  Forall (fun s => Forall (fun c => c <> ","%char) (list_ascii_of_string s)) (x :: l) ->
  Forall (fun c => c <> ","%char) (list_ascii_of_string tail) ->
  exists init last,
    (x :: l = init ++ [last])%list
    /\ split_comma (String.concat "," (x :: l) ++ tail) = (init ++ [(last ++ tail)%string])%list.
Proof.
  revert x. induction l as [|y l IH]; intros x Hall Htail.
  - exists [], x. split; [reflexivity |]. cbn [String.concat].
    apply Forall_cons in Hall as [Hx _].
    rewrite (split_comma_prefix x tail Hx).
    destruct (split_comma tail) as [|h r] eqn:Ht; [by apply split_comma_nonempty in Ht |].
    assert (Hsplit : split_comma tail = [tail]).
    { rewrite <- (append_empty_r tail) at 1.
      rewrite (split_comma_prefix tail EmptyString Htail).
      cbn [split_comma]. by rewrite append_empty_r. }
    rewrite Hsplit in Ht. injection Ht as <- <-. reflexivity.
  - apply Forall_cons in Hall as [Hx Hall].
    destruct (IH y Hall Htail) as (init & last & Hdec & Hsplit).
    exists (x :: init), last. split; [cbn; by rewrite Hdec |].
    change (String.concat "," (x :: y :: l))
      with (x ++ "," ++ String.concat "," (y :: l)).
    rewrite !append_assoc_str. rewrite (split_comma_prefix x _ Hx).
    change (("," ++ String.concat "," (y :: l) ++ tail))
      with (String ","%char (String.concat "," (y :: l) ++ tail)).
    cbn [split_comma]. rewrite Ascii.eqb_refl, Hsplit.
    rewrite append_empty_r. reflexivity.
Qed.

Lemma drop_newlines_tail (s : string) :
  Forall (fun c => c <> "010"%char) (list_ascii_of_string s) ->
  drop_newlines (s ++ String "010" EmptyString) = s.
Proof.
  induction s as [|a s IH]; intros Hs; [reflexivity |].
  apply free_of_cons in Hs as [Ha Hs]. rewrite append_cons_l. cbn [drop_newlines].
  destruct (Ascii.eqb_spec a "010"); [contradiction |]. by rewrite IH.
Qed.

Lemma map_last_snoc {A} (f : A -> A) (init : list A) (z : A) :
  map_last f (init ++ [z])%list = Ok (init ++ [f z])%list.
Proof.
  induction init as [|a init IH]; [reflexivity |].
  cbn [app]. destruct (init ++ [z])%list as [|b l] eqn:Hl; [by destruct init |].
  change (map_last f (a :: b :: l)) with (rbind (map_last f (b :: l)) (fun r => Ok (a :: r))).
  rewrite IH. reflexivity.
Qed.

(** X16. Reading a device list back: when the first line that a node
    prints is its devices joined by commas and ended by a newline, and no
    device name has a comma or a newline in it, the list that
    [update_sol_yaml] works on is exactly these devices, in order. *)
Theorem device_line_round_trip (node : LogicalNode) (w : world) (x : string)
    (l more : list string) :
  host_lines E (trace w) (hostname node) (CMD_LIST_DEVICES cmd)
    = Ok ((String.concat "," (x :: l) ++ String "010" EmptyString) :: more) ->
  Forall (fun s => Forall (fun c => c <> ","%char /\ c <> "010"%char)
                          (list_ascii_of_string s)) (x :: l) ->
  fst (list_devices E cmd node w) = Ok (x :: l).
Proof.
  intros Hout Hclean.
  assert (Hcomma : Forall (fun s => Forall (fun c => c <> ","%char)
                                           (list_ascii_of_string s)) (x :: l)).
  { eapply Forall_impl; [exact Hclean |]. intros s Hs.
    eapply Forall_impl; [exact Hs |]. intros c [Hc _]. exact Hc. }
  destruct (split_comma_join l x (String "010" EmptyString) Hcomma) as
    (init & last & Hdec & Hsplit).
  { repeat constructor. discriminate. }
  unfold list_devices, bind, execute_cmd_lines, lift. rewrite Hout.
  assert (Hidx : forall (a : string), index (a :: more) 0 = Ok a) by reflexivity.
  rewrite Hidx. cbn iota beta. rewrite Hsplit, map_last_snoc, Hdec. do 2 f_equal.
  rewrite drop_newlines_tail; [reflexivity |].
  assert (Hin : last ∈ x :: l) by (rewrite Hdec; apply elem_of_app; right; by left).
  rewrite Forall_forall in Hclean. specialize (Hclean last Hin).
  eapply Forall_impl; [exact Hclean |]. intros c [_ Hc]. exact Hc.
Qed.
End DeviceLine.

(** ** The nodes section *)

Section NodesSection.
Import Manifest Lib.

Lemma dict_set_fresh {V} (k : string) (v : V) (d : list (string * V)) :
  k ∉ dict_keys d -> dict_set k v d = (d ++ [(k, v)])%list.
Proof.
  induction d as [|[k' v'] d IH]; cbn; intros Hk; [reflexivity |].
  apply not_elem_of_cons in Hk as [Hne Hk].
  destruct (String.eqb_spec k k'); [contradiction |]. by rewrite IH.
Qed.

Lemma str_of_int_inj (a b : Z) : str_of_int a = str_of_int b -> a = b.
Proof.
  intros H. apply (f_equal int_of_decimal) in H.
  rewrite !int_of_decimal_str_of_int in H. congruence.
Qed.

Lemma node_key_inj (a b : Z) :
  "node" ++ str_of_int (a + 1) = "node" ++ str_of_int (b + 1) -> a = b.
Proof.
  intros H. apply (inj (String.append "node")) in H. apply str_of_int_inj in H. lia.
Qed.

(** The update loop of [update_nodes_sol_file], from index [s] on: every
    worker appends one entry, numbered from [s + 1]. *)
Lemma nodes_loop (ws : list LogicalNode) (s : nat) (acc : list (string * pyval)) :
  (forall j, (s <= j)%nat -> ("node" ++ str_of_int (Z.of_nat j + 1)) ∉ dict_keys acc) ->
  fold_left (fun acc ih =>
               dict_update acc [("node" ++ str_of_int (fst ih + 1),
                                 PDict (dict_update [] [("name", PStr (hostname (snd ih)))]))])
            (zip (map Z.of_nat (seq s (length ws))) ws) acc
  = app acc (imap (fun i w => ("node" ++ str_of_int (Z.of_nat (s + i) + 1),
                               PDict [("name", PStr (hostname w))])) ws).
Proof.
  revert s acc. induction ws as [|w ws IH]; intros s acc Hfresh.
  - cbn. by rewrite app_nil_r.
  - cbn [length seq map zip zip_with fold_left fst snd].
    change (dict_update acc [?kv]) with (dict_set (fst kv) (snd kv) acc).
    cbn [fst snd]. rewrite dict_set_fresh by (apply Hfresh; lia).
    rewrite (IH (S s)).
    + rewrite <- app_assoc. f_equal. cbn [app imap]. f_equal.
      * by rewrite Nat.add_0_r.
      * apply imap_ext. intros i x _. cbn. do 3 f_equal. lia.
    + intros j Hj. unfold dict_keys. rewrite map_app. cbn [map fst].
      rewrite not_elem_of_app. split; [apply Hfresh; lia |].
      rewrite list_elem_of_singleton. intros Heq. apply node_key_inj in Heq. lia.
Qed.

(** X17. The nodes section that [update_nodes_sol_file] writes: whatever
    entries the section had are gone, and it holds one entry for each
    worker, in the order of the workers, numbered [node1], [node2], ...,
    each with the host name of its worker; the call returns [True] and the
    path. *)
Theorem nodes_section_rewritten (path : string) (workers : list LogicalNode)
    (w : world) (conf : pyval) (old : list (string * pyval)) :
  files w !! path = Some conf ->
  section conf ["solution"; "nodes"] = Ok (PDict old) ->
  exists w' conf' nodes,
    update_nodes_sol_file path workers w = (Ok (true, path), w')
    /\ files w' !! path = Some conf'
    /\ section conf' ["solution"; "nodes"] = Ok (PDict nodes)
    /\ length nodes = length workers
    /\ forall i x, workers !! i = Some x ->
         nodes !! i = Some ("node" ++ str_of_int (Z.of_nat i + 1),
                            PDict [("name", PStr (hostname x))]).
Proof.
  intros Hfile Hsec.
  apply section_cons in Hsec as (sol & Hsol & Hsec).
  apply section_cons in Hsec as (nd & Hnd & Hsec).
  apply section_nil in Hsec. subst nd.
  destruct (getitem_is_dict _ _ _ Hsol) as (cd & ->).
  destruct (getitem_is_dict _ _ _ Hnd) as (sd & ->).
  set (nodes := imap (fun i x => ("node" ++ str_of_int (Z.of_nat (0 + i) + 1),
                                  PDict [("name", PStr (hostname x))])) workers).
  assert (Hedit : nodes_edit workers (PDict cd)
                  = Ok (PDict (dict_set "solution"
                                 (PDict (dict_set "nodes" (PDict nodes) sd)) cd))).
  { unfold nodes_edit. rewrite Hsol. cbn [rbind]. rewrite Hnd. cbn [rbind as_dict].
    unfold pop_all. rewrite dict_pop_all_keys. cbn [rbind].
    unfold range, len. rewrite Nat2Z.id.
    rewrite (nodes_loop workers 0 []) by (intros; apply not_elem_of_nil).
    reflexivity. }
  destruct (edit_pass_ok path _ w _ _ Hfile Hedit) as (w' & Hrun & Hfiles & _).
  exists w', (PDict (dict_set "solution" (PDict (dict_set "nodes" (PDict nodes) sd)) cd)), nodes.
  split; [exact Hrun |]. split; [rewrite Hfiles; apply lookup_insert_eq |].
  split.
  { unfold section. cbn [foldM getitem]. rewrite dict_get_set_eq. cbn [rbind getitem].
    rewrite dict_get_set_eq. reflexivity. }
  split; [apply length_imap |].
  intros i x Hx. unfold nodes. rewrite list_lookup_imap, Hx. reflexivity.
Qed.
End NodesSection.

(** ** The storage section *)

Section StorageSection.
Import Manifest Lib.

Lemma index_inv {A} (l : list A) (i : Z) (x : A) :
  0 <= i -> index l i = Ok x -> l !! Z.to_nat i = Some x.
Proof.
  intros Hi. unfold index. destruct (Z.ltb_spec i 0); [lia |].
  destruct (Z.ltb_spec i 0); [lia |].
  destruct (l !! Z.to_nat i); [congruence | discriminate].
Qed.

Lemma numbered_key_inj (p : string) (a b : Z) :
  p ++ str_of_int (a + 1) = p ++ str_of_int (b + 1) -> a = b.
Proof.
  intros H. apply (inj (String.append p)) in H.
  apply (f_equal int_of_decimal) in H.
  rewrite !int_of_decimal_str_of_int in H. injection H. lia.
Qed.

Lemma dict_update_fresh {V} (k : string) (v : V) (d : list (string * V)) :
  k ∉ dict_keys d -> dict_update d [(k, v)] = app d [(k, v)].
Proof.
  induction d as [|[k' v'] d IH]; cbn; intros Hk; [reflexivity |].
  apply not_elem_of_cons in Hk as [Hne Hk].
  destruct (String.eqb_spec k k'); [contradiction |].
  f_equal. exact (IH Hk).
Qed.

Lemma fresh_after (p : string) (s : nat) (acc : list (string * pyval)) (v : pyval) :
  (forall j, (s <= j)%nat -> (p ++ str_of_int (Z.of_nat j + 1)) ∉ dict_keys acc) ->
  forall j, (S s <= j)%nat ->
    (p ++ str_of_int (Z.of_nat j + 1))
      ∉ dict_keys (app acc [(p ++ str_of_int (Z.of_nat s + 1), v)]).
Proof.
  intros Hfresh j Hj. unfold dict_keys. rewrite map_app. cbn [map fst].
  rewrite not_elem_of_app. split; [apply Hfresh; lia |].
  rewrite list_elem_of_singleton. intros Heq. apply numbered_key_inj in Heq. lia.
Qed.

(** The loop over the data disks of one volume group, from disk [s] on. *)
Lemma data_loop (dd : list (list string)) (cvg : Z) (sz : string) (n s : nat)
    (acc data : list (string * pyval)) :
  0 <= cvg ->
  (forall j, (s <= j)%nat -> ("d" ++ str_of_int (Z.of_nat j + 1)) ∉ dict_keys acc) ->
  foldM (fun data_schema disk =>
           (row <- index dd cvg ;;
            dev <- index row disk ;;
            Ok (dict_update data_schema
                  [("d" ++ str_of_int (disk + 1),
                    PDict [("device", PStr dev); ("size", PStr sz)])]))%res)
        (map Z.of_nat (seq s n)) acc = Ok data ->
  exists l,
    data = app acc l /\ length l = n
    /\ forall k, (k < n)%nat ->
         exists row dev,
           dd !! Z.to_nat cvg = Some row /\ row !! (s + k)%nat = Some dev
           /\ l !! k = Some ("d" ++ str_of_int (Z.of_nat (s + k) + 1),
                             PDict [("device", PStr dev); ("size", PStr sz)]).
Proof.
  intros Hcvg. revert s acc. induction n as [|n IH]; intros s acc Hfresh Hrun.
  - cbn in Hrun. injection Hrun as <-. exists []. rewrite app_nil_r.
    repeat split. intros k Hk. lia.
  - cbn [seq map foldM] in Hrun.
    destruct (index dd cvg) as [row |] eqn:Hrow; [cbn [rbind] in Hrun | discriminate].
    destruct (index row (Z.of_nat s)) as [dev |] eqn:Hdev;
      [cbn [rbind] in Hrun | discriminate].
    rewrite dict_update_fresh in Hrun by (apply Hfresh; lia).
    apply IH in Hrun as (l & -> & Hlen & Hl); [| by apply fresh_after].
    apply index_inv in Hrow; [| lia]. apply index_inv in Hdev; [| lia].
    rewrite Nat2Z.id in Hdev.
    eexists (_ :: l). split; [by rewrite <- app_assoc |]. split; [cbn; by rewrite Hlen |].
    intros [|k] Hk.
    + exists row, dev. rewrite Nat.add_0_r. auto.
    + destruct (Hl k) as (row' & dev' & Hrow' & Hdev' & Hlk); [lia |].
      exists row', dev'. replace (s + S k)%nat with (S s + k)%nat by lia. auto.
Qed.

(** The loop over the volume groups, from group [s] on. *)
Lemma cvg_loop (md : list string) (dd : list (list string)) (ty : string) (d : Z)
    (sm sd : string) (n s : nat) (acc storage : list (string * pyval)) :
  (forall j, (s <= j)%nat -> ("cvg" ++ str_of_int (Z.of_nat j + 1)) ∉ dict_keys acc) ->
  foldM (add_cvg md dd ty d sm sd) (map Z.of_nat (seq s n)) acc = Ok storage ->
  exists l,
    storage = app acc l /\ length l = n
    /\ forall c, (c < n)%nat ->
         exists m data,
           md !! (s + c)%nat = Some m
           /\ l !! c = Some
                ("cvg" ++ str_of_int (Z.of_nat (s + c) + 1),
                 PDict [("name", PStr ("cvg-0" ++ str_of_int (Z.of_nat (s + c) + 1)));
                        ("type", PStr ty);
                        ("devices",
                         PDict [("metadata", PDict [("device", PStr m); ("size", PStr sm)]);
                                ("data", PDict data)])])
           /\ length data = Z.to_nat d
           /\ forall k, (k < Z.to_nat d)%nat ->
                exists row dev,
                  dd !! (s + c)%nat = Some row /\ row !! k = Some dev
                  /\ data !! k = Some ("d" ++ str_of_int (Z.of_nat k + 1),
                                       PDict [("device", PStr dev); ("size", PStr sd)]).
Proof.
  revert s acc. induction n as [|n IH]; intros s acc Hfresh Hrun.
  - cbn in Hrun. injection Hrun as <-. exists []. rewrite app_nil_r.
    repeat split. intros k Hk. lia.
  - cbn [seq map foldM] in Hrun. unfold add_cvg at 1 in Hrun.
    destruct (index md (Z.of_nat s)) as [m |] eqn:Hm; [cbn [rbind] in Hrun | discriminate].
    destruct (data_schema_of dd (Z.of_nat s) d sd) as [data |] eqn:Hdata;
      [cbn [rbind] in Hrun | discriminate].
    rewrite dict_update_fresh in Hrun by (apply Hfresh; lia).
    apply IH in Hrun as (l & -> & Hlen & Hl); [| by apply fresh_after].
    apply index_inv in Hm; [| lia]. rewrite Nat2Z.id in Hm.
    apply data_loop in Hdata as (dl & -> & Hdl & Hdisks);
      [| lia | intros; apply not_elem_of_nil].
    rewrite Nat2Z.id in Hdisks.
    eexists (_ :: l). split; [by rewrite <- app_assoc |]. split; [cbn; by rewrite Hlen |].
    intros [|c] Hc.
    + exists m, dl. rewrite Nat.add_0_r. cbn [app]. repeat split; assumption.
    + destruct (Hl c) as (m' & data' & Hm' & Hlc & Hrest); [lia |].
      exists m', data'. replace (s + S c)%nat with (S s + c)%nat by lia. auto.
Qed.

(** X18. The storage section that [update_cvg_sol_file] writes. When the
    edit goes through, the section holds exactly [cvg_count] entries,
    [cvg1], [cvg2], ... in this order; entry [c + 1] is named
    [cvg-0<c+1>], has the given type, the metadata device
    [metadata_devices[c]] and [data_disk_per_cvg] data disks [d1], [d2],
    ..., disk [k + 1] being [data_devices[c][k]]. Every device that was
    needed was there: the edit would have failed otherwise. *)
Theorem storage_section_written (md : list string) (dd : list (list string)) (g : Z)
    (ty : string) (d : Z) (sn sk ss dn dk ds : Z) (sm sd gs : string)
    (conf conf' : pyval) :
  cvg_edit md dd g ty d sn sk ss dn dk ds sm sd gs conf = Ok conf' ->
  exists storage,
    section conf' ["solution"; "storage"] = Ok (PDict storage)
    /\ length storage = Z.to_nat g
    /\ forall c, (c < Z.to_nat g)%nat ->
         exists m data,
           md !! c = Some m
           /\ storage !! c = Some
                ("cvg" ++ str_of_int (Z.of_nat c + 1),
                 PDict [("name", PStr ("cvg-0" ++ str_of_int (Z.of_nat c + 1)));
                        ("type", PStr ty);
                        ("devices",
                         PDict [("metadata", PDict [("device", PStr m); ("size", PStr sm)]);
                                ("data", PDict data)])])
           /\ length data = Z.to_nat d
           /\ forall k, (k < Z.to_nat d)%nat ->
                exists row dev,
                  dd !! c = Some row /\ row !! k = Some dev
                  /\ data !! k = Some ("d" ++ str_of_int (Z.of_nat k + 1),
                                       PDict [("device", PStr dev); ("size", PStr sd)]).
Proof.
  intros Hedit. apply cvg_edit_storage in Hedit as (storage & Hloop & Hsec).
  exists storage. split; [exact Hsec |].
  unfold range in Hloop.
  apply cvg_loop in Hloop as (l & -> & Hlen & Hl); [| intros; apply not_elem_of_nil].
  cbn [app]. split; [exact Hlen |]. exact Hl.
Qed.
End StorageSection.

(** ** The secrets and the common section *)

Section PasswordSection.
Import Manifest Lib.

Lemma dict_get_fold_set {A V} (f : A -> V) (k : string) (l : list (string * A))
    (acc : list (string * V)) :
  NoDup (dict_keys l) ->
  dict_get k (fold_left (fun acc kv => dict_set (fst kv) (f (snd kv)) acc) l acc)
  = match dict_get k l with Some v => Some (f v) | None => dict_get k acc end.
Proof.
  revert acc. induction l as [|[k' v'] l IH]; intros acc Hnd; cbn; [reflexivity |].
  change (dict_keys ((k', v') :: l)) with (k' :: dict_keys l) in Hnd.
  apply NoDup_cons in Hnd as [Hnin Hnd]. rewrite IH by assumption.
  destruct (String.eqb_spec k k') as [-> | Hne].
  - apply dict_get_None in Hnin. rewrite Hnin. apply dict_get_set_eq.
  - rewrite dict_get_set_ne by assumption. reflexivity.
Qed.

Lemma fold_set_NoDup {A V} (f : A -> V) (l : list (string * A)) (acc : list (string * V)) :
  NoDup (dict_keys acc) ->
  NoDup (dict_keys (fold_left (fun acc kv => dict_set (fst kv) (f (snd kv)) acc) l acc)).
Proof.
  revert acc. induction l as [|[k' v'] l IH]; intros acc Hnd; cbn; [assumption |].
  apply IH, dict_set_NoDup, Hnd.
Qed.

(** X19. What [update_password_sol_file] changes in the manifest. When
    the edit goes through, the common section has the configured
    provisioner path and S3 start timeout, every configured secret is in
    the secrets under its key, decrypted, and a secret of the manifest
    that the configuration does not name is still what it was. *)
Theorem secrets_decrypted (cfg : deploy_cfg) (dec : string -> string)
    (conf conf' : pyval) :
  NoDup (dict_keys (cfg_password cfg)) ->
  password_edit cfg dec conf = Ok conf' ->
  section conf' ["solution"; "common"; "storage_provisioner_path"]
    = Ok (PStr (local_path_prov cfg))
  /\ section conf' ["solution"; "common"; "s3"; "max_start_timeout"]
     = Ok (PInt (s3_max_start_timeout cfg))
  /\ forall k,
       section conf' ["solution"; "secrets"; "content"; k]
       = match dict_get k (cfg_password cfg) with
         | Some v => Ok (PStr (dec v))
         | None => section conf ["solution"; "secrets"; "content"; k]
         end.
Proof.
  intros Hnd. unfold password_edit.
  repeat (match goal with
          | |- rbind ?r _ = Ok _ -> _ =>
              let x := fresh "x" in let H := fresh "H" in
              destruct r as [x |] eqn:H; [cbn [rbind] | discriminate]
          end).
  intros Hset.
  repeat match goal with
         | H : setitem ?v _ _ = Ok _ |- _ =>
             is_var v; destruct v; try discriminate H; cbn [setitem] in H;
             injection H as <-
         | H : as_dict ?v = Ok _ |- _ =>
             is_var v; destruct v; try discriminate H; cbn [as_dict] in H;
             injection H as <-
         end.
  unfold section. cbn [foldM getitem rbind] in *.
  repeat match goal with
         | H : match dict_get ?k ?d with _ => _ end = Ok _ |- _ =>
             let E := fresh "E" in
             destruct (dict_get k d) eqn:E; [injection H as -> | discriminate H]
         end.
  repeat (first [ rewrite dict_get_set_eq
                | rewrite dict_get_set_ne by discriminate
                | progress cbn [rbind getitem] ]).
  split; [reflexivity |]. split; [reflexivity |].
  intros k.
  repeat match goal with
         | H : dict_get _ _ = Some _ |- _ => rewrite H
         end.
  cbn [rbind getitem].
  rewrite dict_get_update
    by apply (fold_set_NoDup (fun v => PStr (dec v))), NoDup_nil_2.
  rewrite (dict_get_fold_set (fun v => PStr (dec v))) by assumption.
  destruct (dict_get k (cfg_password cfg)); [reflexivity |].
  repeat match goal with
         | H : dict_get _ _ = Some _ |- _ => rewrite H
         end.
  cbn. match goal with |- context [dict_get k ?c] => destruct (dict_get k c) end;
    reflexivity.
Qed.
End PasswordSection.

(** ** Tainting the masters *)

Section TaintEdges.
Import Lib.
Context (E : env) (cmd : commands).

(** X20. Tainting is not repeated. On masters whose taint check answers
    with [NoSchedule] whenever it is asked, the loop of the deployment
    only asks: it returns normally, and the commands it has sent are the
    checks, one for each master in order, with no taint command between
    them. *)
Theorem tainted_masters_only_checked (masters : list LogicalNode) (w : world) :
  (forall h m, m ∈ masters ->
     exists resp, host_bytes E h (hostname m) (K8S_CHK_TAINT cmd (hostname m)) = Ok resp
                  /\ str_contains "NoSchedule" resp = true) ->
  exists w',
    taint_masters E cmd masters w = (Ok tt, w')
    /\ trace w'
       = (rev (map (fun m => Exec (hostname m) (K8S_CHK_TAINT cmd (hostname m))) masters)
            ++ trace w)%list
    /\ files w' = files w.
Proof.
  revert w. induction masters as [|m rest IH]; intros w Hall.
  - exists w. repeat split.
  - destruct (Hall (trace w) m) as (resp & Hresp & Hhas); [by left |].
    cbn [taint_masters]. unfold validate_master_tainted, execute_cmd, bind, ret.
    rewrite Hresp. cbn iota beta. rewrite Hhas. cbn [negb]. cbn iota beta.
    match goal with |- context [taint_masters E cmd rest ?w1] =>
      destruct (IH w1) as (w' & Hrun & Htrace & Hfiles) end.
    { intros h m' Hm'. apply Hall. by right. }
    exists w'. split; [exact Hrun |]. rewrite Htrace, Hfiles. cbn [trace files map rev].
    split; [by rewrite <- app_assoc | reflexivity].
Qed.
End TaintEdges.

(** ** The pod listing *)

Section PodStatus.
Import Lib Pods.
Context (E : env) (cmd : commands).

(** The loop from line [s] to the end looks at every line from [s] on. *)
Lemma status_loop_from (resp : list string) (n s : nat) :
  (s + n = length resp)%nat ->
  status_loop resp (map (fun k => Z.of_nat s + Z.of_nat k) (seq 0 n))
  = Ok (forallb (str_contains "Running") (drop s resp)).
Proof.
  revert s. induction n as [|n IH]; intros s Hlen.
  - cbn. rewrite drop_ge by lia. reflexivity.
  - destruct (lookup_lt_is_Some_2 resp s) as [x Hx]; [lia |].
    cbn [seq map status_loop]. rewrite (index_lookup resp _ x) by (lia || (by
      replace (Z.to_nat (Z.of_nat s + Z.of_nat 0)) with s by lia)).
    cbn [rbind]. rewrite (drop_S resp x s Hx). cbn [forallb].
    destruct (str_contains "Running" x); [| reflexivity]. cbn [negb andb].
    rewrite <- seq_shift, map_map. rewrite <- (IH (S s)) by lia.
    f_equal. apply map_ext. intros k. lia.
Qed.

(** X21. [check_pods_status] never looks at the first line of the pod
    listing (its header): the answer is [True] exactly when every later
    line contains ["Running"], so also for a listing that is empty or has
    the header only; no listing makes the line lookup fail. *)
Theorem pods_status_skips_header (node : LogicalNode) (w : world) (resp : list string) :
  host_lines E (trace w) (hostname node) (CMD_POD_STATUS cmd) = Ok resp ->
  fst (check_pods_status E cmd node w)
  = Ok (forallb (str_contains "Running") (drop 1 resp)).
Proof.
  intros Hout. unfold check_pods_status, bind, execute_cmd_lines, lift. rewrite Hout.
  cbn [fst]. unfold range_from, len.
  destruct resp as [|header rest]; [reflexivity |].
  replace (Z.to_nat (Z.of_nat (length (header :: rest)) - 1)) with (length rest)
    by (cbn [length]; lia).
  apply (status_loop_from (header :: rest) (length rest) 1). reflexivity.
Qed.
End PodStatus.

(** ** Examples *)

Section MoreExamples.
Import Partition Manifest Lib Lab Cases Pods.

(** Witness for X1: two workers of nine devices each, and their system
    disks. *)
Lemma system_disk_for_every_worker_witness :
  exists disk,
    dict_get "w2" [("w1", "/dev/sda"); ("w2", "/dev/sda")] = Some disk.
Proof.
  destruct (system_disk_for_every_worker (plain_env 9) config cmds
              [node "w1"; node "w2"] "solution.yaml" "cortx-all:2.0"
              (kwargs 2 2 (1, 0, 0) (1, 0, 0) false) world0
              (snd (update_sol_yaml (plain_env 9) config cmds [node "w1"; node "w2"]
                      "solution.yaml" "cortx-all:2.0"
                      (kwargs 2 2 (1, 0, 0) (1, 0, 0) false) world0))
              "solution.yaml" [("w1", "/dev/sda"); ("w2", "/dev/sda")])
    as [_ H].
  - vm_compute. reflexivity.
  - apply (H (node "w2")). right. left.
Defined.

(** Witness for X2: two rounds with two data disks per volume group. *)
Lemma data_disk_per_cvg_settled_witness :
  exists v' w',
    sol_loop (plain_env 9) cmds (kwargs 2 2 (1, 0, 0) (1, 0, 0) false) 2
             [node "w1"; node "w2"] (init_vars 2) world0 = (Ok (Continue v'), w')
    /\ data_disk_per_cvg v' = 2.
Proof.
  destruct (sol_loop (plain_env 9) cmds (kwargs 2 2 (1, 0, 0) (1, 0, 0) false) 2
              [node "w1"; node "w2"] (init_vars 2) world0)
    as [[[m | v'] | e] w'] eqn:H; try (vm_compute in H; discriminate H).
  exists v', w'. split; [reflexivity |].
  apply (data_disk_per_cvg_settled (plain_env 9) cmds _ _ _ (init_vars 2) v' _ _ H).
  discriminate.
Defined.

(** Witness for X3: nine devices, two volume groups of two disks: three
    slices, the third one a surplus. *)
Lemma under_use_slices_witness :
  exists v',
    node_step 2 false 1 1 "w1" (devs 9) (init_vars 2) = Ok (Continue v')
    /\ data_devices v' = [["/dev/sdd"; "/dev/sde"]; ["/dev/sdf"; "/dev/sdg"];
                          ["/dev/sdh"; "/dev/sdi"]].
Proof.
  destruct (under_use_slices 2 false 1 1 "w1" (devs 9) (init_vars 2) 2)
    as (v' & m & Hrun & -> & _ & Hdata & _);
    [lia | lia | reflexivity | reflexivity | vm_compute; reflexivity |].
  exists v'. split; [exact Hrun |]. rewrite Hdata. vm_compute. reflexivity.
Defined.

(** Witness for X4: no volume group and no size given. *)
Lemma zero_groups_division_error_witness :
  fst (update_sol_yaml (plain_env 9) config cmds [node "w1"] "solution.yaml"
         "cortx-all:2.0" (kwargs 0 0 (1, 0, 0) (1, 0, 0) false) world0)
  = Raise ZeroDivisionError.
Proof.
  destruct (zero_groups_division_error (plain_env 9) config cmds (node "w1") []
              "solution.yaml" "cortx-all:2.0" (kwargs 0 0 (1, 0, 0) (1, 0, 0) false)
              world0 (snd (list_devices (plain_env 9) cmds (node "w1") world0)) (devs 9))
    as [H _]; [vm_compute; reflexivity | reflexivity | reflexivity |].
  rewrite H. reflexivity.
Defined.

(** Witness for X5: three devices for two volume groups, the check
    skipped. *)
Lemma no_data_device_value_error_witness :
  fst (update_sol_yaml (sized_env 3 "8") config cmds [node "w1"] "solution.yaml"
         "cortx-all:2.0" (kwargs 2 0 (1, 0, 0) (1, 0, 0) true) world0)
  = Raise ValueError.
Proof.
  destruct (no_data_device_value_error (sized_env 3 "8") config cmds (node "w1") []
              "solution.yaml" "cortx-all:2.0" (kwargs 2 0 (1, 0, 0) (1, 0, 0) true)
              world0 (snd (list_devices (sized_env 3 "8") cmds (node "w1") world0))
              (devs 3))
    as [H _];
    [vm_compute; reflexivity | reflexivity | reflexivity | reflexivity | reflexivity |].
  rewrite H. reflexivity.
Defined.

(** Witness for X6: no worker, two volume groups, the template manifest. *)
Lemma no_worker_partial_write_witness :
  exists w',
    update_sol_yaml (plain_env 9) config cmds [] "solution.yaml" "cortx-all:2.0"
                    (kwargs 2 2 (1, 0, 0) (1, 0, 0) false) world0
    = (Raise IndexError, w')
    /\ trace w' = [Dump "solution.yaml"; Dump "solution.yaml"].
Proof.
  edestruct (no_worker_partial_write (plain_env 9) config cmds "solution.yaml"
               "cortx-all:2.0" (kwargs 2 2 (1, 0, 0) (1, 0, 0) false) world0 template)
    as (w' & Hrun & _ & Htrace).
  - reflexivity.
  - vm_compute. reflexivity.
  - vm_compute. reflexivity.
  - vm_compute. reflexivity.
  - vm_compute. reflexivity.
  - vm_compute. reflexivity.
  - reflexivity.
  - exists w'. split; [exact Hrun | exact Htrace].
Defined.

(** Witness for X7: the job answers FAILURE. *)
Lemma failed_cluster_setup_stops_run_witness :
  exists w',
    test_deployment failed_job config cmds "cortx-all:2.0"
                    (kwargs 2 2 (1, 0, 0) (1, 0, 0) false) [node "m1"] [node "w1"]
                    (all_flags true true true) world0
    = (Raise (AssertionError "FAILURE"), w')
    /\ trace w' = [Call "Provisioner.build_job"].
Proof.
  destruct (failed_cluster_setup_stops_run failed_job config cmds "cortx-all:2.0"
              (kwargs 2 2 (1, 0, 0) (1, 0, 0) false) (node "m1") (node "w1") [] []
              (all_flags true true true) world0
              (PDict [("url", PStr "http://jenkins/job/2"); ("result", PStr "FAILURE")])
              (PStr "http://jenkins/job/2") (PStr "FAILURE"))
    as (w' & Hrun & Htrace & _);
    [reflexivity | reflexivity | reflexivity | reflexivity | discriminate |].
  exists w'. split; [exact Hrun | exact Htrace].
Defined.


(** Witness for X9: two CPUs where four are needed. *)
Lemma prereq_stops_at_cpu_witness :
  exists w',
    prereq_vm (sized_env 9 "2") config cmds (node "w1") world0
    = (Ok (false, "No of CPU are not as expected."), w')
    /\ trace w' = [Exec "w1" "nproc"; Exec "w1" "ping -c 1 w1"].
Proof.
  apply (prereq_stops_at_cpu (sized_env 9 "2") config cmds (node "w1") world0
           [] [] "2" 2); [reflexivity | reflexivity | reflexivity | reflexivity].
Defined.

(** Witness for X10: the ping of worker [w1] fails. *)
Lemma prereq_raises_witness :
  exists w',
    prereq_vm ping_fails_on_w1 config cmds (node "w1") world0
    = (Raise (ExecFailure "ping -c 1 w1"), w')
    /\ trace w' = [Exec "w1" "ping -c 1 w1"].
Proof.
  destruct (prereq_raises ping_fails_on_w1 config cmds (node "w1") world0) as [H _].
  apply (H (ExecFailure "ping -c 1 w1")). reflexivity.
Defined.

(** Witness for X11: the first of two workers has too few CPUs. *)
Lemma failed_prereq_stops_deployment_witness :
  fst (deploy_cortx_cluster (sized_env 9 "2") config cmds [node "m1"]
         [node "w1"; node "w2"] [("w1", "/dev/sda"); ("w2", "/dev/sda")] world0)
  = Raise (AssertionError "No of CPU are not as expected.").
Proof.
  assert (Hbad : prereq_vm (sized_env 9 "2") config cmds (node "w1") world0
                 = (Ok (false, "No of CPU are not as expected."),
                    snd (prereq_vm (sized_env 9 "2") config cmds (node "w1") world0)))
    by (vm_compute; reflexivity).
  exact (f_equal fst
           (failed_prereq_stops_deployment (sized_env 9 "2") config cmds (node "m1") []
              [] [node "w2"] (node "w1") [("w1", "/dev/sda"); ("w2", "/dev/sda")]
              world0 world0 _ "No of CPU are not as expected." eq_refl Hbad)).
Defined.

(** Witness for X12: a deployment that goes through. *)
Lemma deployment_answer_is_status_check_witness :
  exists payload w',
    deploy_cortx_cluster (plain_env 9) config cmds [node "m1"] [node "w1"]
                         [("w1", "/dev/sda")] world0 = (Ok (Some (true, payload)), w').
Proof.
  destruct (deploy_cortx_cluster (plain_env 9) config cmds [node "m1"] [node "w1"]
              [("w1", "/dev/sda")] world0) as [[r | e] w'] eqn:H;
    [| vm_compute in H; discriminate H].
  destruct (deployment_answer_is_status_check (plain_env 9) config cmds _ _ _ _ _ _ _ _ H)
    as (lines & w1 & Hlines & -> & _).
  vm_compute in Hlines. injection Hlines as <-.
  eexists _, w'. reflexivity.
Defined.

(** Witness for X13: a teardown in which the unmount fails on [w1]. *)
Lemma destroy_setup_never_raises_witness :
  exists b payload w',
    destroy_setup umount_fails_on_w1 config (node "m1") [node "w1"; node "w2"] world0
    = (Ok (b, payload), w').
Proof.
  destruct (destroy_setup_never_raises umount_fails_on_w1 config (node "m1")
              [node "w1"; node "w2"] world0) as (b & payload & w' & H & _).
  exists b, payload, w'. exact H.
Defined.

(** Witness for X14: the status document with one service offline. *)
Lemma hctl_verdict_first_offender_witness :
  exists msg, hctl_verdict status_offline = Ok (false, msg).
Proof.
  destruct (hctl_verdict_first_offender status_offline
              [(PStr "hax", PStr "started"); (PStr "ioservice", PStr "started");
               (PStr "hax", PStr "started"); (PStr "s3server", PStr "offline")])
    as (b & msg & Hrun & Hiff & _); [reflexivity |].
  destruct b; [| exists msg; exact Hrun].
  destruct Hiff as [Hall _]. specialize (Hall eq_refl).
  do 3 apply Forall_cons in Hall as [_ Hall]. apply Forall_cons in Hall as [Hbad _].
  discriminate Hbad.
Defined.

(** Witness for X15: the pod listing of the laboratory, after its header. *)
Lemma get_pod_name_first_match_witness :
  fst (get_pod_name (plain_env 9) cmds (node "m1") "cortx-data-pod" world0)
  = Ok (true, "cortx-data-pod-w1").
Proof.
  destruct (get_pod_name_first_match (plain_env 9) cmds (node "m1") "cortx-data-pod"
              world0 ["NAME"; "cortx-data-pod-w1 "]) as [H _]; [reflexivity |].
  apply (H ["NAME"] "cortx-data-pod-w1 " []); [reflexivity | | reflexivity].
  repeat constructor.
Defined.

(** Witness for X16: the line of three devices. *)
Lemma device_line_round_trip_witness :
  fst (list_devices (plain_env 3) cmds (node "w1") world0)
  = Ok ["/dev/sda"; "/dev/sdb"; "/dev/sdc"].
Proof.
  apply (device_line_round_trip (plain_env 3) cmds (node "w1") world0
           "/dev/sda" ["/dev/sdb"; "/dev/sdc"] []); [reflexivity |].
  repeat (constructor; try (split; discriminate)).
Defined.

(** Witness for X17: two workers replace the node of the template. *)
Lemma nodes_section_rewritten_witness :
  exists w' conf' nodes,
    update_nodes_sol_file "solution.yaml" [node "w1"; node "w2"] world0
    = (Ok (true, "solution.yaml"), w')
    /\ section conf' ["solution"; "nodes"] = Ok (PDict nodes)
    /\ nodes = [("node1", PDict [("name", PStr "w1")]);
                ("node2", PDict [("name", PStr "w2")])].
Proof.
  destruct (nodes_section_rewritten "solution.yaml" [node "w1"; node "w2"] world0
              template [("node1", PDict [("name", PStr "old-host")])])
    as (w' & conf' & nodes & Hrun & _ & Hsec & Hlen & Hnodes);
    [reflexivity | reflexivity |].
  exists w', conf', nodes. split; [exact Hrun |]. split; [exact Hsec |].
  pose proof (Hnodes 0%nat (node "w1") eq_refl) as H0.
  pose proof (Hnodes 1%nat (node "w2") eq_refl) as H1.
  destruct nodes as [|n1 [|n2 [|n3 nodes]]]; try discriminate Hlen.
  cbn in H0, H1. injection H0 as ->. injection H1 as ->. reflexivity.
Defined.

(** Witness for X18: two volume groups of two disks in the template. *)
Lemma storage_section_written_witness :
  exists conf' storage,
    cvg_edit ["/dev/sdb"; "/dev/sdc"]
             [["/dev/sdd"; "/dev/sde"]; ["/dev/sdf"; "/dev/sdg"]]
             2 "ios" 2 1 0 0 1 0 0 "20Gi" "20Gi" "20Gi" template = Ok conf'
    /\ section conf' ["solution"; "storage"] = Ok (PDict storage)
    /\ length storage = 2%nat.
Proof.
  destruct (cvg_edit ["/dev/sdb"; "/dev/sdc"]
              [["/dev/sdd"; "/dev/sde"]; ["/dev/sdf"; "/dev/sdg"]]
              2 "ios" 2 1 0 0 1 0 0 "20Gi" "20Gi" "20Gi" template)
    as [conf' | e] eqn:H; [| vm_compute in H; discriminate H].
  destruct (storage_section_written _ _ _ _ _ _ _ _ _ _ _ _ _ _ _ _ H)
    as (storage & Hsec & Hlen & _).
  exists conf', storage. split; [reflexivity |]. split; [exact Hsec | exact Hlen].
Defined.

(** Witness for X19: the secret of the laboratory configuration. *)
Lemma secrets_decrypted_witness :
  exists conf',
    password_edit config (decrypt (plain_env 9)) template = Ok conf'
    /\ section conf' ["solution"; "secrets"; "content"; "openldap_admin_secret"]
       = Ok (PStr "plain-enc-ldap").
Proof.
  destruct (password_edit config (decrypt (plain_env 9)) template)
    as [conf' | e] eqn:H; [| vm_compute in H; discriminate H].
  destruct (secrets_decrypted config (decrypt (plain_env 9)) template conf')
    as (_ & _ & Hk); [repeat constructor; apply not_elem_of_nil | exact H |].
  exists conf'. split; [reflexivity |]. rewrite Hk. reflexivity.
Defined.

(** Witness for X20: two masters that have the taint. *)
Lemma tainted_masters_only_checked_witness :
  exists w',
    taint_masters tainted_env cmds [node "m1"; node "m2"] world0 = (Ok tt, w')
    /\ trace w' = [Exec "m2" "kubectl describe node m2 | grep Taints";
                   Exec "m1" "kubectl describe node m1 | grep Taints"].
Proof.
  destruct (tainted_masters_only_checked tainted_env cmds [node "m1"; node "m2"] world0)
    as (w' & Hrun & Htrace & _).
  - intros h m Hm. exists "Taints: node-role.kubernetes.io/master:NoSchedule".
    apply elem_of_cons in Hm as [-> | Hm]; [split; reflexivity |].
    apply elem_of_cons in Hm as [-> | Hm]; [split; reflexivity |].
    by apply elem_of_nil in Hm.
  - exists w'. split; [exact Hrun | exact Htrace].
Defined.

(** Witness for X21: a listing whose second pod is pending. *)
Lemma pods_status_skips_header_witness :
  fst (check_pods_status (pods_env "Pending") cmds (node "m1") world0) = Ok false.
Proof.
  apply (pods_status_skips_header (pods_env "Pending") cmds (node "m1") world0
           ["NAME  READY  STATUS";
            "cortx-data-pod-w1  1/1  Running";
            "cortx-data-pod-w2  0/1  Pending"]).
  reflexivity.
Defined.
End MoreExamples.
